(** * FlexSim MCP server: a shallow embedding and its verified properties

    The development follows the source files that carry logic:

    - [src/utility/config.py]  (modules [Config] and [ConfigAccess]): where
      the configuration file is looked for, how it is loaded, the
      environment overrides, the properties, [get] and the global instance;
    - [src/mcp_server/flexsim_mcp.py] (modules [Server] and [Session]): the
      input models and their validation, [format_time], [format_error], the
      engine launch, the controller accessor and the fifteen tools;
    - [src/utility/utility.py] (module [Utility]): the redirection of
      stderr and the killing of FlexSim processes;
    - [src/utility/build_automation.py] (module [Builder]): where the
      builder looks for the FlexSim installation, the build of the
      FlexSimPy module and what makes sure it is available;
    - [src/utility/integration_test.py] (module [IntegrationTest]): where
      the integration test looks for the FlexSim installation;
    - [src/utility/copy_flexsim.py] (module [CopyFlexSim]): the copy of the
      FlexSim installation into the repository.

    Python values are modelled as follows.
    - [str] is [string], the bytes of the text in UTF-8; [len] counts the
      characters (the bytes that start one), [lower()] is ASCII
      lower-casing (the keywords the code compares with are ASCII), [x in s]
      is substring search.
    - [pathlib] is the one of CPython 3.10 and 3.11 (3.10 is the version
      the configuration of the repository names): a Windows path is split
      from its drive and root, UNC shares and the [\\?\] prefix
      included, before its name and suffix are read.
    - [float] is the kernel's binary64 [float]; [<], [>=], [/] and [-] are
      the IEEE operations and [f"{x:.2f}"] is [PyFloat.fmt_2f], the exact
      value rounded half-to-even to two decimals.
    - [int] is [Z].
    - An exception is an instance of [Exception], what [except Exception]
      catches: a class and a message; [str(e)] is the message.
    - The vendor engine ([FlexSimPy.launch] and the controller it returns)
      is an arbitrary deterministic state machine: each call returns a
      value or raises, and moves the engine to a new state.
    - The utilities run on an arbitrary machine: a disk, of which they ask
      whether a path exists, and the programs and library calls that change
      it, each an arbitrary function of the disk; what they do is logged in
      the order they do it.

    Part I holds the embedding, Part II the facts proved about it. *)

From Stdlib Require Import ZArith NArith List String Ascii Bool Lia.
From Stdlib Require Import Floats DecimalString.
Import ListNotations.

Local Open Scope list_scope.
Local Open Scope string_scope.

(* ================================================================== *)
(** * Part I: the embedding *)
(* ================================================================== *)

(** ** Python strings *)

Module PyStr.

(** The characters a Rocq string literal cannot hold as they are. *)
Definition dq : string := String (ascii_of_nat 34) EmptyString.
Definition nl : string := String (ascii_of_nat 10) EmptyString.

(** [c.lower()] on one ASCII character. *)
Definition lower_ascii (c : ascii) : ascii :=
  let n := N_of_ascii c in
  if ((65 <=? n) && (n <=? 90))%N then ascii_of_N (n + 32) else c.

(** [s.lower()] *)
Fixpoint lower (s : string) : string :=
  match s with
  | EmptyString => EmptyString
  | String c t => String (lower_ascii c) (lower t)
  end.

(** [s.startswith(p)] *)
Fixpoint startswith (p s : string) : bool :=
  match p, s with
  | EmptyString, _ => true
  | String _ _, EmptyString => false
  | String a p', String b s' => Ascii.eqb a b && startswith p' s'
  end.

(** [needle in hay] *)
Fixpoint contains (needle hay : string) : bool :=
  startswith needle hay
  || match hay with
     | EmptyString => false
     | String _ t => contains needle t
     end.

(** The declarative reading of [needle in hay]. *)
Definition Substring (needle hay : string) : Prop :=
  exists a b, hay = a ++ needle ++ b.

(** [bool(s)]: a string is truthy when it is not empty. *)
Definition truthy (s : string) : bool := negb (s =? "").

(** A byte that continues a character of the UTF-8 text: [10xxxxxx]. *)
Definition is_continuation (c : ascii) : bool :=
  let n := N_of_ascii c in ((128 <=? n) && (n <? 192))%N.

(** The characters of a string: the bytes that start one. *)
Fixpoint characters (s : string) : nat :=
  match s with
  | EmptyString => O
  | String c t => ((if is_continuation c then 0 else 1) + characters t)%nat
  end.

(** [len(s)]: the number of characters, which is what the constraints
    [min_length] and [max_length] count. *)
Definition len (s : string) : Z := Z.of_nat (characters s).

(** [c * n] for a character [c]. *)
Fixpoint replicate (n : nat) (c : ascii) : string :=
  match n with
  | O => EmptyString
  | S k => String c (replicate k c)
  end.

(** [str(n)] for a non-negative [int]. *)
Definition of_N (n : N) : string := NilZero.string_of_uint (N.to_uint n).

(** [str(z)] for an [int]. *)
Definition of_Z (z : Z) : string :=
  match z with
  | Zneg p => "-" ++ of_N (Npos p)
  | _ => of_N (Z.to_N z)
  end.

(** [s.rfind('.')], [None] for -1. *)
Fixpoint rfind_dot (s : string) : option nat :=
  match s with
  | EmptyString => None
  | String c t =>
      match rfind_dot t with
      | Some i => Some (S i)
      | None => if Ascii.eqb c "." then Some 0 else None
      end
  end.

End PyStr.

(** ** pathlib: the pure part of [Path], and the file system it asks *)

Module PyPath.

(** What the code asks the operating system: the path flavour, whether a
    path exists, what it resolves to, the working directory. *)
Record FileSystem : Type := {
  windows : bool;
  path_exists : string -> bool;
  path_resolve : string -> string;
  getcwd : string
}.

Definition backslash : ascii := ascii_of_nat 92.

Definition is_sep (win : bool) (c : ascii) : bool :=
  Ascii.eqb c "/" || (win && Ascii.eqb c backslash).

Fixpoint split_sep (win : bool) (cur p : string) : list string :=
  match p with
  | EmptyString => [cur]
  | String c t =>
      if is_sep win c then cur :: split_sep win EmptyString t
      else split_sep win (cur ++ String c EmptyString) t
  end.

(** [s.replace("/", "\")]: the alternative separator of Windows becomes
    the separator. *)
Fixpoint to_sep (s : string) : string :=
  match s with
  | EmptyString => EmptyString
  | String c t => String (if Ascii.eqb c "/" then backslash else c) (to_sep t)
  end.

(** [s[n:]] *)
Fixpoint drop (n : nat) (s : string) : string :=
  match n, s with
  | O, _ => s
  | Datatypes.S k, String _ t => drop k t
  | Datatypes.S _, EmptyString => EmptyString
  end.

(** [s.lstrip(c)] *)
Fixpoint lstrip (c : ascii) (s : string) : string :=
  match s with
  | String x t => if Ascii.eqb x c then lstrip c t else s
  | EmptyString => EmptyString
  end.

(** [s.find(c, start)], [None] for -1. *)
Fixpoint find_from (c : ascii) (start : nat) (s : string) : option nat :=
  match s with
  | EmptyString => None
  | String x t =>
      match start with
      | O =>
          if Ascii.eqb x c then Some O
          else option_map Datatypes.S (find_from c O t)
      | Datatypes.S k => option_map Datatypes.S (find_from c k t)
      end
  end.

(** [s[i:i+1] == c] *)
Definition at_is (i : nat) (c : ascii) (s : string) : bool :=
  match get i s with
  | Some x => Ascii.eqb x c
  | None => false
  end.

(** [s[0:1] in drive_letters]: an ASCII letter. *)
Definition drive_letter (s : string) : bool :=
  match get 0 s with
  | Some x =>
      let n := N_of_ascii x in
      (((65 <=? n) && (n <=? 90)) || ((97 <=? n) && (n <=? 122)))%N
  | None => false
  end.

(** [_split_extended_path], without the prefix it splits off: the path
    after [\\?\], in which a separator takes the place of [UNC]. *)
Definition split_extended_path (s : string) : string :=
  let ext_prefix :=
    String backslash (String backslash (String "?" (String backslash EmptyString))) in
  if PyStr.startswith ext_prefix s then
    let s := drop 4 s in
    if PyStr.startswith ("UNC" ++ String backslash EmptyString) s
    then String backslash (drop 3 s)
    else s
  else s.

(** The third component of [splitroot] on Windows, what is left of a path
    (its separators already backslashes) after its drive and root, as
    [pathlib] computes it up to Python 3.11. *)
Definition windows_rel (part : string) : string :=
  let part :=
    if at_is 0 backslash part && at_is 1 backslash part
    then split_extended_path part
    else part in
  let unc :=
    if at_is 1 backslash part && at_is 0 backslash part && negb (at_is 2 backslash part)
    then
      match find_from backslash 2 part with
      | Some index =>
          match find_from backslash (Datatypes.S index) part with
          | Some index2 =>
              if (index2 =? Datatypes.S index)%nat then None
              else Some (drop (Datatypes.S index2) part)
          | None => Some EmptyString
          end
      | None => None
      end
    else None in
  match unc with
  | Some rel => rel
  | None =>
      let has_drive := at_is 1 ":" part && drive_letter part in
      let rest := if has_drive then drop 2 part else part in
      if at_is 0 backslash rest then lstrip backslash rest else rest
  end.

(** What is left of a path after its drive and root. *)
Definition rel (win : bool) (p : string) : string :=
  if win then windows_rel (to_sep p)
  else if at_is 0 "/" p then lstrip "/" p else p.

(** The components of a path after its drive and root: empty ones and
    ["."] are dropped. *)
Definition parts (win : bool) (p : string) : list string :=
  filter (fun s => negb (s =? "") && negb (s =? "."))
    (split_sep win EmptyString (rel win p)).

(** [Path(p).name]: the last component, or the empty string when the path
    is its drive and root alone. *)
Definition name (win : bool) (p : string) : string := last (parts win p) EmptyString.

(** [Path(p).suffix]: [name[i:]] when [0 < i < len(name) - 1] for
    [i = name.rfind('.')], else the empty string. *)
Definition suffix (win : bool) (p : string) : string :=
  let n := name win p in
  match PyStr.rfind_dot n with
  | Some i =>
      if (0 <? i)%nat && (i <? String.length n - 1)%nat
      then substring i (String.length n - i) n
      else EmptyString
  | None => EmptyString
  end.

(** [Path(p).stem] *)
Definition stem (win : bool) (p : string) : string :=
  let n := name win p in
  match PyStr.rfind_dot n with
  | Some i =>
      if (0 <? i)%nat && (i <? String.length n - 1)%nat
      then substring 0 i n
      else n
  | None => n
  end.

(** [a / b] *)
Definition joinpath (a b : string) : string := a ++ "/" ++ b.

End PyPath.

(** ** Python floats: the [.2f] format *)

Module PyFloat.

(** [m * 2^e * 100] rounded to the nearest integer, ties to even: the
    number of hundredths [.2f] prints for the finite value [m * 2^e]. *)
Definition hundredths (m : positive) (e : Z) : Z :=
  (if 0 <=? e then Zpos m * 2 ^ e * 100
   else
     let num := Zpos m * 100 in
     let den := 2 ^ (- e) in
     let q := num / den in
     let r := num mod den in
     match 2 * r ?= den with
     | Lt => q
     | Gt => q + 1
     | Eq => if Z.even q then q else q + 1
     end)%Z.

(** The two fractional digits. *)
Definition two_digits (r : Z) : string :=
  PyStr.of_Z (r / 10) ++ PyStr.of_Z (r mod 10).

Definition sign_str (s : bool) : string := if s then "-" else "".

(** [f"{x:.2f}"] *)
Definition fmt_2f (x : float) : string :=
  match Prim2SF x with
  | S754_nan => "nan"
  | S754_infinity s => sign_str s ++ "inf"
  | S754_zero s => sign_str s ++ "0.00"
  | S754_finite s m e =>
      let h := hundredths m e in
      sign_str s ++ PyStr.of_Z (h / 100) ++ "." ++ two_digits (h mod 100)
  end.

End PyFloat.

(** ** [src/utility/config.py] *)

Module Config.

(** The configuration document, [self._config]: each key the properties
    read is present with a value of its type, or absent. *)
Record dict : Type := {
  flexsim_install_path_key : option string;
  flexsim_alternative_paths_key : option (list string);
  python_version_key : option string;
  server_name_key : option string;
  server_version_key : option string;
  server_http_endpoint_key : option string;
  session_reuse_policy_key : option string;
  logging_level_key : option string;
  logging_log_file_key : option string
}.

(** What the loader asks its surroundings: the file system, [os.environ],
    the directory above this module's ([Path(__file__).parent.parent]) and
    the content of a TOML file ([None] when [open] or [tomli.load] raises). *)
Record System : Type := {
  fs : PyPath.FileSystem;
  environ : string -> option string;
  project_root_dir : string;
  toml_load : string -> option dict
}.

(** The argument [config_path: str | Path | None]. *)
Inductive path_arg : Type :=
| NoPath
| StrPath (s : string)
| PathObj (s : string).

(** [if config_path:] *)
Definition arg_truthy (a : path_arg) : bool :=
  match a with
  | NoPath => false
  | StrPath s => PyStr.truthy s
  | PathObj _ => true
  end.

(** [Path(config_path)] *)
Definition arg_path (a : path_arg) : string :=
  match a with
  | NoPath => EmptyString
  | StrPath s => s
  | PathObj s => s
  end.

(** [Config._find_config_file] *)
Definition _find_config_file (sys : System) (config_path : path_arg) : option string :=
  if arg_truthy config_path then
    let path := arg_path config_path in
    if PyPath.path_exists (fs sys) path then Some path else None
  else
    let from_env :=
      match environ sys "FLEXSIM_CONFIG_PATH" with
      | Some env_path =>
          if PyStr.truthy env_path && PyPath.path_exists (fs sys) env_path
          then Some env_path else None
      | None => None
      end in
    match from_env with
    | Some path => Some path
    | None =>
        let cwd_config := PyPath.joinpath (PyPath.getcwd (fs sys)) "config.toml" in
        if PyPath.path_exists (fs sys) cwd_config then Some cwd_config
        else
          let project_root := PyPath.joinpath (project_root_dir sys) "config.toml" in
          if PyPath.path_exists (fs sys) project_root then Some project_root
          else None
    end.

(** The places searched when no path is given, in the order of the search:
    the file [FLEXSIM_CONFIG_PATH] names (when it is set and not empty),
    then [config.toml] in the working directory, then [config.toml] in the
    project root. *)
Definition search_path (sys : System) : list string :=
  match environ sys "FLEXSIM_CONFIG_PATH" with
  | Some env_path => if PyStr.truthy env_path then [env_path] else []
  | None => []
  end
  ++ [PyPath.joinpath (PyPath.getcwd (fs sys)) "config.toml";
      PyPath.joinpath (project_root_dir sys) "config.toml"].

(** The lookup as the specification words it, a single chain of
    precedence: the explicit path, then the environment variable, then
    the working directory, then the install root; the first that exists
    wins. *)
Definition precedence_chain (sys : System) (config_path : path_arg) : option string :=
  find (PyPath.path_exists (fs sys))
    ((if arg_truthy config_path then [arg_path config_path] else [])
     ++ search_path sys).

(** [Config._set_defaults] *)
Definition _set_defaults : dict := {|
  flexsim_install_path_key := Some "FlexSimDev/program";
  flexsim_alternative_paths_key := None;
  python_version_key := Some "3.10";
  server_name_key := Some "FlexSimPy MCP Server";
  server_version_key := Some "0.1.0";
  server_http_endpoint_key := Some "http://127.0.0.1:8088/mcp";
  session_reuse_policy_key := Some "singleton";
  logging_level_key := Some "INFO";
  logging_log_file_key := None
|}.

(** [Config._load_config] *)
Definition _load_config (sys : System) (config_path : option string) : dict :=
  match config_path with
  | None => _set_defaults
  | Some p =>
      match toml_load sys p with
      | Some d => d
      | None => _set_defaults
      end
  end.

(** [os.environ.get(k)] read as [if value:]. *)
Definition env_set (sys : System) (k : string) : option string :=
  match environ sys k with
  | Some v => if PyStr.truthy v then Some v else None
  | None => None
  end.

(** [Config._apply_environment_overrides] *)
Definition _apply_environment_overrides (sys : System) (d : dict) : dict := {|
  flexsim_install_path_key :=
    match env_set sys "FLEXSIM_INSTALL_PATH" with
    | Some v => Some v
    | None => flexsim_install_path_key d
    end;
  flexsim_alternative_paths_key := flexsim_alternative_paths_key d;
  python_version_key :=
    match env_set sys "FLEXSIM_PYTHON_VERSION" with
    | Some v => Some v
    | None => python_version_key d
    end;
  server_name_key := server_name_key d;
  server_version_key := server_version_key d;
  server_http_endpoint_key := server_http_endpoint_key d;
  session_reuse_policy_key := session_reuse_policy_key d;
  logging_level_key :=
    match env_set sys "FLEXSIM_LOG_LEVEL" with
    | Some v => Some v
    | None => logging_level_key d
    end;
  logging_log_file_key := logging_log_file_key d
|}.

(** A [Config] object. *)
Record t : Type := {
  _config : dict;
  _config_path : option string
}.

(** [Config.__init__] *)
Definition __init__ (sys : System) (config_path : path_arg) : t :=
  let found := _find_config_file sys config_path in
  {| _config := _apply_environment_overrides sys (_load_config sys found);
     _config_path := found |}.

(** The properties [flexsim_install_path] and [flexsim_alternative_paths]. *)
Definition flexsim_install_path (c : t) : string :=
  match flexsim_install_path_key (_config c) with
  | Some p => p
  | None => EmptyString
  end.

Definition flexsim_alternative_paths (c : t) : list string :=
  match flexsim_alternative_paths_key (_config c) with
  | Some l => l
  | None => []
  end.

(** [get_config]: the global instance, created on first use. *)
Definition get_config (sys : System) (global : option t) : t * option t :=
  match global with
  | Some c => (c, Some c)
  | None => let c := __init__ sys NoPath in (c, Some c)
  end.

End Config.

(** ** [src/mcp_server/flexsim_mcp.py]: one tool call at a time *)

Module Server.

(** *** Exceptions, the engine and the state of the module *)

Inductive exc_class : Type :=
| RuntimeError
| FileNotFoundError
| OtherError.

Record exn : Type := {
  exn_class : exc_class;
  exn_msg : string
}.

(** What a call into the vendor library does: return or raise. *)
Inductive result (A : Type) : Type :=
| Ok (a : A)
| Raise (e : exn).
Arguments Ok {A} a.
Arguments Raise {A} e.

(** A controller object, as [FlexSimPy.launch] hands it out. *)
Definition handle : Type := nat.

(** The external collaborator over its own state [S]: [FlexSimPy.launch]
    and the controller's methods [open], [reset], [run], [stop], [time],
    [runToTime], [evaluate] ([evaluate] returns the value as [str] shows
    it); [elapse] is what the engine does on its own while the server
    sleeps for 100 ms. *)
Record Engine (S : Type) : Type := {
  launch : string -> S -> result handle * S;
  ctl_open : handle -> string -> S -> result unit * S;
  ctl_reset : handle -> S -> result unit * S;
  ctl_run : handle -> S -> result unit * S;
  ctl_stop : handle -> S -> result unit * S;
  ctl_time : handle -> S -> result float * S;
  ctl_runToTime : handle -> float -> S -> result unit * S;
  ctl_evaluate : handle -> string -> S -> result string * S;
  elapse : S -> S
}.
Arguments launch {S} _ _ _.
Arguments ctl_open {S} _ _ _ _.
Arguments ctl_reset {S} _ _ _.
Arguments ctl_run {S} _ _ _.
Arguments ctl_stop {S} _ _ _.
Arguments ctl_time {S} _ _ _.
Arguments ctl_runToTime {S} _ _ _ _.
Arguments ctl_evaluate {S} _ _ _ _.
Arguments elapse {S} _ _.

(** Everything around the server: the engine, the system the configuration
    is read from, whether [import FlexSimPy] succeeded, and [str] of a
    float. *)
Record Host (S : Type) : Type := {
  eng : Engine S;
  sys : Config.System;
  FlexSimPy_loaded : bool;
  repr_float : float -> string
}.
Arguments eng {S} _.
Arguments sys {S} _.
Arguments FlexSimPy_loaded {S} _.
Arguments repr_float {S} _.

(** The calls made into the vendor library, as they are logged. *)
Inductive call : Type :=
| CLaunch (programDir : string)
| COpen (path : string)
| CReset
| CRun
| CStop
| CTime
| CRunToTime (t : float)
| CEvaluate (script : string).

(** The module's globals ([_controller], and [config._config] of
    [config.py]), the engine's state and the log of calls. *)
Record World (S : Type) : Type := {
  _controller : option handle;
  _config_global : option Config.t;
  engine : S;
  calls : list call
}.
Arguments _controller {S} _.
Arguments _config_global {S} _.
Arguments engine {S} _.
Arguments calls {S} _.

(** *** Input models *)

Record OpenModelInput : Type := { model_path : string }.
Record RunToTimeInput : Type := { target_time : float; fast_mode : bool }.
Record EvaluateScriptInput : Type := { script : string }.

(** A value of type [Any]: a [str], or something else with its [str]. *)
Inductive pyvalue : Type :=
| PStr (s : string)
| PObj (shown : string).

Record NodeAccessInput : Type := { node_path : string; value : option pyvalue }.
Record SaveModelInput : Type := { save_path : option string }.
Record StepInput : Type := { steps : Z }.
Record ExportResultsInput : Type := { export_path : string; format : string }.

(** Why pydantic refuses an input: the constraint that failed and its
    field, or the [ValueError] of a field validator. *)
Inductive ValidationError : Type :=
| string_too_short (field : string)
| string_too_long (field : string)
| greater_than (field : string)
| greater_than_equal (field : string)
| less_than_equal (field : string)
| value_error (field msg : string).

(** [OpenModelInput.validate_path] *)
Definition validate_path (f : PyPath.FileSystem) (v : string) : string + string :=
  if negb (existsb (String.eqb (PyStr.lower (PyPath.suffix (PyPath.windows f) v)))
             [".fsm"; ".fsx"])
  then inl "Model must be .fsm or .fsx file"
  else if negb (PyPath.path_exists f v)
  then inl ("File not found: " ++ v)
  else inr (PyPath.path_resolve f v).

(** [model_path: str = Field(..., min_length=1)], then the validator. *)
Definition validate_OpenModelInput (f : PyPath.FileSystem) (model_path : string)
  : ValidationError + OpenModelInput :=
  if (PyStr.len model_path <? 1)%Z then inl (string_too_short "model_path")
  else
    match validate_path f model_path with
    | inl msg => inl (value_error "model_path" msg)
    | inr p => inr {| model_path := p |}
    end.

(** [target_time: float = Field(..., gt=0)], [fast_mode: bool = False] *)
Definition validate_RunToTimeInput (target_time : float) (fast_mode : option bool)
  : ValidationError + RunToTimeInput :=
  if (0 <? target_time)%float
  then inr {| target_time := target_time;
              fast_mode := match fast_mode with Some b => b | None => false end |}
  else inl (greater_than "target_time").

(** [script: str = Field(..., min_length=1, max_length=10000)] *)
Definition validate_EvaluateScriptInput (script : string)
  : ValidationError + EvaluateScriptInput :=
  if (PyStr.len script <? 1)%Z then inl (string_too_short "script")
  else if (10000 <? PyStr.len script)%Z then inl (string_too_long "script")
  else inr {| script := script |}.

(** [node_path: str = Field(..., min_length=1)], [value: Any | None = None] *)
Definition validate_NodeAccessInput (node_path : string) (value : option pyvalue)
  : ValidationError + NodeAccessInput :=
  if (PyStr.len node_path <? 1)%Z then inl (string_too_short "node_path")
  else inr {| node_path := node_path; value := value |}.

(** [save_path: str | None = None] *)
Definition validate_SaveModelInput (save_path : option string)
  : ValidationError + SaveModelInput :=
  inr {| save_path := save_path |}.

(** [steps: int = Field(default=1, ge=1, le=1000)] *)
Definition validate_StepInput (steps : option Z) : ValidationError + StepInput :=
  match steps with
  | None => inr {| steps := 1 |}
  | Some n =>
      if (n <? 1)%Z then inl (greater_than_equal "steps")
      else if (1000 <? n)%Z then inl (less_than_equal "steps")
      else inr {| steps := n |}
  end.

(** [export_path: str = Field(...)], [format: str = "csv"] *)
Definition validate_ExportResultsInput (export_path : string) (format : option string)
  : ValidationError + ExportResultsInput :=
  inr {| export_path := export_path;
         format := match format with Some f => f | None => "csv" end |}.

(** *** Helper functions *)

(** [format_time] *)
Definition format_time (seconds : float) : string :=
  if (seconds <? 60)%float then PyFloat.fmt_2f seconds ++ "s"
  else if (seconds <? 3600)%float then PyFloat.fmt_2f (seconds / 60)%float ++ "m"
  else PyFloat.fmt_2f (seconds / 3600)%float ++ "h".

(** [format_error] *)
Definition format_error (e : exn) : string :=
  let msg := exn_msg e in
  if PyStr.contains "not found" (PyStr.lower msg) then "Not found: " ++ msg
  else if PyStr.contains "syntax" (PyStr.lower msg) then "FlexScript syntax error: " ++ msg
  else if PyStr.contains "license" (PyStr.lower msg) then "License error: " ++ msg
  else if PyStr.contains "permission" (PyStr.lower msg) then "Permission denied: " ++ msg
  else "Error: " ++ msg.

(** *** Computations: state, exceptions, and a poll that has not ended *)

(** A computation returns, raises, or is still polling when its budget of
    iterations is used up. *)
Inductive outcome (A : Type) : Type :=
| Val (a : A)
| Exc (e : exn)
| Pending.
Arguments Val {A} a.
Arguments Exc {A} e.
Arguments Pending {A}.

Definition M (S A : Type) : Type := World S -> outcome A * World S.

Definition ret {S A : Type} (a : A) : M S A := fun w => (Val a, w).

Definition raise {S A : Type} (c : exc_class) (msg : string) : M S A :=
  fun w => (Exc {| exn_class := c; exn_msg := msg |}, w).

Definition pending {S A : Type} : M S A := fun w => (Pending, w).

Definition bind {S A B : Type} (m : M S A) (k : A -> M S B) : M S B :=
  fun w =>
    match m w with
    | (Val a, w') => k a w'
    | (Exc e, w') => (Exc e, w')
    | (Pending, w') => (Pending, w')
    end.

Notation "x <- m ;; k" := (bind m (fun x => k))
  (at level 61, m at next level, right associativity).

(** [try: body  except Exception as e: return handler(e)] *)
Definition try_except {S A : Type} (body : M S A) (handler : exn -> A) : M S A :=
  fun w =>
    match body w with
    | (Exc e, w') => (Val (handler e), w')
    | other => other
    end.

(** One call into the vendor library: it is logged, the engine moves. *)
Definition invoke {S A : Type} (c : call) (op : S -> result A * S) : M S A :=
  fun w =>
    let (r, s') := op (engine w) in
    let w' := {| _controller := _controller w;
                 _config_global := _config_global w;
                 engine := s';
                 calls := (calls w ++ [c])%list |} in
    match r with
    | Ok a => (Val a, w')
    | Raise e => (Exc e, w')
    end.

(** [await asyncio.sleep(0.1)]: the engine goes on by itself. *)
Definition sleep {S : Type} (E : Engine S) : M S unit :=
  fun w =>
    (Val tt, {| _controller := _controller w;
                _config_global := _config_global w;
                engine := elapse E (engine w);
                calls := calls w |}).

(** [get_config()] of [config.py], on the module's global. *)
Definition get_config {S : Type} (H : Host S) : M S Config.t :=
  fun w =>
    let (c, g) := Config.get_config (sys H) (_config_global w) in
    (Val c, {| _controller := _controller w;
               _config_global := g;
               engine := engine w;
               calls := calls w |}).

Definition read_controller {S : Type} : M S (option handle) :=
  fun w => (Val (_controller w), w).

Definition write_controller {S : Type} (c : handle) : M S unit :=
  fun w =>
    (Val tt, {| _controller := Some c;
                _config_global := _config_global w;
                engine := engine w;
                calls := calls w |}).

(** A computation settles when it never is still polling: whatever the
    state, it returns or raises. *)
Definition settles {S A : Type} (m : M S A) : Prop :=
  forall w, fst (m w) <> Pending.

(** [for _ in range(n): body] *)
Fixpoint for_range {S : Type} (n : nat) (body : M S unit) : M S unit :=
  match n with
  | O => ret tt
  | S k => _ <- body ;; for_range k body
  end.

(** *** Controller management and the tools *)

Section Tools.

Context {S : Type} (H : Host S).

(** [Path(p).exists()] *)
Definition exists_ (p : string) : bool :=
  PyPath.path_exists (Config.fs (sys H)) p.

(** The configuration [get_config()] hands out in a state of the module. *)
Definition current_config (w : World S) : Config.t :=
  fst (Config.get_config (sys H) (_config_global w)).

(** [launch_flexsim_sync] ([suppress_stderr] and the logging change nothing
    that is modelled). *)
Definition launch_flexsim_sync : M S handle :=
  if negb (FlexSimPy_loaded H)
  then raise RuntimeError "FlexSimPy module not available"
  else
    config <- get_config H ;;
    let program_dir := Config.flexsim_install_path config in
    resolved <-
      (if negb (exists_ program_dir) then
         match find exists_ (Config.flexsim_alternative_paths config) with
         | Some alt_path => ret alt_path
         | None =>
             raise FileNotFoundError
               ("FlexSim not found at " ++ program_dir ++ ". "
                ++ "Update config.toml with correct path.")
         end
       else ret program_dir) ;;
    invoke (CLaunch resolved) (launch (eng H) resolved).

(** [launch_flexsim]: the same, awaited from a worker thread. *)
Definition launch_flexsim : M S handle := launch_flexsim_sync.

(** [get_controller], called by one task: the lock is free when it is
    asked for and free again on the way out (module [Session] has the
    callers that overlap). *)
Definition get_controller : M S handle :=
  existing <- read_controller ;;
  match existing with
  | Some c => ret c
  | None =>
      c <- launch_flexsim ;;
      _ <- write_controller c ;;
      ret c
  end.

Definition time_ (controller : handle) : M S float :=
  invoke CTime (ctl_time (eng H) controller).

Definition evaluate_ (controller : handle) (script : string) : M S string :=
  invoke (CEvaluate script) (ctl_evaluate (eng H) controller script).

(** Each tool is [try: <body> except Exception as e: return <handler>(e)];
    the body of each [try] comes first, under the tool's name with [_body],
    then the tool. *)

Definition open_model_body (params : OpenModelInput) : M S string :=
  controller <- get_controller ;;
  _ <- invoke (COpen (model_path params))
         (ctl_open (eng H) controller (model_path params)) ;;
  let model_name :=
    PyPath.stem (PyPath.windows (Config.fs (sys H))) (model_path params) in
  time <- time_ controller ;;
  ret ("✓ Opened: " ++ model_name ++ PyStr.nl ++ "Time: " ++ format_time time).

(** [flexsim_open_model] *)
Definition flexsim_open_model (params : OpenModelInput) : M S string :=
  try_except (open_model_body params) format_error.

Definition reset_body : M S string :=
  controller <- get_controller ;;
  _ <- invoke CReset (ctl_reset (eng H) controller) ;;
  ret "✓ Simulation reset to time 0".

(** [flexsim_reset] *)
Definition flexsim_reset : M S string := try_except reset_body format_error.

Definition run_body : M S string :=
  controller <- get_controller ;;
  _ <- invoke CRun (ctl_run (eng H) controller) ;;
  ret "✓ Simulation running (use flexsim_stop to pause)".

(** [flexsim_run] *)
Definition flexsim_run : M S string := try_except run_body format_error.

(** The [while True] loop of the real-time mode, run for at most [budget]
    iterations: read the time, stop when the target is reached, otherwise
    sleep and go round again. *)
Fixpoint poll (budget : nat) (controller : handle) (target : float) : M S unit :=
  match budget with
  | O => pending
  | Datatypes.S k =>
      current <- time_ controller ;;
      if (target <=? current)%float
      then invoke CStop (ctl_stop (eng H) controller)
      else (_ <- sleep (eng H) ;; poll k controller target)
  end.

Definition run_to_time_body (budget : nat) (params : RunToTimeInput) : M S string :=
  controller <- get_controller ;;
  start <- time_ controller ;;
  if (target_time params <=? start)%float
  then ret ("Already at time " ++ format_time start)
  else
    _ <- (if fast_mode params
          then invoke (CRunToTime (target_time params))
                 (ctl_runToTime (eng H) controller (target_time params))
          else
            _ <- evaluate_ controller
                   ("setstoptime(" ++ repr_float H (target_time params) ++ ")") ;;
            _ <- invoke CRun (ctl_run (eng H) controller) ;;
            poll budget controller (target_time params)) ;;
    end_ <- time_ controller ;;
    let mode_str := if fast_mode params then "fast" else "real-time" in
    ret ("✓ Simulation complete (" ++ mode_str ++ ")" ++ PyStr.nl
         ++ "Start: " ++ format_time start ++ PyStr.nl
         ++ "End: " ++ format_time end_ ++ PyStr.nl
         ++ "Duration: " ++ format_time (end_ - start)%float).

(** [flexsim_run_to_time] *)
Definition flexsim_run_to_time (budget : nat) (params : RunToTimeInput) : M S string :=
  try_except (run_to_time_body budget params) format_error.

Definition stop_body : M S string :=
  controller <- get_controller ;;
  _ <- invoke CStop (ctl_stop (eng H) controller) ;;
  time <- time_ controller ;;
  ret ("✓ Stopped at " ++ format_time time).

(** [flexsim_stop] *)
Definition flexsim_stop : M S string := try_except stop_body format_error.

Definition get_time_body : M S string :=
  controller <- get_controller ;;
  time <- time_ controller ;;
  ret ("Time: " ++ format_time time ++ " (" ++ PyFloat.fmt_2f time ++ "s)").

(** [flexsim_get_time] *)
Definition flexsim_get_time : M S string := try_except get_time_body format_error.

(** One turn of the loop of [flexsim_step]. *)
Definition single_step (controller : handle) : M S unit :=
  _ <- evaluate_ controller "step()" ;; ret tt.

Definition step_body (params : StepInput) : M S string :=
  controller <- get_controller ;;
  start <- time_ controller ;;
  _ <- for_range (Z.to_nat (steps params)) (single_step controller) ;;
  end_ <- time_ controller ;;
  ret ("✓ Stepped " ++ PyStr.of_Z (steps params) ++ " events" ++ PyStr.nl
       ++ "Time: " ++ format_time start ++ " → " ++ format_time end_).

(** [flexsim_step] *)
Definition flexsim_step (params : StepInput) : M S string :=
  try_except (step_body params) format_error.

Definition evaluate_body (params : EvaluateScriptInput) : M S string :=
  controller <- get_controller ;;
  result <- evaluate_ controller (script params) ;;
  ret ("Result: " ++ result).

(** [flexsim_evaluate] *)
Definition flexsim_evaluate (params : EvaluateScriptInput) : M S string :=
  try_except (evaluate_body params) (fun e => "Script error: " ++ format_error e).

Definition get_node_value_body (params : NodeAccessInput) : M S string :=
  controller <- get_controller ;;
  let script := "getvalue(node(" ++ PyStr.dq ++ node_path params ++ PyStr.dq ++ "))" in
  result <- evaluate_ controller script ;;
  ret (node_path params ++ " = " ++ result).

(** [flexsim_get_node_value] *)
Definition flexsim_get_node_value (params : NodeAccessInput) : M S string :=
  try_except (get_node_value_body params) format_error.

Definition set_node_value_body (params : NodeAccessInput) : M S string :=
  controller <- get_controller ;;
  match value params with
  | None => ret "Error: No value provided"
  | Some v =>
      let script :=
        match v with
        | PStr s =>
            "setvalue(node(" ++ PyStr.dq ++ node_path params ++ PyStr.dq ++ "), "
            ++ PyStr.dq ++ s ++ PyStr.dq ++ ")"
        | PObj shown =>
            "setvalue(node(" ++ PyStr.dq ++ node_path params ++ PyStr.dq ++ "), "
            ++ shown ++ ")"
        end in
      _ <- evaluate_ controller script ;;
      let verify := "getvalue(node(" ++ PyStr.dq ++ node_path params ++ PyStr.dq ++ "))" in
      new_value <- evaluate_ controller verify ;;
      ret ("✓ " ++ node_path params ++ " = " ++ new_value)
  end.

(** [flexsim_set_node_value] *)
Definition flexsim_set_node_value (params : NodeAccessInput) : M S string :=
  try_except (set_node_value_body params) format_error.

Definition save_model_body (params : SaveModelInput) : M S string :=
  controller <- get_controller ;;
  let (script, location) :=
    match save_path params with
    | Some p =>
        if PyStr.truthy p
        then ("savemodel(" ++ PyStr.dq ++ p ++ PyStr.dq ++ ")", p)
        else ("savemodel()", "current location")
    | None => ("savemodel()", "current location")
    end in
  _ <- evaluate_ controller script ;;
  ret ("✓ Model saved to " ++ location).

(** [flexsim_save_model] *)
Definition flexsim_save_model (params : SaveModelInput) : M S string :=
  try_except (save_model_body params) format_error.

Definition new_model_body : M S string :=
  controller <- get_controller ;;
  _ <- evaluate_ controller "newmodel()" ;;
  ret "✓ New blank model created".

(** [flexsim_new_model] *)
Definition flexsim_new_model : M S string := try_except new_model_body format_error.

Definition compile_body : M S string :=
  controller <- get_controller ;;
  result <- evaluate_ controller "compilemodel()" ;;
  ret ("✓ Compilation complete: " ++ result).

(** [flexsim_compile] *)
Definition flexsim_compile : M S string := try_except compile_body format_error.

(** The script of [flexsim_get_statistics], a triple-quoted literal. *)
Definition stats_script : string :=
  PyStr.nl
  ++ "        {" ++ PyStr.nl
  ++ "            " ++ PyStr.dq ++ "time" ++ PyStr.dq ++ ": getmodeltime()," ++ PyStr.nl
  ++ "            " ++ PyStr.dq ++ "run_speed" ++ PyStr.dq ++ ": get(runspeed())," ++ PyStr.nl
  ++ "            " ++ PyStr.dq ++ "objects" ++ PyStr.dq ++ ": Model.subnodes.length," ++ PyStr.nl
  ++ "            " ++ PyStr.dq ++ "events" ++ PyStr.dq ++ ": geteventsprocessed()" ++ PyStr.nl
  ++ "        }" ++ PyStr.nl
  ++ "        ".

Definition get_statistics_body : M S string :=
  controller <- get_controller ;;
  result <- evaluate_ controller stats_script ;;
  ret ("Statistics:" ++ PyStr.nl ++ "```json" ++ PyStr.nl ++ result ++ PyStr.nl ++ "```").

(** [flexsim_get_statistics] *)
Definition flexsim_get_statistics : M S string :=
  try_except get_statistics_body format_error.

(** The export script [flexsim_export_results] builds from the format. *)
Definition export_script (params : ExportResultsInput) : string :=
  let fmt := PyStr.lower (format params) in
  if fmt =? "csv"
  then "exporttable(" ++ PyStr.dq ++ export_path params ++ PyStr.dq ++ ")"
  else if fmt =? "xlsx"
  then "exportexcel(" ++ PyStr.dq ++ export_path params ++ PyStr.dq ++ ")"
  else "exportjson(" ++ PyStr.dq ++ export_path params ++ PyStr.dq ++ ")".

Definition export_results_body (params : ExportResultsInput) : M S string :=
  controller <- get_controller ;;
  let script := export_script params in
  _ <- evaluate_ controller script ;;
  ret ("✓ Results exported to " ++ export_path params).

(** [flexsim_export_results] *)
Definition flexsim_export_results (params : ExportResultsInput) : M S string :=
  try_except (export_results_body params) format_error.

(** *** The tool surface

    A request names a tool and carries its arguments as the client sent
    them. The framework validates them against the tool's input model
    before the tool runs: a refused input is answered at once and the tool
    is not entered. *)

Inductive Request : Type :=
| open_model (model_path : string)
| reset
| run
| run_to_time (target_time : float) (fast_mode : option bool)
| stop
| get_time
| step (steps : option Z)
| evaluate (script : string)
| get_node_value (node_path : string) (value : option pyvalue)
| set_node_value (node_path : string) (value : option pyvalue)
| save_model (save_path : option string)
| new_model
| compile
| get_statistics
| export_results (export_path : string) (format : option string).

Inductive Response : Type :=
| Text (s : string)
| Rejected (e : ValidationError).

Definition validated {I : Type} (v : ValidationError + I) (tool : I -> M S string)
  : M S Response :=
  match v with
  | inl e => ret (Rejected e)
  | inr params => s <- tool params ;; ret (Text s)
  end.

Definition unvalidated (tool : M S string) : M S Response :=
  s <- tool ;; ret (Text s).

Definition call_tool (budget : nat) (r : Request) : M S Response :=
  match r with
  | open_model p =>
      validated (validate_OpenModelInput (Config.fs (sys H)) p) flexsim_open_model
  | reset => unvalidated flexsim_reset
  | run => unvalidated flexsim_run
  | run_to_time t f =>
      validated (validate_RunToTimeInput t f) (flexsim_run_to_time budget)
  | stop => unvalidated flexsim_stop
  | get_time => unvalidated flexsim_get_time
  | step n => validated (validate_StepInput n) flexsim_step
  | evaluate s => validated (validate_EvaluateScriptInput s) flexsim_evaluate
  | get_node_value p v => validated (validate_NodeAccessInput p v) flexsim_get_node_value
  | set_node_value p v => validated (validate_NodeAccessInput p v) flexsim_set_node_value
  | save_model p => validated (validate_SaveModelInput p) flexsim_save_model
  | new_model => unvalidated flexsim_new_model
  | compile => unvalidated flexsim_compile
  | get_statistics => unvalidated flexsim_get_statistics
  | export_results p f =>
      validated (validate_ExportResultsInput p f) flexsim_export_results
  end.

(** A request that passed validation, with its validated input. *)
Inductive Call : Type :=
| open_model_call (params : OpenModelInput)
| reset_call
| run_call
| run_to_time_call (params : RunToTimeInput)
| stop_call
| get_time_call
| step_call (params : StepInput)
| evaluate_call (params : EvaluateScriptInput)
| get_node_value_call (params : NodeAccessInput)
| set_node_value_call (params : NodeAccessInput)
| save_model_call (params : SaveModelInput)
| new_model_call
| compile_call
| get_statistics_call
| export_results_call (params : ExportResultsInput).

(** The validation of each request against its tool's input model. *)
Definition validate (r : Request) : ValidationError + Call :=
  match r with
  | open_model p =>
      match validate_OpenModelInput (Config.fs (sys H)) p with
      | inl e => inl e
      | inr v => inr (open_model_call v)
      end
  | reset => inr reset_call
  | run => inr run_call
  | run_to_time t f =>
      match validate_RunToTimeInput t f with
      | inl e => inl e
      | inr v => inr (run_to_time_call v)
      end
  | stop => inr stop_call
  | get_time => inr get_time_call
  | step n =>
      match validate_StepInput n with
      | inl e => inl e
      | inr v => inr (step_call v)
      end
  | evaluate s =>
      match validate_EvaluateScriptInput s with
      | inl e => inl e
      | inr v => inr (evaluate_call v)
      end
  | get_node_value p v =>
      match validate_NodeAccessInput p v with
      | inl e => inl e
      | inr v => inr (get_node_value_call v)
      end
  | set_node_value p v =>
      match validate_NodeAccessInput p v with
      | inl e => inl e
      | inr v => inr (set_node_value_call v)
      end
  | save_model p =>
      match validate_SaveModelInput p with
      | inl e => inl e
      | inr v => inr (save_model_call v)
      end
  | new_model => inr new_model_call
  | compile => inr compile_call
  | get_statistics => inr get_statistics_call
  | export_results p f =>
      match validate_ExportResultsInput p f with
      | inl e => inl e
      | inr v => inr (export_results_call v)
      end
  end.

(** The [try] block a validated request runs. *)
Definition try_block (budget : nat) (c : Call) : M S string :=
  match c with
  | open_model_call p => open_model_body p
  | reset_call => reset_body
  | run_call => run_body
  | run_to_time_call p => run_to_time_body budget p
  | stop_call => stop_body
  | get_time_call => get_time_body
  | step_call p => step_body p
  | evaluate_call p => evaluate_body p
  | get_node_value_call p => get_node_value_body p
  | set_node_value_call p => set_node_value_body p
  | save_model_call p => save_model_body p
  | new_model_call => new_model_body
  | compile_call => compile_body
  | get_statistics_call => get_statistics_body
  | export_results_call p => export_results_body p
  end.

(** What its [except] clause puts before [format_error(e)]. *)
Definition except_prefix (c : Call) : string :=
  match c with
  | evaluate_call _ => "Script error: "
  | _ => EmptyString
  end.

(** The requests whose tool enters the polling loop of the real-time mode
    (the default, [fast_mode=False]). *)
Definition polls (r : Request) : bool :=
  match r with
  | run_to_time _ (Some true) => false
  | run_to_time _ _ => true
  | _ => false
  end.

End Tools.

End Server.

(** ** [get_controller] under callers that overlap

    [N] tasks call [get_controller] on one event loop. A task runs until it
    awaits, so a call is cut in steps:
    - [Enter i]: task [i] gets [_controller_lock] (it can only when the lock
      is free), tests [_controller is None], and either returns the
      controller, giving the lock back, or starts [launch_flexsim()] and
      awaits it with the lock held;
    - [Complete i]: the launch task [i] awaits ends; on a result
      [_controller] is assigned and returned, on an exception it is raised
      to the caller; the lock is given back either way;
    - [Cancel i]: task [i] is cancelled where it awaits. [CancelledError]
      is raised there and ends the call. A task that waited for the lock
      leaves the queue. A task that awaited its launch gives the lock back
      on the way out of [async with] and assigns nothing, while the launch
      it started goes on in the worker thread of [run_in_executor], with
      nobody awaiting it;
    - [Abandoned]: such a launch ends in its thread: the engine is
      launched, or the launch raises, and the result is dropped. *)

Module Session.

Import Server.

Inductive task : Type :=
| Waiting
| Launching
| Returned (c : handle)
| Failed (e : exn)
| Cancelled.

(** The module's state, the lock, the callers, and how many launches go on
    in a worker thread without a caller. *)
Record state (S : Type) : Type := {
  world : World S;
  locked : bool;
  tasks : list task;
  unawaited : nat
}.
Arguments world {S} _.
Arguments locked {S} _.
Arguments tasks {S} _.
Arguments unawaited {S} _.

Inductive action : Type :=
| Enter (i : nat)
| Complete (i : nat)
| Cancel (i : nat)
| Abandoned.

Fixpoint set_task (i : nat) (t : task) (l : list task) : list task :=
  match l, i with
  | [], _ => []
  | _ :: r, O => t :: r
  | x :: r, Datatypes.S k => x :: set_task k t r
  end.

Definition step {S : Type} (H : Host S) (a : action) (st : state S) : option (state S) :=
  match a with
  | Enter i =>
      match nth_error (tasks st) i with
      | Some Waiting =>
          if locked st then None
          else
            match _controller (world st) with
            | Some c =>
                Some {| world := world st; locked := false;
                        tasks := set_task i (Returned c) (tasks st);
                        unawaited := unawaited st |}
            | None =>
                Some {| world := world st; locked := true;
                        tasks := set_task i Launching (tasks st);
                        unawaited := unawaited st |}
            end
      | _ => None
      end
  | Complete i =>
      match nth_error (tasks st) i with
      | Some Launching =>
          match launch_flexsim H (world st) with
          | (Val c, w') =>
              Some {| world := snd (write_controller c w'); locked := false;
                      tasks := set_task i (Returned c) (tasks st);
                      unawaited := unawaited st |}
          | (Exc e, w') =>
              Some {| world := w'; locked := false;
                      tasks := set_task i (Failed e) (tasks st);
                      unawaited := unawaited st |}
          | (Pending, _) => None
          end
      | _ => None
      end
  | Cancel i =>
      match nth_error (tasks st) i with
      | Some Waiting =>
          Some {| world := world st; locked := locked st;
                  tasks := set_task i Cancelled (tasks st);
                  unawaited := unawaited st |}
      | Some Launching =>
          Some {| world := world st; locked := false;
                  tasks := set_task i Cancelled (tasks st);
                  unawaited := Datatypes.S (unawaited st) |}
      | _ => None
      end
  | Abandoned =>
      match unawaited st with
      | O => None
      | Datatypes.S k =>
          match launch_flexsim H (world st) with
          | (Pending, _) => None
          | (_, w') =>
              Some {| world := w'; locked := locked st; tasks := tasks st;
                      unawaited := k |}
          end
      end
  end.

(** A schedule: the steps in the order the event loop takes them. *)
Fixpoint run_schedule {S : Type} (H : Host S) (sched : list action) (st : state S)
  : option (state S) :=
  match sched with
  | [] => Some st
  | a :: rest =>
      match step H a st with
      | Some st' => run_schedule H rest st'
      | None => None
      end
  end.

(** [N] callers, none of which has run yet. *)
Definition start {S : Type} (N : nat) (w : World S) : state S :=
  {| world := w; locked := false; tasks := repeat Waiting N; unawaited := 0 |}.

Definition reachable {S : Type} (H : Host S) (N : nat) (w : World S) (st : state S) : Prop :=
  exists sched, run_schedule H sched (start N w) = Some st.

Definition is_launch (c : call) : bool :=
  match c with
  | CLaunch _ => true
  | _ => false
  end.

(** How many times [FlexSimPy.launch] was called. *)
Definition launches {S : Type} (w : World S) : nat :=
  List.length (filter is_launch (calls w)).

Definition is_launching (t : task) : bool :=
  match t with
  | Launching => true
  | _ => false
  end.

Definition is_cancelled (t : task) : bool :=
  match t with
  | Cancelled => true
  | _ => false
  end.

(** A caller is done: it returned, its launch failed, or it was
    cancelled. *)
Definition finished (t : task) : bool :=
  match t with
  | Returned _ | Failed _ | Cancelled => true
  | _ => false
  end.

(** No caller was cancelled. *)
Definition undisturbed {S : Type} (st : state S) : Prop :=
  forall i, nth_error (tasks st) i <> Some Cancelled.

(** The launches that are going on: the one a caller awaits, if any, and
    those left behind in their threads. *)
Definition in_flight {S : Type} (st : state S) : nat :=
  (List.length (filter is_launching (tasks st)) + unawaited st)%nat.

(** What holds in every state the callers can reach: a caller awaits a
    launch exactly when the lock is held, and then one alone; while the
    lock is held no controller is stored; a caller that returned holds the
    stored controller; and a launch goes on without a caller only after a
    caller was cancelled. *)
Definition invariant {S : Type} (st : state S) : Prop :=
  List.length (filter is_launching (tasks st)) = (if locked st then 1 else 0)%nat
  /\ (locked st = true -> _controller (world st) = None)
  /\ (forall i c, nth_error (tasks st) i = Some (Returned c) ->
                  _controller (world st) = Some c)
  /\ (unawaited st <= List.length (filter is_cancelled (tasks st)))%nat.

(** With a launch that succeeds with controller [c] from the state [w0],
    and no caller cancelled: callers wait, launch or hold [c], and the
    module is as it was or as the one launch left it. *)
Definition one_launch {S : Type} (H : Host S) (w0 : World S) (c : handle) (st : state S)
  : Prop :=
  Forall (fun t => t = Waiting \/ t = Launching \/ t = Returned c) (tasks st)
  /\ (world st = w0
      \/ (world st = snd (write_controller c (snd (launch_flexsim H w0)))
          /\ locked st = false)).

End Session.

(** ** A scripted engine and its surroundings, for concrete runs *)

Module Scenario.

Import Server.

(** The state of a simulated engine: the simulation clock, how far the
    clock moves while the server sleeps, how many launches will still fail,
    and the error [evaluate] raises, if it does. A step moves the clock by
    one second. *)
Record sim : Type := {
  now : float;
  pace : float;
  failing_launches : nat;
  evaluate_error : option string
}.

Definition set_now (t : float) (s : sim) : sim :=
  {| now := t; pace := pace s; failing_launches := failing_launches s;
     evaluate_error := evaluate_error s |}.

Definition engine_error (msg : string) : exn :=
  {| exn_class := OtherError; exn_msg := msg |}.

Definition sim_engine : Engine sim := {|
  launch := fun _ s =>
    match failing_launches s with
    | O => (Ok 7, s)
    | Datatypes.S k =>
        (Raise (engine_error "license server unreachable"),
         {| now := now s; pace := pace s; failing_launches := k;
            evaluate_error := evaluate_error s |})
    end;
  ctl_open := fun _ _ s => (Ok tt, set_now 0 s);
  ctl_reset := fun _ s => (Ok tt, set_now 0 s);
  ctl_run := fun _ s => (Ok tt, s);
  ctl_stop := fun _ s => (Ok tt, s);
  ctl_time := fun _ s => (Ok (now s), s);
  ctl_runToTime := fun _ t s => (Ok tt, set_now t s);
  ctl_evaluate := fun _ script s =>
    match evaluate_error s with
    | Some msg => (Raise (engine_error msg), s)
    | None =>
        if script =? "step()" then (Ok "0", set_now (now s + 1)%float s)
        else (Ok "0", s)
    end;
  elapse := fun s => set_now (now s + pace s)%float s
|}.

(** A clock at [t] that moves by [p] per sleep. *)
Definition sim_at (t p : float) : sim :=
  {| now := t; pace := p; failing_launches := 0; evaluate_error := None |}.

(** A file system that holds the listed paths. *)
Definition files (l : list string) : PyPath.FileSystem := {|
  PyPath.windows := true;
  PyPath.path_exists := fun p => existsb (String.eqb p) l;
  PyPath.path_resolve := fun p => "C:/Models/" ++ p;
  PyPath.getcwd := "C:/Work"
|}.

Definition system (l : list string) (env : string -> option string) : Config.System := {|
  Config.fs := files l;
  Config.environ := env;
  Config.project_root_dir := "C:/FlexSimMCP";
  Config.toml_load := fun _ => None
|}.

Definition no_env : string -> option string := fun _ => None.

(** A configuration with a primary path and fallbacks. *)
Definition config_with (primary : string) (fallbacks : list string) : Config.t := {|
  Config._config := {|
    Config.flexsim_install_path_key := Some primary;
    Config.flexsim_alternative_paths_key := Some fallbacks;
    Config.python_version_key := None;
    Config.server_name_key := None;
    Config.server_version_key := None;
    Config.server_http_endpoint_key := None;
    Config.session_reuse_policy_key := None;
    Config.logging_level_key := None;
    Config.logging_log_file_key := None
  |};
  Config._config_path := None
|}.

Definition host (l : list string) (loaded : bool) : Host sim := {|
  eng := sim_engine;
  sys := system l no_env;
  FlexSimPy_loaded := loaded;
  repr_float := PyFloat.fmt_2f
|}.

(** The server before its first tool call. *)
Definition fresh (c : Config.t) (s : sim) : World sim :=
  {| _controller := None; _config_global := Some c; engine := s; calls := [] |}.

(** The server once the engine runs. *)
Definition running (c : Config.t) (s : sim) : World sim :=
  {| _controller := Some 7; _config_global := Some c; engine := s; calls := [] |}.

Definition install : string := "C:/FlexSim/program".

(** A script of [n] characters. *)
Definition script_of_length (n : Z) : string := PyStr.replicate (Z.to_nat n) "x".

(** A script of [n] check marks, each one character in three bytes. *)
Fixpoint check_marks (n : nat) : string :=
  match n with
  | O => EmptyString
  | Datatypes.S k => "✓" ++ check_marks k
  end.

Definition std_host : Host sim := host [install; "MODEL.FSM"; "plant.fsm"] true.
Definition std_config : Config.t := config_with install [].

(** A running server whose engine has no event left: the clock stands at 0
    and does not move while the server sleeps. *)
Definition stalled : World sim := running std_config (sim_at 0 0).

(** A running server whose engine refuses every script. *)
Definition refusing (msg : string) : World sim :=
  running std_config
    {| now := 0; pace := 0; failing_launches := 0; evaluate_error := Some msg |}.

(** A system whose environment variable names an existing file, with a
    [config.toml] in the working directory as well. *)
Definition env_and_cwd : Config.System :=
  system ["C:/env/config.toml"; "C:/Work/config.toml"]
    (fun k => if k =? "FLEXSIM_CONFIG_PATH" then Some "C:/env/config.toml" else None).

(** A server before its first tool call whose first launch will fail and
    whose second will succeed. *)
Definition flaky : World sim :=
  fresh std_config
    {| now := 0; pace := 0; failing_launches := 1; evaluate_error := None |}.

End Scenario.

(** ** What the tools keep and what the polling loop waits for *)

Module Behaviour.

Import Server.

(** A computation keeps the session when, run with a controller in place,
    it leaves that controller stored and logs no launch. *)
Definition keeps_session {S A : Type} (m : M S A) : Prop :=
  forall w c,
    _controller w = Some c ->
    _controller (snd (m w)) = Some c
    /\ exists added,
         calls (snd (m w)) = (calls w ++ added)%list
         /\ forallb (fun x => negb (Session.is_launch x)) added = true.

(** The clock of the engine reaches [target] at the reading number [j]
    (counted from 0) of the polling loop: the readings before it return
    values below the target, each followed by a sleep, and that one returns
    a value at or above it. *)
Fixpoint reaches {S : Type} (H : Host S) (c : handle) (target : float) (j : nat) (s : S)
  : Prop :=
  match j with
  | O =>
      exists v s', ctl_time (eng H) c s = (Ok v, s') /\ (target <=? v)%float = true
  | Datatypes.S k =>
      exists v s',
        ctl_time (eng H) c s = (Ok v, s')
        /\ (target <=? v)%float = false
        /\ reaches H c target k (elapse (eng H) s')
  end.

(** The steps a caller of [get_controller] still has to take: two while it
    waits for the lock, one while its launch is in flight. *)
Definition steps_left (t : Session.task) : nat :=
  match t with
  | Session.Waiting => 2
  | Session.Launching => 1
  | _ => 0
  end.

Definition work_left (l : list Session.task) : nat := list_sum (map steps_left l).

(** [l] repeated [n] times. *)
Definition times {A : Type} (n : nat) (l : list A) : list A := List.concat (repeat l n).

(** The engine calls a validated request is made of, in their order, when
    they do not depend on what the engine answers ([run_to_time] reads the
    clock to decide, so it has none). *)
Definition plan (c : Call) : option (list call) :=
  let getvalue p := CEvaluate ("getvalue(node(" ++ PyStr.dq ++ p ++ PyStr.dq ++ "))") in
  match c with
  | open_model_call p => Some [COpen (model_path p); CTime]
  | reset_call => Some [CReset]
  | run_call => Some [CRun]
  | run_to_time_call _ => None
  | stop_call => Some [CStop; CTime]
  | get_time_call => Some [CTime]
  | step_call p =>
      Some (CTime :: times (Z.to_nat (steps p)) [CEvaluate "step()"] ++ [CTime])%list
  | evaluate_call p => Some [CEvaluate (script p)]
  | get_node_value_call p => Some [getvalue (node_path p)]
  | set_node_value_call p =>
      match value p with
      | None => Some []
      | Some (PStr s) =>
          Some [CEvaluate ("setvalue(node(" ++ PyStr.dq ++ node_path p ++ PyStr.dq ++ "), "
                           ++ PyStr.dq ++ s ++ PyStr.dq ++ ")");
                getvalue (node_path p)]
      | Some (PObj shown) =>
          Some [CEvaluate ("setvalue(node(" ++ PyStr.dq ++ node_path p ++ PyStr.dq ++ "), "
                           ++ shown ++ ")");
                getvalue (node_path p)]
      end
  | save_model_call p =>
      match save_path p with
      | Some path =>
          if PyStr.truthy path
          then Some [CEvaluate ("savemodel(" ++ PyStr.dq ++ path ++ PyStr.dq ++ ")")]
          else Some [CEvaluate "savemodel()"]
      | None => Some [CEvaluate "savemodel()"]
      end
  | new_model_call => Some [CEvaluate "newmodel()"]
  | compile_call => Some [CEvaluate "compilemodel()"]
  | get_statistics_call => Some [CEvaluate stats_script]
  | export_results_call p => Some [CEvaluate (export_script p)]
  end.

(** What a call into the vendor library comes to for the engine: the
    exception it raises, if it raises, and the engine's next state. *)
Definition outcome_of {S A : Type} (r : result A * S) : option exn * S :=
  match r with
  | (Ok _, s') => (None, s')
  | (Raise e, s') => (Some e, s')
  end.

(** The engine call a logged call stands for, on the controller [h]. *)
Definition perform {S : Type} (E : Engine S) (h : handle) (c : call) (s : S)
  : option exn * S :=
  match c with
  | CLaunch programDir => outcome_of (launch E programDir s)
  | COpen path => outcome_of (ctl_open E h path s)
  | CReset => outcome_of (ctl_reset E h s)
  | CRun => outcome_of (ctl_run E h s)
  | CStop => outcome_of (ctl_stop E h s)
  | CTime => outcome_of (ctl_time E h s)
  | CRunToTime t => outcome_of (ctl_runToTime E h t s)
  | CEvaluate script => outcome_of (ctl_evaluate E h script s)
  end.

(** A run of the engine: the calls made, the exception that ended it, if
    one did, and the state the engine is left in. *)
Record Run (S : Type) : Type := {
  made : list call;
  raised : option exn;
  final : S
}.
Arguments made {S} _.
Arguments raised {S} _.
Arguments final {S} _.

(** The calls of a list made on the engine one after another, up to and
    including the first that raises. *)
Fixpoint run_calls {S : Type} (E : Engine S) (h : handle) (p : list call) (s : S)
  : Run S :=
  match p with
  | [] => {| made := []; raised := None; final := s |}
  | c :: rest =>
      match perform E h c s with
      | (Some e, s') => {| made := [c]; raised := Some e; final := s' |}
      | (None, s') =>
          let r := run_calls E h rest s' in
          {| made := c :: made r; raised := raised r; final := final r |}
      end
  end.

(** A computation runs a list of calls when, with the controller [h] in
    place, it does to the engine what [run_calls] does, logs the calls
    made, leaves the controller stored, and ends as the run does: it raises
    the exception of the call that raised, or returns after the last
    call. *)
Definition runs {S A : Type} (H : Host S) (h : handle) (p : list call) (m : M S A)
  : Prop :=
  forall w,
    _controller w = Some h ->
    _controller (snd (m w)) = Some h
    /\ calls (snd (m w)) = (calls w ++ made (run_calls (eng H) h p (engine w)))%list
    /\ engine (snd (m w)) = final (run_calls (eng H) h p (engine w))
    /\ match raised (run_calls (eng H) h p (engine w)) with
       | Some e => fst (m w) = Exc e
       | None => exists a, fst (m w) = Val a
       end.

End Behaviour.

(** ** [src/utility/config.py]: the other properties, [get] and the global *)

Module ConfigAccess.

Import Config.

(** The properties [python_version], [server_name], [server_version],
    [http_endpoint], [session_reuse_policy], [log_level], [log_file]. *)
Definition python_version (c : t) : string :=
  match python_version_key (_config c) with
  | Some v => v
  | None => "3.10"
  end.

Definition server_name (c : t) : string :=
  match server_name_key (_config c) with
  | Some v => v
  | None => "FlexSimPy MCP Server"
  end.

Definition server_version (c : t) : string :=
  match server_version_key (_config c) with
  | Some v => v
  | None => "0.1.0"
  end.

Definition http_endpoint (c : t) : string :=
  match server_http_endpoint_key (_config c) with
  | Some v => v
  | None => "http://127.0.0.1:8088/mcp"
  end.

Definition session_reuse_policy (c : t) : string :=
  match session_reuse_policy_key (_config c) with
  | Some v => v
  | None => "singleton"
  end.

Definition log_level (c : t) : string :=
  match logging_level_key (_config c) with
  | Some v => v
  | None => "INFO"
  end.

Definition log_file (c : t) : option string := logging_log_file_key (_config c).

(** No override is set in the environment. *)
Definition no_overrides (sys : System) : Prop :=
  env_set sys "FLEXSIM_INSTALL_PATH" = None
  /\ env_set sys "FLEXSIM_PYTHON_VERSION" = None
  /\ env_set sys "FLEXSIM_LOG_LEVEL" = None.

(** [set_config] and [reload_config], on the module's global. *)
Definition set_config (config : t) (global : option t) : option t := Some config.

Definition reload_config (sys : System) (config_path : path_arg) (global : option t)
  : t * option t :=
  let c := __init__ sys config_path in (c, Some c).

(** [Config.get] reads any key of the document, also keys the properties do
    not know, so it is modelled over the document itself: a tree of tables
    as [tomli.load] returns it ([Datetime] stands for the dates and times
    of TOML). *)
#[local] Set Warnings "-register-all".

Inductive value : Type :=
| Str (s : string)
| Int (z : Z)
| Float (x : float)
| Bool (b : bool)
| Datetime (text : string)
| Array (l : list value)
| Table (entries : list (string * value)).

Definition table : Type := list (string * value).

(** [d.get(k)] on a table. *)
Fixpoint lookup (k : string) (d : table) : option value :=
  match d with
  | [] => None
  | (k', v) :: rest => if k =? k' then Some v else lookup k rest
  end.

(** [s.split(".")] *)
Fixpoint split_dots (cur s : string) : list string :=
  match s with
  | EmptyString => [cur]
  | String c rest =>
      if Ascii.eqb c "." then cur :: split_dots EmptyString rest
      else split_dots (cur ++ String c EmptyString) rest
  end.

Definition split (s : string) : list string := split_dots EmptyString s.

(** The loop of [Config.get]: a key is looked up in a table, and anything
    else, or a key that is missing, gives the default ([None] is Python's
    [None]). *)
Fixpoint walk (keys : list string) (v : value) (default : option value) : option value :=
  match keys with
  | [] => Some v
  | k :: rest =>
      match v with
      | Table d =>
          match lookup k d with
          | Some v' => walk rest v' default
          | None => default
          end
      | _ => default
      end
  end.

(** [Config.get] *)
Definition get (doc : table) (key : string) (default : option value) : option value :=
  walk (split key) (Table doc) default.

(** A string holds no dot. *)
Fixpoint dotless (s : string) : bool :=
  match s with
  | EmptyString => true
  | String c rest => negb (Ascii.eqb c ".") && dotless rest
  end.

End ConfigAccess.

(** ** [src/utility/utility.py] *)

Module Utility.

(** *** The descriptors of the process

    A table of file descriptors: position [fd] holds the file the
    descriptor is open on, or nothing. [os.dup] and [os.open] hand out the
    lowest descriptor that is free; a call on a descriptor that is not
    open raises [OSError]. *)

Definition file : Type := string.

Definition table : Type := list (option file).

Definition lookup (t : table) (fd : nat) : option file := nth fd t None.

Fixpoint store (t : table) (fd : nat) (v : option file) : table :=
  match fd, t with
  | O, [] => [v]
  | O, _ :: rest => v :: rest
  | S k, [] => None :: store [] k v
  | S k, x :: rest => x :: store rest k v
  end.

Fixpoint lowest_free (t : table) : nat :=
  match t with
  | [] => 0
  | None :: _ => 0
  | Some _ :: rest => S (lowest_free rest)
  end.

Inductive os_result (A : Type) : Type :=
| Done (a : A) (t : table)
| OSError.
Arguments Done {A} a t.
Arguments OSError {A}.

Definition and_then {A B : Type} (r : os_result A) (k : A -> table -> os_result B)
  : os_result B :=
  match r with
  | Done a t => k a t
  | OSError => OSError
  end.

(** [os.dup(fd)] *)
Definition dup (fd : nat) (t : table) : os_result nat :=
  match lookup t fd with
  | Some f => Done (lowest_free t) (store t (lowest_free t) (Some f))
  | None => OSError
  end.

(** [os.open(path, os.O_WRONLY)] of a path that can be opened. *)
Definition open_ (path : file) (t : table) : os_result nat :=
  Done (lowest_free t) (store t (lowest_free t) (Some path)).

(** [os.dup2(fd, fd2)] *)
Definition dup2 (fd fd2 : nat) (t : table) : os_result unit :=
  match lookup t fd with
  | Some f => Done tt (store t fd2 (Some f))
  | None => OSError
  end.

(** [os.close(fd)] *)
Definition close (fd : nat) (t : table) : os_result unit :=
  match lookup t fd with
  | Some _ => Done tt (store t fd None)
  | None => OSError
  end.

(** [os.devnull] *)
Definition devnull : file := "nul".

(** [suppress_stderr], for [os.name] and [sys.stderr.fileno()]. *)
Definition suppress_stderr (os_name : string) (stderr_fileno : nat) (t : table)
  : os_result Z :=
  if negb (os_name =? "nt") then Done (-1)%Z t
  else
    let original_stderr := stderr_fileno in
    and_then (dup original_stderr t) (fun saved_stderr t1 =>
    and_then (open_ devnull t1) (fun devnull_fd t2 =>
    and_then (dup2 devnull_fd original_stderr t2) (fun _ t3 =>
    and_then (close devnull_fd t3) (fun _ t4 =>
    Done (Z.of_nat saved_stderr) t4)))).

(** [restore_stderr] *)
Definition restore_stderr (stderr_fileno : nat) (saved_stderr : Z) (t : table)
  : os_result unit :=
  if (saved_stderr <? 0)%Z then Done tt t
  else
    let original_stderr := stderr_fileno in
    and_then (dup2 (Z.to_nat saved_stderr) original_stderr t) (fun _ t1 =>
    close (Z.to_nat saved_stderr) t1).

(** *** Processes *)

(** What [psutil.process_iter(["pid", "name"])] yields: [proc.info]. *)
Record process : Type := {
  pid : Z;
  name : option string
}.

(** What [proc.kill()] does: it returns, it raises one of the two
    exceptions the loop catches ([psutil.NoSuchProcess],
    [psutil.AccessDenied]), or it raises something else. *)
Inductive kill_outcome : Type :=
| Killed
| Skipped
| Raised (msg : string).

(** [proc.info["name"] and "flexsim" in proc.info["name"].lower()] *)
Definition is_flexsim (p : process) : bool :=
  match name p with
  | Some n => PyStr.truthy n && PyStr.contains "flexsim" (PyStr.lower n)
  | None => false
  end.

Definition was_killed (o : kill_outcome) : bool :=
  match o with
  | Killed => true
  | _ => false
  end.

(** The loop of [kill_flexsim_processes] over the processes left, with the
    list [killed] so far and the processes [kill()] was called on; an
    exception that is not caught ends the function. *)
Fixpoint kill_loop (kill : process -> kill_outcome) (procs : list process)
    (killed : list Z) (called : list Z) : (string + list Z) * list Z :=
  match procs with
  | [] => (inr killed, called)
  | proc :: rest =>
      if is_flexsim proc then
        match kill proc with
        | Killed => kill_loop kill rest (killed ++ [pid proc]) (called ++ [pid proc])
        | Skipped => kill_loop kill rest killed (called ++ [pid proc])
        | Raised msg => (inl msg, (called ++ [pid proc])%list)
        end
      else kill_loop kill rest killed called
  end.

(** [kill_flexsim_processes]: the pids killed (or the exception), and the
    pids [kill()] was called on. *)
Definition kill_flexsim_processes (kill : process -> kill_outcome) (procs : list process)
  : (string + list Z) * list Z :=
  kill_loop kill procs [] [].

End Utility.

(** ** [src/utility/build_automation.py]: [FlexSimPyBuilder] *)

Module Builder.

Local Open Scope bool_scope.

(** [self]: the fields the methods below read. *)
Record FlexSimPyBuilder : Type := {
  config : Config.t;
  python_version : string;
  auto_build : bool;
  flexsimpy_dir : string
}.

(** What the builder asks of the machine it runs on, whose disk is a value
    of type [W]: whether a path exists, the two [pathlib] operations that
    depend on the platform and on the user, [Path(__file__).parent.parent],
    whether [import FlexSimPy] works (the module's [__file__], or the text
    of the [ImportError]), and the four steps that change the disk or start
    a program. Of these, [copy_content] is the rest of
    [sync_flexsim_content] once the include directory is found (it creates
    the content directory and copies headers and libraries), [find_msbuild]
    looks for MSBuild, [run_msbuild] is [subprocess.run] of MSBuild (its
    return code and [stderr], or the text of the exception it raises) and
    [install_pyd_to_python_path] copies the module into site-packages. *)
Record Machine (W : Type) : Type := {
  path_exists : W -> string -> bool;
  expanduser : string -> string;
  is_absolute : string -> bool;
  parent : string -> string;
  project_root : string;
  import_FlexSimPy : W -> string + string;
  copy_content : FlexSimPyBuilder -> string -> W -> (bool * string) * W;
  find_msbuild : FlexSimPyBuilder -> W -> option string;
  run_msbuild : string -> string -> string -> W -> (Z * string + string) * W;
  install_pyd_to_python_path : string -> W -> bool * W
}.
Arguments path_exists {W}.
Arguments expanduser {W}.
Arguments is_absolute {W}.
Arguments parent {W}.
Arguments project_root {W}.
Arguments import_FlexSimPy {W}.
Arguments copy_content {W}.
Arguments find_msbuild {W}.
Arguments run_msbuild {W}.
Arguments install_pyd_to_python_path {W}.

(** What the builder did to the machine, in order. *)
Inductive event : Type :=
| Copied (install_path : string)
| MSBuild (msbuild solution_file config_name : string)
| Installed (pyd_path : string).

Record State (W : Type) : Type := {
  disk : W;
  log : list event
}.
Arguments disk {W}.
Arguments log {W}.

(** [s.replace('.', '_')] *)
Fixpoint replace_dots (s : string) : string :=
  match s with
  | EmptyString => EmptyString
  | String c t => String (if Ascii.eqb c "." then "_"%char else c) (replace_dots t)
  end.

(** The loop that removes duplicates, with the set [seen] as a list. *)
Fixpoint unique_candidates (seen : list string) (candidates : list string) : list string :=
  match candidates with
  | [] => []
  | path_str :: rest =>
      if PyStr.truthy path_str && negb (existsb (String.eqb path_str) seen)
      then path_str :: unique_candidates (path_str :: seen) rest
      else unique_candidates seen rest
  end.

Section Methods.

Context {W : Type} (M : Machine W).

(** [check_flexsimpy_available] *)
Definition check_flexsimpy_available (w : W) : bool * string :=
  match import_FlexSimPy M w with
  | inl module_path => (true, "FlexSimPy module available at " ++ module_path)
  | inr e => (false, "FlexSimPy module not found: " ++ e)
  end.

(** [f"Rel_{self.python_version.replace('.', '_')}"] *)
Definition config_name (b : FlexSimPyBuilder) : string :=
  "Rel_" ++ replace_dots (python_version b).

(** [check_build_output_exists]: [Some pyd_file] for [(True, pyd_file)],
    [None] for [(False, None)]. *)
Definition check_build_output_exists (b : FlexSimPyBuilder) (w : W) : option string :=
  if negb (path_exists M w (flexsimpy_dir b)) then None
  else
    let output_dir :=
      PyPath.joinpath (PyPath.joinpath (flexsimpy_dir b) "out") (config_name b) in
    let pyd_file := PyPath.joinpath output_dir "FlexSimPy.pyd" in
    if path_exists M w pyd_file then Some pyd_file else None.

(** Where a candidate is looked for: [Path(path_str).expanduser()], under
    the project root when it is relative. *)
Definition locate (path_str : string) : string :=
  let resolved := expanduser M path_str in
  if negb (is_absolute M resolved)
  then PyPath.joinpath (project_root M) resolved
  else resolved.

(** The loop over [unique_candidates]. *)
Fixpoint first_existing (w : W) (candidates : list string) : option string :=
  match candidates with
  | [] => None
  | path_str :: rest =>
      let resolved := locate path_str in
      if path_exists M w resolved then Some resolved else first_existing w rest
  end.

(** The list [candidates] before duplicates are removed. *)
Definition candidates (b : FlexSimPyBuilder) : list string :=
  let primary_path := Config.flexsim_install_path (config b) in
  let candidates := if PyStr.truthy primary_path then [primary_path] else [] in
  let alternative_paths := Config.flexsim_alternative_paths (config b) in
  match alternative_paths with
  | [] => candidates
  | _ :: _ => candidates ++ alternative_paths
  end.

(** [resolve_flexsim_install_path] *)
Definition resolve_flexsim_install_path (b : FlexSimPyBuilder) (w : W) : option string :=
  first_existing w (unique_candidates [] (candidates b)).

(** [sync_flexsim_content] *)
Definition sync_flexsim_content (b : FlexSimPyBuilder) (s : State W)
  : (bool * string) * State W :=
  match resolve_flexsim_install_path b (disk s) with
  | None =>
      ((false,
        "FlexSim install path not found. Configure flexsim.install_path "
        ++ "or flexsim.alternative_paths in config.toml."), s)
  | Some install_path =>
      let include_dir :=
        PyPath.joinpath (PyPath.joinpath install_path "system") "include" in
      if negb (path_exists M (disk s) include_dir)
      then ((false, "FlexSim include directory not found: " ++ include_dir), s)
      else
        let '(r, d) := copy_content M b install_path (disk s) in
        (r, {| disk := d; log := log s ++ [Copied install_path] |})
  end.

(** [build_flexsimpy] *)
Definition build_flexsimpy (b : FlexSimPyBuilder) (force : bool) (s : State W)
  : (bool * string) * State W :=
  match (if negb force then check_build_output_exists b (disk s) else None) with
  | Some pyd_path => ((true, "FlexSimPy already built at " ++ pyd_path), s)
  | None =>
      let '((sync_success, sync_msg), s1) := sync_flexsim_content b s in
      if negb sync_success then ((false, sync_msg), s1)
      else
        match find_msbuild M b (disk s1) with
        | None =>
            ((false, "MSBuild not found. Install Visual Studio 2022 with C++ tools."), s1)
        | Some msbuild =>
            let solution_file := PyPath.joinpath (flexsimpy_dir b) "FlexSimPy.sln" in
            if negb (path_exists M (disk s1) solution_file)
            then ((false, "FlexSimPy.sln not found at " ++ solution_file), s1)
            else
              let '(result, d2) :=
                run_msbuild M msbuild solution_file (config_name b) (disk s1) in
              let s2 :=
                {| disk := d2;
                   log := log s1 ++ [MSBuild msbuild solution_file (config_name b)] |} in
              match result with
              | inl (returncode, stderr) =>
                  if (returncode =? 0)%Z then
                    match check_build_output_exists b d2 with
                    | Some pyd_path =>
                        ((true, "FlexSimPy built successfully at " ++ pyd_path), s2)
                    | None => ((false, "Build completed but output file not found"), s2)
                    end
                  else
                    ((false,
                      "FlexSimPy build failed with code " ++ PyStr.of_Z returncode
                      ++ (if PyStr.truthy stderr then PyStr.nl ++ stderr else "")), s2)
              | inr e => ((false, "Build failed with exception: " ++ e), s2)
              end
        end
  end.

(** What [ensure_flexsimpy_available] has in hand after looking for the
    build output and building when it is missing: the answer it returns
    there, or the module file it goes on with. *)
Definition build_if_missing (b : FlexSimPyBuilder) (s : State W)
  : (bool * string + string) * State W :=
  match check_build_output_exists b (disk s) with
  | Some pyd_path => (inr pyd_path, s)
  | None =>
      if negb (auto_build b) then
        (inl (false,
              "FlexSimPy not built and auto_build is disabled. "
              ++ "Run with --build-flexsimpy to build."), s)
      else
        let '((success, build_msg), s1) := build_flexsimpy b false s in
        if negb success then (inl (false, "Failed to build FlexSimPy: " ++ build_msg), s1)
        else
          match check_build_output_exists b (disk s1) with
          | Some pyd_path => (inr pyd_path, s1)
          | None => (inl (false, "Build succeeded but output not found"), s1)
          end
  end.

(** [ensure_flexsimpy_available] *)
Definition ensure_flexsimpy_available (b : FlexSimPyBuilder) (mode : string) (s : State W)
  : (bool * string) * State W :=
  let '(is_available, msg) := check_flexsimpy_available (disk s) in
  if is_available then ((true, msg), s)
  else if mode =? "check" then ((false, "FlexSimPy not available and mode is 'check'"), s)
  else
    let '(found, s1) := build_if_missing b s in
    match found with
    | inl answer => (answer, s1)
    | inr pyd_path =>
        if mode =? "install" then
          let '(installed, d2) := install_pyd_to_python_path M pyd_path (disk s1) in
          let s2 := {| disk := d2; log := log s1 ++ [Installed pyd_path] |} in
          if installed
          then ((true, "FlexSimPy installed to site-packages from " ++ pyd_path), s2)
          else
            ((false,
              "FlexSimPy built at " ++ pyd_path
              ++ " but failed to install to site-packages. "
              ++ "Add " ++ parent M pyd_path ++ " to PYTHONPATH manually."), s2)
        else ((true, "FlexSimPy available at " ++ pyd_path), s1)
    end.

End Methods.

Definition is_msbuild (e : event) : bool :=
  match e with
  | MSBuild _ _ _ => true
  | _ => false
  end.

Definition is_build_step (e : event) : bool :=
  match e with
  | Installed _ => false
  | _ => true
  end.

End Builder.

(** ** A machine to run the builder on *)

Module BuildScenario.

Import Builder.

Local Open Scope bool_scope.

(** The disk: the paths that exist. *)
Definition files : Type := list string.

Definition on_disk (w : files) (p : string) : bool := existsb (String.eqb p) w.

(** The text of a path up to its last ["/"]. *)
Fixpoint dirname (p : string) : string :=
  match p with
  | EmptyString => EmptyString
  | String c t =>
      if PyStr.contains "/" t then String c (dirname t) else EmptyString
  end.

Definition site_packages : string := "/venv/Lib/site-packages/FlexSimPy.pyd".

(** A Windows-like machine without user directories: the module can be
    imported once it is in site-packages, the copy of the headers succeeds,
    MSBuild is where [msbuild] says and a run of it returns [returncode],
    producing the module file when that is 0. *)
Definition machine (msbuild : option string) (returncode : Z) : Machine files := {|
  path_exists := on_disk;
  expanduser := fun p => p;
  is_absolute := fun p => PyStr.startswith "/" p;
  parent := dirname;
  project_root := "/repo/src";
  import_FlexSimPy := fun w =>
    if on_disk w site_packages then inl site_packages
    else inr "No module named 'FlexSimPy'";
  copy_content := fun b install_path w =>
    ((true,
      "Synchronized FlexSim headers and libraries from " ++ install_path
      ++ " into " ++ PyPath.joinpath (flexsimpy_dir b) "flexsimcontent"),
     (w ++ [PyPath.joinpath (flexsimpy_dir b) "flexsimcontent"])%list);
  find_msbuild := fun _ _ => msbuild;
  run_msbuild := fun _ solution_file config_name w =>
    (inl (returncode, if (returncode =? 0)%Z then "" else "error MSB1009"),
     if (returncode =? 0)%Z
     then (w ++ [PyPath.joinpath
                   (PyPath.joinpath (PyPath.joinpath (dirname solution_file) "out")
                      config_name)
                   "FlexSimPy.pyd"])%list
     else w);
  install_pyd_to_python_path := fun _ w => (true, (w ++ [site_packages])%list)
|}.

(** A builder for Python 3.10 in a checkout at [/repo/src], with FlexSim
    installed at the second path of its configuration. *)
Definition builder (auto : bool) : FlexSimPyBuilder := {|
  config :=
    {| Config._config :=
         {| Config.flexsim_install_path_key := Some "FlexSimDev/program";
            Config.flexsim_alternative_paths_key :=
              Some ["/opt/FlexSim/program"; "FlexSimDev/program"];
            Config.python_version_key := Some "3.10";
            Config.server_name_key := None;
            Config.server_version_key := None;
            Config.server_http_endpoint_key := None;
            Config.session_reuse_policy_key := None;
            Config.logging_level_key := None;
            Config.logging_log_file_key := None |};
       Config._config_path := Some "/repo/src/config.toml" |};
  python_version := "3.10";
  auto_build := auto;
  flexsimpy_dir := "/repo/src/depends/FlexSimPy"
|}.

Definition checkout : State files := {|
  disk := ["/repo/src/depends/FlexSimPy";
           "/repo/src/depends/FlexSimPy/FlexSimPy.sln";
           "/opt/FlexSim/program";
           "/opt/FlexSim/program/system/include"];
  log := []
|}.

Definition pyd_file : string := "/repo/src/depends/FlexSimPy/out/Rel_3_10/FlexSimPy.pyd".

End BuildScenario.

(** ** [src/utility/integration_test.py]: [resolve_program_dir] *)

Module IntegrationTest.

Import Builder.

(** [sep.join(l)] *)
Fixpoint join (sep : string) (l : list string) : string :=
  match l with
  | [] => EmptyString
  | [x] => x
  | x :: rest => x ++ sep ++ join sep rest
  end.

Section WithMachine.

Context {W : Type} (M : Machine W).

(** The list [candidates]: the configured path, under the project root
    when it is relative, and the fallback of a development checkout. *)
Definition candidates (config : Config.t) : list string :=
  let config_install := Config.flexsim_install_path config in
  ((if PyStr.truthy config_install then
      [if negb (is_absolute M config_install)
       then PyPath.joinpath (project_root M) config_install
       else config_install]
    else [])
   ++ [PyPath.joinpath (parent M (parent M (project_root M))) "program"])%list.

(** [resolve_program_dir]: the directory, or the message of the
    [FileNotFoundError] it raises. *)
Definition resolve_program_dir (config : Config.t) (w : W) : string + string :=
  match find (path_exists M w) (candidates config) with
  | Some candidate => inl candidate
  | None =>
      inr ("Unable to locate FlexSim program directory. Checked paths:"
           ++ PyStr.nl ++ "   - "
           ++ join (PyStr.nl ++ "   - ") (candidates config))
  end.

End WithMachine.

End IntegrationTest.

(** ** [src/utility/copy_flexsim.py] *)

Module CopyFlexSim.

Import ConfigAccess.

Local Open Scope bool_scope.

(** [bool(v)] for a value of the document. *)
Definition value_truthy (v : value) : bool :=
  match v with
  | Str s => PyStr.truthy s
  | Int z => negb (z =? 0)%Z
  | Float x => negb (x =? 0)%float
  | Bool b => b
  | Datetime _ => true
  | Array l => match l with [] => false | _ :: _ => true end
  | Table d => match d with [] => false | _ :: _ => true end
  end.

(** What the script asks of the machine, whose disk is a value of type
    [W]: whether a path exists, [Path(__file__).parent.parent],
    [shutil.rmtree(dst, ignore_errors=True)] and [shutil.copytree] with the
    counting copy function (the text of the exception it raises, if any). *)
Record Machine (W : Type) : Type := {
  path_exists : W -> string -> bool;
  repo_root : string;
  rmtree : string -> W -> W;
  copytree : string -> string -> W -> option string * W
}.
Arguments path_exists {W}.
Arguments repo_root {W}.
Arguments rmtree {W}.
Arguments copytree {W}.

(** What the script did, in order. *)
Inductive event : Type :=
| Asked
| Removed (dst_path : string)
| CopiedTree (src_path dst_path : string).

Record State (W : Type) : Type := {
  disk : W;
  log : list event
}.
Arguments disk {W}.
Arguments log {W}.

(** How a call ends: it returns, or one of the two exceptions the function
    does not catch leaves it ([Path] of a value that is no string, [input]
    at the end of the input). *)
Inductive outcome : Type :=
| Returned (success : bool)
| TypeError
| EOFError.

Section WithMachine.

Context {W : Type} (M : Machine W).

Definition record (e : event) (d : W) (s : State W) : State W :=
  {| disk := d; log := log s ++ [e] |}.

(** The copy itself, from ["Copying files..."] on. *)
Definition copy_files (src_path dst_path : string) (s : State W) : outcome * State W :=
  let '(raised, d) := copytree M src_path dst_path (disk s) in
  (Returned (match raised with None => true | Some _ => false end),
   record (CopiedTree src_path dst_path) d s).

(** The removal of the destination and the copy after it. *)
Definition remove_and_copy (src_path dst_path : string) (s : State W)
  : outcome * State W :=
  copy_files src_path dst_path
    (record (Removed dst_path) (rmtree M dst_path (disk s)) s).

(** [copy_flexsim], over the document of the configuration; [reply] is the
    line [input] returns, if there is one (what is printed is left out). *)
Definition copy_flexsim (doc : table) (force : bool) (reply : option string)
    (s : State W) : outcome * State W :=
  match get doc "flexsim.src_path" None with
  | None => (Returned false, s)
  | Some src_path_str =>
      if negb (value_truthy src_path_str) then (Returned false, s)
      else
        match src_path_str with
        | Str src_path =>
            if negb (path_exists M (disk s) src_path) then (Returned false, s)
            else
              let dst_path := PyPath.joinpath (repo_root M) "FlexSimDev" in
              if path_exists M (disk s) dst_path then
                if negb force then
                  let s1 := record Asked (disk s) s in
                  match reply with
                  | None => (EOFError, s1)
                  | Some response =>
                      if negb (PyStr.lower response =? "y") then (Returned false, s1)
                      else remove_and_copy src_path dst_path s1
                  end
                else remove_and_copy src_path dst_path s
              else copy_files src_path dst_path s
        | _ => (TypeError, s)
        end
  end.

End WithMachine.

(** The operator agreed: the reply is the letter y, in either case, and
    nothing else. *)
Definition agreed (reply : option string) : Prop :=
  reply = Some "y" \/ reply = Some "Y".

(** A machine whose disk is the list of the paths that exist. *)
Definition machine : Machine (list string) := {|
  path_exists := fun w p => existsb (String.eqb p) w;
  repo_root := "/repo";
  rmtree := fun dst w => filter (fun p => negb (PyStr.startswith dst p)) w;
  copytree := fun src dst w =>
    (None,
     (w ++ map (fun p => String.append dst (substring (String.length src) (String.length p) p))
             (filter (PyStr.startswith src) w))%list)
|}.

Definition installed : State (list string) := {|
  disk := ["/opt/FlexSim"; "/opt/FlexSim/program"; "/repo/FlexSimDev";
           "/repo/FlexSimDev/old"];
  log := []
|}.

Definition document : table := [("flexsim", Table [("src_path", Str "/opt/FlexSim")])].

End CopyFlexSim.

(* ================================================================== *)
(** * Part II: facts *)
(* ================================================================== *)

(** ** Strings *)

Module PyStrFacts.

Import PyStr.

Lemma startswith_spec (p s : string) :
  startswith p s = true <-> exists b, s = p ++ b.
Proof.
  revert s; induction p as [|a p IH]; intros s; simpl.
  - split; [intros _; now exists s | reflexivity].
  - destruct s as [|b s].
    + split; [discriminate | intros [r Hr]; discriminate].
    + rewrite andb_true_iff, Ascii.eqb_eq, IH. split.
      * intros [-> [r ->]]. now exists r.
      * intros [r Hr]. injection Hr as -> ->. split; [reflexivity | now exists r].
Qed.

(** [contains] decides the substring relation. *)
Lemma contains_spec (needle hay : string) :
  contains needle hay = true <-> Substring needle hay.
Proof.
  unfold Substring. induction hay as [|c hay IH].
  - simpl. rewrite orb_false_r, startswith_spec. split.
    + intros [b Hb]. now exists EmptyString, b.
    + intros [a [b Hab]]. destruct a as [|x a]; [now exists b | discriminate].
  - cbn [contains]. rewrite orb_true_iff, startswith_spec, IH. split.
    + intros [[b Hb] | [a [b Hab]]].
      * now exists EmptyString, b.
      * exists (String c a), b. simpl. now rewrite Hab.
    + intros [a [b Hab]]. destruct a as [|x a].
      * left. now exists b.
      * right. simpl in Hab. injection Hab as _ ->. now exists a, b.
Qed.

Lemma contains_false (needle hay : string) :
  contains needle hay = false <-> ~ Substring needle hay.
Proof.
  rewrite <- contains_spec. destruct (contains needle hay); split; congruence.
Qed.

Lemma length_replicate (n : nat) (c : ascii) : String.length (replicate n c) = n.
Proof. induction n; simpl; congruence. Qed.

Lemma characters_replicate (n : nat) (c : ascii) :
  is_continuation c = false -> characters (replicate n c) = n.
Proof. intros Hc. induction n; simpl; [reflexivity|]. rewrite Hc, IHn. reflexivity. Qed.

Lemma len_replicate (n : Z) (c : ascii) :
  is_continuation c = false -> (0 <= n)%Z -> len (replicate (Z.to_nat n) c) = n.
Proof. intros Hc Hn. unfold len. rewrite characters_replicate by exact Hc. lia. Qed.

(** The characters are counted, not the bytes: the check mark is one. *)
Lemma len_counts_characters : len "✓" = 1%Z /\ String.length "✓" = 3%nat.
Proof. split; reflexivity. Qed.

End PyStrFacts.

(** ** Paths *)

Module PyPathFacts.

Import PyStr PyPath.

(** A string without a character is made of continuation bytes, if of
    any. *)
Lemma no_character (c : ascii) (t : string) :
  characters (String c t) = 0%nat -> is_continuation c = true /\ characters t = 0%nat.
Proof.
  cbn [characters]. destruct (is_continuation c); [auto | discriminate].
Qed.

Lemma continuation_differs (c x : ascii) :
  is_continuation c = true -> is_continuation x = false -> Ascii.eqb c x = false.
Proof.
  intros Hc Hx. destruct (Ascii.eqb_spec c x) as [->|_]; [congruence | reflexivity].
Qed.

Lemma at_is_no_character (i : nat) (x : ascii) (p : string) :
  characters p = 0%nat -> is_continuation x = false -> at_is i x p = false.
Proof.
  intros Hp Hx. unfold at_is. revert i.
  induction p as [|c t IH]; intros i; [destruct i; reflexivity|].
  destruct (no_character c t Hp) as [Hc Ht].
  destruct i as [|i]; cbn [get].
  - exact (continuation_differs c x Hc Hx).
  - exact (IH Ht i).
Qed.

Lemma to_sep_no_character (p : string) : characters p = 0%nat -> to_sep p = p.
Proof.
  induction p as [|c t IH]; intros Hp; [reflexivity|].
  destruct (no_character c t Hp) as [Hc Ht]. cbn [to_sep].
  rewrite (continuation_differs c "/" Hc eq_refl), (IH Ht). reflexivity.
Qed.

Lemma rel_no_character (win : bool) (p : string) : characters p = 0%nat -> rel win p = p.
Proof.
  intros Hp. unfold rel. destruct win.
  - rewrite (to_sep_no_character p Hp). unfold windows_rel.
    rewrite (at_is_no_character 0 backslash p Hp eq_refl).
    cbn [andb]. cbv beta iota zeta.
    rewrite (at_is_no_character 1 backslash p Hp eq_refl).
    rewrite (at_is_no_character 1 ":" p Hp eq_refl).
    cbn [andb]. cbv beta iota zeta.
    rewrite (at_is_no_character 0 backslash p Hp eq_refl). reflexivity.
  - rewrite (at_is_no_character 0 "/" p Hp eq_refl). reflexivity.
Qed.

Lemma split_sep_no_character (win : bool) (cur p : string) :
  characters p = 0%nat -> split_sep win cur p = [cur ++ p].
Proof.
  revert cur. induction p as [|c t IH]; intros cur Hp; cbn [split_sep].
  - f_equal. induction cur as [|x cur IHc]; [reflexivity|]. cbn. now rewrite <- IHc.
  - destruct (no_character c t Hp) as [Hc Ht]. unfold is_sep.
    rewrite (continuation_differs c "/" Hc eq_refl),
      (continuation_differs c backslash Hc eq_refl), andb_false_r.
    cbn [orb]. rewrite (IH _ Ht). f_equal.
    induction cur as [|x cur IHc]; [reflexivity|]. cbn. now rewrite IHc.
Qed.

Lemma rfind_dot_no_character (p : string) : characters p = 0%nat -> rfind_dot p = None.
Proof.
  induction p as [|c t IH]; intros Hp; [reflexivity|].
  destruct (no_character c t Hp) as [Hc Ht]. cbn [rfind_dot].
  rewrite (IH Ht), (continuation_differs c "." Hc eq_refl). reflexivity.
Qed.

(** A path without a character has no suffix. *)
Lemma suffix_no_character (win : bool) (p : string) :
  characters p = 0%nat -> suffix win p = EmptyString.
Proof.
  intros Hp. unfold suffix, name, parts.
  rewrite (rel_no_character win p Hp), (split_sep_no_character win _ p Hp).
  cbn [String.append filter].
  destruct (negb (p =? "") && negb (p =? ".")); cbn [last].
  - now rewrite (rfind_dot_no_character p Hp).
  - reflexivity.
Qed.

End PyPathFacts.

(** ** Floats *)

Module PyFloatFacts.

Import PyFloat.

(** Swapping the operands of a comparison swaps its result. *)
Lemma SFcompare_antisym (x y : spec_float) (c : comparison) :
  SFcompare x y = Some c -> SFcompare y x = Some (CompOpp c).
Proof.
  destruct x as [sx|sx| |sx mx ex], y as [sy|sy| |sy my ey]; simpl;
    try discriminate;
    try (intros E; injection E as <-;
         repeat match goal with b : bool |- _ => destruct b end; reflexivity).
  intros E; injection E as <-. f_equal.
  rewrite (Z.compare_antisym ey ex).
  change (Pos.compare_cont Eq mx my) with (Pos.compare mx my).
  change (Pos.compare_cont Eq my mx) with (Pos.compare my mx).
  rewrite (Pos.compare_antisym my mx).
  destruct sx, sy; try reflexivity;
    destruct (ey ?= ex)%Z; simpl; try reflexivity;
    destruct (my ?= mx)%positive; reflexivity.
Qed.

(** [a <= t] excludes [t < a]. *)
Lemma leb_not_ltb (a t : float) : (a <=? t)%float = true -> (t <? a)%float = false.
Proof.
  rewrite leb_spec, ltb_spec. unfold SFleb, SFltb.
  destruct (SFcompare (Prim2SF a) (Prim2SF t)) as [c|] eqn:E; [|discriminate].
  rewrite (SFcompare_antisym _ _ _ E).
  destruct c; simpl; [reflexivity | reflexivity | discriminate].
Qed.

(** Below 60 is below 3600. *)
Lemma ltb_60_3600 (t : float) : (t <? 60)%float = true -> (t <? 3600)%float = true.
Proof.
  rewrite !ltb_spec. unfold SFltb.
  replace (Prim2SF 60) with (S754_finite false 8444249301319680 (-47)) by (vm_compute; reflexivity).
  replace (Prim2SF 3600) with (S754_finite false 7916483719987200 (-41)) by (vm_compute; reflexivity).
  destruct (Prim2SF t) as [s|s| |s m e]; unfold SFcompare.
  - destruct s; congruence.
  - destruct s; congruence.
  - congruence.
  - destruct s; [reflexivity|].
    destruct (e ?= -47)%Z eqn:E47.
    + apply Z.compare_eq in E47. subst e. intros _. reflexivity.
    + rewrite Z.compare_lt_iff in E47.
      assert ((e ?= -41)%Z = Lt) as -> by (rewrite Z.compare_lt_iff; lia). reflexivity.
    + discriminate.
Qed.

End PyFloatFacts.

(** ** Time formatting *)

Module FormatTimeFacts.

Import Server.

(** C5. [format_time] scales by thresholds: below 60 the value is printed
    with two decimals and "s"; from 60 up to, not including, 3600 it is
    divided by 60 and printed with "m"; from 3600 on it is divided by 3600
    and printed with "h". This holds for every float (a negative one falls
    below 60), so for every non-negative one. In particular 45.0 gives
    "45.00s", 125.0 gives "2.08m" and 7200.0 gives "2.00h". *)
Theorem format_time_thresholds :
  (forall t : float, (t <? 60)%float = true ->
     format_time t = PyFloat.fmt_2f t ++ "s") /\
  (forall t : float, (60 <=? t)%float = true -> (t <? 3600)%float = true ->
     format_time t = PyFloat.fmt_2f (t / 60)%float ++ "m") /\
  (forall t : float, (3600 <=? t)%float = true ->
     format_time t = PyFloat.fmt_2f (t / 3600)%float ++ "h") /\
  format_time 45%float = "45.00s" /\
  format_time 125%float = "2.08m" /\
  format_time 7200%float = "2.00h".
Proof.
  split; [|split; [|split; [|split; [|split]]]].
  - intros t Hlt. unfold format_time. now rewrite Hlt.
  - intros t Hge Hlt. unfold format_time.
    now rewrite (PyFloatFacts.leb_not_ltb _ _ Hge), Hlt.
  - intros t Hge. unfold format_time.
    pose proof (PyFloatFacts.leb_not_ltb _ _ Hge) as H3600.
    destruct (t <? 60)%float eqn:H60.
    + apply PyFloatFacts.ltb_60_3600 in H60. congruence.
    + now rewrite H3600.
  - vm_compute. reflexivity.
  - vm_compute. reflexivity.
  - vm_compute. reflexivity.
Qed.

(** The thresholds at work on three values, one per unit. *)
Lemma format_time_thresholds_witness :
  format_time 59.5%float = "59.50s"
  /\ format_time 60%float = "1.00m"
  /\ format_time 3600%float = "1.00h".
Proof.
  destruct format_time_thresholds as (Hs & Hm & Hh & _).
  split; [|split].
  - rewrite (Hs 59.5%float); vm_compute; reflexivity.
  - rewrite (Hm 60%float); vm_compute; reflexivity.
  - rewrite (Hh 3600%float); vm_compute; reflexivity.
Defined.

End FormatTimeFacts.

(** ** Input validation *)

Module ValidationFacts.

Import Server.

Lemma suffix_empty_path (win : bool) : PyPath.suffix win EmptyString = EmptyString.
Proof. destruct win; reflexivity. Qed.

Lemma accepted_extension (ext : string) :
  existsb (String.eqb ext) [".fsm"; ".fsx"] = true <-> ext = ".fsm" \/ ext = ".fsx".
Proof.
  simpl. rewrite orb_false_r, orb_true_iff, !String.eqb_eq. tauto.
Qed.

(** C6. An [evaluate] request whose script is empty or longer than 10,000
    characters is refused with a validation error, and the state of the
    server, engine and call log included, is what it was: no engine call
    is made. Every script of 1 to 10,000 characters passes validation and
    the request is the run of [flexsim_evaluate] on it. *)
Theorem evaluate_script_length {S : Type} (H : Host S) (budget : nat)
    (s : string) (w : World S) :
  ((PyStr.len s = 0 \/ 10000 < PyStr.len s)%Z ->
     exists e, call_tool H budget (evaluate s) w = (Val (Rejected e), w)) /\
  ((1 <= PyStr.len s <= 10000)%Z ->
     validate_EvaluateScriptInput s = inr {| script := s |}
     /\ call_tool H budget (evaluate s) w
        = unvalidated (flexsim_evaluate H {| script := s |}) w).
Proof.
  unfold call_tool, validate_EvaluateScriptInput. split.
  - intros Hlen.
    destruct (PyStr.len s <? 1)%Z eqn:E1.
    + eexists. reflexivity.
    + destruct (10000 <? PyStr.len s)%Z eqn:E2.
      * eexists. reflexivity.
      * apply Z.ltb_ge in E1, E2. lia.
  - intros [Hlo Hhi].
    assert ((PyStr.len s <? 1)%Z = false) as -> by (apply Z.ltb_ge; lia).
    assert ((10000 <? PyStr.len s)%Z = false) as -> by (apply Z.ltb_ge; lia).
    split; reflexivity.
Qed.

(** C6 at concrete scripts: the empty one and one of 10,001 characters are
    refused, one of 10,000 characters passes, and so does one of 3,334
    check marks, which is 10,002 bytes long. *)
Lemma evaluate_script_length_witness :
  (exists e, call_tool Scenario.std_host 0 (evaluate "")
               (Scenario.fresh Scenario.std_config (Scenario.sim_at 0 0))
             = (Val (Rejected e), Scenario.fresh Scenario.std_config (Scenario.sim_at 0 0)))
  /\ (exists e, call_tool Scenario.std_host 0 (evaluate (Scenario.script_of_length 10001))
                  (Scenario.fresh Scenario.std_config (Scenario.sim_at 0 0))
                = (Val (Rejected e), Scenario.fresh Scenario.std_config (Scenario.sim_at 0 0)))
  /\ validate_EvaluateScriptInput (Scenario.script_of_length 10000)
     = inr {| script := Scenario.script_of_length 10000 |}
  /\ validate_EvaluateScriptInput (Scenario.check_marks 3334)
     = inr {| script := Scenario.check_marks 3334 |}.
Proof.
  split; [|split; [|split]].
  - apply (evaluate_script_length Scenario.std_host 0 "").
    left. reflexivity.
  - apply (evaluate_script_length Scenario.std_host 0 (Scenario.script_of_length 10001)).
    right. unfold Scenario.script_of_length.
    rewrite PyStrFacts.len_replicate; [lia | reflexivity | lia].
  - apply (evaluate_script_length Scenario.std_host 0 (Scenario.script_of_length 10000)
             (Scenario.fresh Scenario.std_config (Scenario.sim_at 0 0))).
    unfold Scenario.script_of_length.
    rewrite PyStrFacts.len_replicate; [lia | reflexivity | lia].
  - apply (evaluate_script_length Scenario.std_host 0 (Scenario.check_marks 3334)
             (Scenario.fresh Scenario.std_config (Scenario.sim_at 0 0))).
    vm_compute. split; discriminate.
Defined.

(** C4, as the code has it: with the extension compared without regard to
    case. If the lower-cased suffix of the path is neither ".fsm" nor
    ".fsx", or the file does not exist, the request is refused with a
    validation error and the state is what it was (no controller is made
    or used, no call is logged). Otherwise validation succeeds with the
    resolved path, and the tool runs on the resolved path. *)
Theorem open_model_validation {S : Type} (H : Host S) (budget : nat)
    (p : string) (w : World S) :
  ((PyStr.lower (PyPath.suffix (PyPath.windows (Config.fs (sys H))) p) <> ".fsm"
    /\ PyStr.lower (PyPath.suffix (PyPath.windows (Config.fs (sys H))) p) <> ".fsx")
   \/ PyPath.path_exists (Config.fs (sys H)) p = false ->
     exists e, call_tool H budget (open_model p) w = (Val (Rejected e), w)) /\
  ((PyStr.lower (PyPath.suffix (PyPath.windows (Config.fs (sys H))) p) = ".fsm"
    \/ PyStr.lower (PyPath.suffix (PyPath.windows (Config.fs (sys H))) p) = ".fsx")
   /\ PyPath.path_exists (Config.fs (sys H)) p = true ->
     validate_OpenModelInput (Config.fs (sys H)) p
     = inr {| model_path := PyPath.path_resolve (Config.fs (sys H)) p |}
     /\ call_tool H budget (open_model p) w
        = unvalidated
            (flexsim_open_model H
               {| model_path := PyPath.path_resolve (Config.fs (sys H)) p |}) w).
Proof.
  unfold call_tool, validate_OpenModelInput, validate_path.
  set (f := Config.fs (sys H)).
  set (ext := PyStr.lower (PyPath.suffix (PyPath.windows f) p)).
  pose proof (accepted_extension ext) as Hext.
  split.
  - intros Hbad.
    destruct (PyStr.len p <? 1)%Z; [eexists; reflexivity|].
    destruct (existsb (String.eqb ext) [".fsm"; ".fsx"]) eqn:Eext; simpl.
    + destruct (PyPath.path_exists f p) eqn:Eex; simpl.
      * exfalso. destruct Hbad as [[H1 H2]|H3]; [|discriminate].
        destruct (proj1 Hext eq_refl); contradiction.
      * eexists. reflexivity.
    + eexists. reflexivity.
  - intros [Hok Hex].
    assert ((PyStr.len p <? 1)%Z = false) as ->.
    { apply Z.ltb_ge. unfold PyStr.len.
      destruct (PyStr.characters p) as [|k] eqn:Ek; [|lia].
      exfalso. subst ext.
      rewrite (PyPathFacts.suffix_no_character _ p Ek) in Hok.
      destruct Hok; discriminate. }
    rewrite (proj2 Hext Hok), Hex. simpl. split; reflexivity.
Qed.

(** C4 at concrete paths of a file system that holds "plant.fsm": a text
    file and a missing model are refused, "plant.fsm" passes; and on
    Windows "C:.fsm" and "//server/share.fsm" name a drive and a share,
    have no suffix and are refused. *)
Lemma open_model_validation_witness :
  (exists e, call_tool Scenario.std_host 0 (open_model "notes.txt")
               (Scenario.fresh Scenario.std_config (Scenario.sim_at 0 0))
             = (Val (Rejected e), Scenario.fresh Scenario.std_config (Scenario.sim_at 0 0)))
  /\ (exists e, call_tool Scenario.std_host 0 (open_model "missing.fsm")
                  (Scenario.fresh Scenario.std_config (Scenario.sim_at 0 0))
                = (Val (Rejected e), Scenario.fresh Scenario.std_config (Scenario.sim_at 0 0)))
  /\ validate_OpenModelInput (Config.fs (sys Scenario.std_host)) "plant.fsm"
     = inr {| model_path := "C:/Models/plant.fsm" |}
  /\ (exists e, call_tool (Scenario.host ["C:.fsm"] true) 0 (open_model "C:.fsm")
                  (Scenario.fresh Scenario.std_config (Scenario.sim_at 0 0))
                = (Val (Rejected e), Scenario.fresh Scenario.std_config (Scenario.sim_at 0 0)))
  /\ (exists e, call_tool (Scenario.host ["//server/share.fsm"] true) 0
                  (open_model "//server/share.fsm")
                  (Scenario.fresh Scenario.std_config (Scenario.sim_at 0 0))
                = (Val (Rejected e), Scenario.fresh Scenario.std_config (Scenario.sim_at 0 0))).
Proof.
  split; [|split; [|split; [|split]]].
  - apply (open_model_validation Scenario.std_host 0 "notes.txt").
    left. split; vm_compute; discriminate.
  - apply (open_model_validation Scenario.std_host 0 "missing.fsm").
    right. reflexivity.
  - apply (open_model_validation Scenario.std_host 0 "plant.fsm"
             (Scenario.fresh Scenario.std_config (Scenario.sim_at 0 0))).
    split; [left; reflexivity | reflexivity].
  - apply (open_model_validation (Scenario.host ["C:.fsm"] true) 0 "C:.fsm").
    left. split; vm_compute; discriminate.
  - apply (open_model_validation (Scenario.host ["//server/share.fsm"] true) 0
             "//server/share.fsm").
    left. split; vm_compute; discriminate.
Defined.

(** C4 as stated fails on an upper-case extension: the suffix of
    "MODEL.FSM" is ".FSM", which is not one of ".fsm", ".fsx", the file
    exists, and validation succeeds. *)
Lemma open_model_uppercase_extension :
  PyPath.suffix true "MODEL.FSM" = ".FSM"
  /\ ~ In ".FSM" [".fsm"; ".fsx"]
  /\ validate_OpenModelInput (Config.fs (sys Scenario.std_host)) "MODEL.FSM"
     = inr {| model_path := "C:/Models/MODEL.FSM" |}.
Proof.
  split; [reflexivity|split; [|reflexivity]].
  simpl. intros [E|[E|[]]]; discriminate.
Qed.

End ValidationFacts.

(** ** Configuration *)

Module ConfigFacts.

Import Config.

Lemma find_first {A : Type} (f : A -> bool) (before : list A) (a : A) (after : list A) :
  (forall x, In x before -> f x = false) -> f a = true ->
  find f (before ++ a :: after) = Some a.
Proof.
  induction before as [|b before IH]; simpl; intros Hb Ha.
  - now rewrite Ha.
  - rewrite (Hb b (or_introl eq_refl)). apply IH; auto.
Qed.

Lemma find_nowhere {A : Type} (f : A -> bool) (l : list A) :
  (forall x, In x l -> f x = false) -> find f l = None.
Proof.
  induction l as [|b l IH]; simpl; intros Hb; [reflexivity|].
  rewrite (Hb b (or_introl eq_refl)). apply IH; auto.
Qed.

(** Without an explicit path the lookup is the first existing place of
    [search_path]. *)
Lemma find_config_file_search (sys : System) (config_path : path_arg) :
  arg_truthy config_path = false ->
  _find_config_file sys config_path = find (PyPath.path_exists (fs sys)) (search_path sys).
Proof.
  intros Hno. unfold _find_config_file, search_path. rewrite Hno.
  destruct (environ sys "FLEXSIM_CONFIG_PATH") as [env_path|]; simpl.
  - destruct (PyStr.truthy env_path); simpl.
    + destruct (PyPath.path_exists (fs sys) env_path); simpl; [reflexivity|].
      destruct (PyPath.path_exists (fs sys) _); [reflexivity|].
      destruct (PyPath.path_exists (fs sys) _); reflexivity.
    + destruct (PyPath.path_exists (fs sys) _); [reflexivity|].
      destruct (PyPath.path_exists (fs sys) _); reflexivity.
  - destruct (PyPath.path_exists (fs sys) _); [reflexivity|].
    destruct (PyPath.path_exists (fs sys) _); reflexivity.
Qed.

(** C9, as the code has it. An explicit path argument, when one is given
    (not [None], not the empty string), is the only place looked at: the
    file is used if it exists, and if it does not the lookup finds nothing
    and the defaults are loaded, whatever the environment variable, the
    working directory and the install root hold. Only when no path is
    given does the search go, in this order, through the file the
    environment variable names, [config.toml] in the working directory and
    [config.toml] in the install root, the first that exists being used;
    when none exists the hard-coded defaults are loaded. *)
Theorem find_config_file_precedence (sys : System) (config_path : path_arg) :
  (arg_truthy config_path = true ->
     _find_config_file sys config_path
     = find (PyPath.path_exists (fs sys)) [arg_path config_path]) /\
  (arg_truthy config_path = true ->
     PyPath.path_exists (fs sys) (arg_path config_path) = false ->
     _find_config_file sys config_path = None
     /\ _load_config sys (_find_config_file sys config_path) = _set_defaults) /\
  (arg_truthy config_path = false ->
     _find_config_file sys config_path
     = find (PyPath.path_exists (fs sys)) (search_path sys)) /\
  (arg_truthy config_path = false ->
     (forall p, In p (search_path sys) -> PyPath.path_exists (fs sys) p = false) ->
     _find_config_file sys config_path = None
     /\ _load_config sys (_find_config_file sys config_path) = _set_defaults).
Proof.
  split; [|split; [|split]].
  - intros Hyes. unfold _find_config_file. rewrite Hyes. simpl.
    destruct (PyPath.path_exists (fs sys) (arg_path config_path)); reflexivity.
  - intros Hyes Hmiss. unfold _find_config_file. rewrite Hyes, Hmiss.
    split; reflexivity.
  - apply find_config_file_search.
  - intros Hno Hnone. rewrite (find_config_file_search _ _ Hno).
    rewrite (find_nowhere _ _ Hnone). split; reflexivity.
Qed.

(** C9 at concrete inputs: an explicit path that exists is used; one that
    does not exist gives the defaults; with no path the environment
    variable's file comes before the working directory's. *)
Lemma find_config_file_precedence_witness :
  _find_config_file Scenario.env_and_cwd (StrPath "C:/Work/config.toml") = Some "C:/Work/config.toml"
  /\ _load_config Scenario.env_and_cwd (_find_config_file Scenario.env_and_cwd (StrPath "missing.toml")) = _set_defaults
  /\ _find_config_file Scenario.env_and_cwd NoPath = Some "C:/env/config.toml".
Proof.
  split; [|split].
  - rewrite (proj1 (find_config_file_precedence Scenario.env_and_cwd (StrPath "C:/Work/config.toml")));
      reflexivity.
  - apply (proj1 (proj2 (find_config_file_precedence Scenario.env_and_cwd
                            (StrPath "missing.toml")))); reflexivity.
  - rewrite (proj1 (proj2 (proj2 (find_config_file_precedence Scenario.env_and_cwd NoPath))));
      reflexivity.
Defined.

(** C9 as stated fails: with an explicit path that does not exist, the
    chain of precedence would go on to the environment variable's file,
    which exists; the code stops and finds nothing. *)
Lemma explicit_path_stops_the_search :
  PyPath.path_exists (fs Scenario.env_and_cwd) "C:/env/config.toml" = true
  /\ precedence_chain Scenario.env_and_cwd (StrPath "missing.toml") = Some "C:/env/config.toml"
  /\ _find_config_file Scenario.env_and_cwd (StrPath "missing.toml") = None.
Proof. repeat split. Qed.

End ConfigFacts.

(** ** Running the tools: general facts *)

Module RunFacts.

Import Server.

Section WithHost.

Context {S : Type} (H : Host S).

(** With a controller in place the accessor returns it and changes nothing. *)
Lemma get_controller_existing (w : World S) (c : handle) :
  _controller w = Some c -> get_controller H w = (Val c, w).
Proof.
  intros Hc. unfold get_controller, bind, read_controller. now rewrite Hc.
Qed.

(** The message of the error raised when no install directory exists is
    classified as "not found". *)
Lemma not_found_message (dir : string) :
  format_error {| exn_class := FileNotFoundError;
                  exn_msg := "FlexSim not found at " ++ dir ++ ". "
                             ++ "Update config.toml with correct path." |}
  = "Not found: " ++ "FlexSim not found at " ++ dir ++ ". "
    ++ "Update config.toml with correct path.".
Proof. reflexivity. Qed.

End WithHost.

End RunFacts.

(** ** The export tool *)

Module ExportFacts.

Import Server.

(** C10. The export command follows the lower-cased format: "csv" gives the
    table export, "xlsx" the Excel export, and every other string the JSON
    export; a missing format is "csv". No format is refused by validation,
    and with a controller in place the tool issues exactly one engine call,
    the evaluation of that command. *)
Theorem export_format_dispatch {S : Type} (H : Host S) (path fmt : string)
    (w : World S) (c : handle) :
  validate_ExportResultsInput path (Some fmt) = inr {| export_path := path; format := fmt |}
  /\ validate_ExportResultsInput path None = inr {| export_path := path; format := "csv" |}
  /\ (PyStr.lower fmt = "csv" ->
        export_script {| export_path := path; format := fmt |}
        = "exporttable(" ++ PyStr.dq ++ path ++ PyStr.dq ++ ")")
  /\ (PyStr.lower fmt = "xlsx" ->
        export_script {| export_path := path; format := fmt |}
        = "exportexcel(" ++ PyStr.dq ++ path ++ PyStr.dq ++ ")")
  /\ (PyStr.lower fmt <> "csv" -> PyStr.lower fmt <> "xlsx" ->
        export_script {| export_path := path; format := fmt |}
        = "exportjson(" ++ PyStr.dq ++ path ++ PyStr.dq ++ ")")
  /\ (_controller w = Some c ->
        calls (snd (flexsim_export_results H {| export_path := path; format := fmt |} w))
        = (calls w ++ [CEvaluate (export_script {| export_path := path; format := fmt |})])%list).
Proof.
  split; [reflexivity|]. split; [reflexivity|].
  unfold export_script. cbn [format export_path].
  split; [|split; [|split]].
  - intros ->. reflexivity.
  - intros ->. reflexivity.
  - intros Hcsv Hxlsx.
    destruct (String.eqb_spec (PyStr.lower fmt) "csv") as [E|_]; [contradiction|].
    destruct (String.eqb_spec (PyStr.lower fmt) "xlsx") as [E|_]; [contradiction|].
    reflexivity.
  - intros Hc.
    unfold flexsim_export_results, export_results_body, try_except, bind.
    rewrite (RunFacts.get_controller_existing H w c Hc).
    unfold evaluate_, invoke.
    destruct (ctl_evaluate (eng H) c _ (engine w)) as [[v|e] s']; reflexivity.
Qed.

(** C10 at concrete formats: "CSV" is the table export, "Xlsx" the Excel
    export, "yaml" the JSON export, and the running server logs the one
    evaluation. *)
Lemma export_format_dispatch_witness :
  export_script {| export_path := "out"; format := "CSV" |}
    = "exporttable(" ++ PyStr.dq ++ "out" ++ PyStr.dq ++ ")"
  /\ export_script {| export_path := "out"; format := "Xlsx" |}
    = "exportexcel(" ++ PyStr.dq ++ "out" ++ PyStr.dq ++ ")"
  /\ export_script {| export_path := "out"; format := "yaml" |}
    = "exportjson(" ++ PyStr.dq ++ "out" ++ PyStr.dq ++ ")"
  /\ calls (snd (flexsim_export_results Scenario.std_host
                   {| export_path := "out"; format := "yaml" |}
                   (Scenario.running Scenario.std_config (Scenario.sim_at 0 0))))
     = [CEvaluate ("exportjson(" ++ PyStr.dq ++ "out" ++ PyStr.dq ++ ")")].
Proof.
  split; [|split; [|split]].
  - apply (export_format_dispatch Scenario.std_host "out" "CSV"
             (Scenario.running Scenario.std_config (Scenario.sim_at 0 0)) 7).
    reflexivity.
  - apply (export_format_dispatch Scenario.std_host "out" "Xlsx"
             (Scenario.running Scenario.std_config (Scenario.sim_at 0 0)) 7).
    reflexivity.
  - apply (export_format_dispatch Scenario.std_host "out" "yaml"
             (Scenario.running Scenario.std_config (Scenario.sim_at 0 0)) 7);
      discriminate.
  - rewrite (proj2 (proj2 (proj2 (proj2 (proj2
               (export_format_dispatch Scenario.std_host "out" "yaml"
                  (Scenario.running Scenario.std_config (Scenario.sim_at 0 0)) 7)))))
               eq_refl).
    reflexivity.
Defined.

End ExportFacts.

(** ** Launching the engine *)

Module LaunchFacts.

Import Server.

Section WithHost.

Context {S : Type} (H : Host S).

(** Reading the configuration logs nothing and leaves engine and
    controller alone. *)
Lemma get_config_frame (w : World S) :
  get_config H w = (Val (current_config H w), snd (get_config H w))
  /\ calls (snd (get_config H w)) = calls w
  /\ engine (snd (get_config H w)) = engine w
  /\ _controller (snd (get_config H w)) = _controller w.
Proof.
  unfold get_config, current_config.
  destruct (Config.get_config (sys H) (_config_global w)) as [c g]. repeat split.
Qed.

(** The launch once the module is loaded: the primary path if it exists,
    else the first fallback that does, else [FileNotFoundError]. *)
Lemma launch_flexsim_sync_loaded (w : World S) :
  FlexSimPy_loaded H = true ->
  launch_flexsim_sync H w =
    if exists_ H (Config.flexsim_install_path (current_config H w))
    then invoke (CLaunch (Config.flexsim_install_path (current_config H w)))
           (launch (eng H) (Config.flexsim_install_path (current_config H w)))
           (snd (get_config H w))
    else
      match find (exists_ H) (Config.flexsim_alternative_paths (current_config H w)) with
      | Some alt_path =>
          invoke (CLaunch alt_path) (launch (eng H) alt_path) (snd (get_config H w))
      | None =>
          (Exc {| exn_class := FileNotFoundError;
                  exn_msg := "FlexSim not found at "
                             ++ Config.flexsim_install_path (current_config H w) ++ ". "
                             ++ "Update config.toml with correct path." |},
           snd (get_config H w))
      end.
Proof.
  intros Hl. unfold launch_flexsim_sync. rewrite Hl. cbn [negb].
  unfold bind at 1. destruct (get_config_frame w) as [-> _].
  destruct (exists_ H (Config.flexsim_install_path (current_config H w))); cbn [negb].
  - reflexivity.
  - destruct (find (exists_ H) (Config.flexsim_alternative_paths (current_config H w)));
      reflexivity.
Qed.

End WithHost.

(** C8, as the code has it. The launch first tests that the FlexSimPy
    module was imported: if it was not, it raises [RuntimeError] and no
    path is looked at. Once the module is there: when the primary install
    path does not exist, the fallback paths are tried in their configured
    order and the engine is launched from the first that exists. When no
    fallback exists either, the launch raises [FileNotFoundError] with a
    message that [format_error] classifies as "Not found", nothing is
    logged ([FlexSimPy.launch] is not called), the engine is untouched, and
    the accessor fails the same way without a controller being stored. *)
Theorem launch_path_resolution {S : Type} (H : Host S) (w : World S) :
  (FlexSimPy_loaded H = false ->
     launch_flexsim_sync H w
     = (Exc {| exn_class := RuntimeError; exn_msg := "FlexSimPy module not available" |},
        w))
  /\
  (FlexSimPy_loaded H = true ->
   exists_ H (Config.flexsim_install_path (current_config H w)) = false ->
   (forall before a after,
      Config.flexsim_alternative_paths (current_config H w) = (before ++ a :: after)%list ->
      (forall x, In x before -> exists_ H x = false) ->
      exists_ H a = true ->
      launch_flexsim_sync H w
      = invoke (CLaunch a) (launch (eng H) a) (snd (get_config H w)))
   /\
   ((forall x, In x (Config.flexsim_alternative_paths (current_config H w)) ->
               exists_ H x = false) ->
      launch_flexsim_sync H w
      = (Exc {| exn_class := FileNotFoundError;
                exn_msg := "FlexSim not found at "
                           ++ Config.flexsim_install_path (current_config H w) ++ ". "
                           ++ "Update config.toml with correct path." |},
         snd (get_config H w))
      /\ calls (snd (launch_flexsim_sync H w)) = calls w
      /\ engine (snd (launch_flexsim_sync H w)) = engine w
      /\ format_error {| exn_class := FileNotFoundError;
                         exn_msg := "FlexSim not found at "
                                    ++ Config.flexsim_install_path (current_config H w) ++ ". "
                                    ++ "Update config.toml with correct path." |}
         = "Not found: " ++ "FlexSim not found at "
           ++ Config.flexsim_install_path (current_config H w) ++ ". "
           ++ "Update config.toml with correct path."
      /\ (_controller w = None ->
          fst (get_controller H w)
          = Exc {| exn_class := FileNotFoundError;
                   exn_msg := "FlexSim not found at "
                              ++ Config.flexsim_install_path (current_config H w) ++ ". "
                              ++ "Update config.toml with correct path." |}
          /\ _controller (snd (get_controller H w)) = None))).
Proof.
  split.
  { intros Hl. unfold launch_flexsim_sync. rewrite Hl. reflexivity. }
  intros Hl Hprimary.
  pose proof (launch_flexsim_sync_loaded H w Hl) as E. rewrite Hprimary in E.
  split.
  - intros before a after Halts Hbefore Ha.
    rewrite E, Halts, (ConfigFacts.find_first _ _ _ _ Hbefore Ha). reflexivity.
  - intros Hnone. rewrite (ConfigFacts.find_nowhere _ _ Hnone) in E.
    destruct (get_config_frame H w) as (_ & Hcalls & Heng & Hctl).
    split; [exact E|]. rewrite E. cbn [snd].
    split; [exact Hcalls|]. split; [exact Heng|].
    split; [apply RunFacts.not_found_message|].
    intros Hc. unfold get_controller, bind, read_controller. rewrite Hc.
    unfold launch_flexsim. rewrite E. cbn [fst snd]. split; [reflexivity|].
    now rewrite Hctl.
Qed.

(** C8 on a machine where only the second of three fallbacks exists, and
    on one where nothing exists. *)
Lemma launch_path_resolution_witness :
  launch_flexsim_sync (Scenario.host ["E:/FlexSim/program"; "F:/FlexSim/program"] true)
    (Scenario.fresh
       (Scenario.config_with Scenario.install
          ["D:/FlexSim/program"; "E:/FlexSim/program"; "F:/FlexSim/program"])
       (Scenario.sim_at 0 0))
  = (Val 7,
     {| _controller := None;
        _config_global :=
          Some (Scenario.config_with Scenario.install
                  ["D:/FlexSim/program"; "E:/FlexSim/program"; "F:/FlexSim/program"]);
        engine := Scenario.sim_at 0 0;
        calls := [CLaunch "E:/FlexSim/program"] |})
  /\ calls (snd (launch_flexsim_sync (Scenario.host [] true)
                   (Scenario.fresh
                      (Scenario.config_with Scenario.install ["D:/FlexSim/program"])
                      (Scenario.sim_at 0 0)))) = [].
Proof.
  split.
  - rewrite (proj1 (proj2 (launch_path_resolution
                      (Scenario.host ["E:/FlexSim/program"; "F:/FlexSim/program"] true)
                      (Scenario.fresh
                         (Scenario.config_with Scenario.install
                            ["D:/FlexSim/program"; "E:/FlexSim/program"; "F:/FlexSim/program"])
                         (Scenario.sim_at 0 0)))
                      eq_refl eq_refl)
               ["D:/FlexSim/program"] "E:/FlexSim/program" ["F:/FlexSim/program"]
               eq_refl).
    + reflexivity.
    + intros x [<-|[]]. reflexivity.
    + reflexivity.
  - apply (proj2 (proj2 (launch_path_resolution (Scenario.host [] true)
                    (Scenario.fresh
                       (Scenario.config_with Scenario.install ["D:/FlexSim/program"])
                       (Scenario.sim_at 0 0)))
                    eq_refl eq_refl)).
    intros x _. reflexivity.
Defined.

(** C8 as stated fails when [import FlexSimPy] did not succeed: no path
    exists, yet the error is the [RuntimeError] of the guard that comes
    first, and a tool reports it as a generic error. *)
Lemma launch_without_FlexSimPy :
  exists_ (Scenario.host [] false) Scenario.install = false
  /\ exists_ (Scenario.host [] false) "D:/FlexSim/program" = false
  /\ launch_flexsim_sync (Scenario.host [] false)
       (Scenario.fresh (Scenario.config_with Scenario.install ["D:/FlexSim/program"])
          (Scenario.sim_at 0 0))
     = (Exc {| exn_class := RuntimeError; exn_msg := "FlexSimPy module not available" |},
        Scenario.fresh (Scenario.config_with Scenario.install ["D:/FlexSim/program"])
          (Scenario.sim_at 0 0))
  /\ fst (flexsim_get_time (Scenario.host [] false)
            (Scenario.fresh (Scenario.config_with Scenario.install ["D:/FlexSim/program"])
               (Scenario.sim_at 0 0)))
     = Val "Error: FlexSimPy module not available".
Proof. repeat split. Qed.

End LaunchFacts.

(** ** Every tool call is answered *)

Module ToolFacts.

Import Server.

(** *** [format_error] classifies by the first keyword found *)

Lemma format_error_classifies (e : exn) :
  (PyStr.Substring "not found" (PyStr.lower (exn_msg e)) ->
     format_error e = "Not found: " ++ exn_msg e)
  /\ (~ PyStr.Substring "not found" (PyStr.lower (exn_msg e)) ->
      PyStr.Substring "syntax" (PyStr.lower (exn_msg e)) ->
      format_error e = "FlexScript syntax error: " ++ exn_msg e)
  /\ (~ PyStr.Substring "not found" (PyStr.lower (exn_msg e)) ->
      ~ PyStr.Substring "syntax" (PyStr.lower (exn_msg e)) ->
      PyStr.Substring "license" (PyStr.lower (exn_msg e)) ->
      format_error e = "License error: " ++ exn_msg e)
  /\ (~ PyStr.Substring "not found" (PyStr.lower (exn_msg e)) ->
      ~ PyStr.Substring "syntax" (PyStr.lower (exn_msg e)) ->
      ~ PyStr.Substring "license" (PyStr.lower (exn_msg e)) ->
      PyStr.Substring "permission" (PyStr.lower (exn_msg e)) ->
      format_error e = "Permission denied: " ++ exn_msg e)
  /\ (~ PyStr.Substring "not found" (PyStr.lower (exn_msg e)) ->
      ~ PyStr.Substring "syntax" (PyStr.lower (exn_msg e)) ->
      ~ PyStr.Substring "license" (PyStr.lower (exn_msg e)) ->
      ~ PyStr.Substring "permission" (PyStr.lower (exn_msg e)) ->
      format_error e = "Error: " ++ exn_msg e).
Proof.
  unfold format_error.
  repeat split; intros;
    repeat match goal with
    | Hs : PyStr.Substring _ _ |- _ => apply PyStrFacts.contains_spec in Hs; rewrite Hs
    | Hn : ~ PyStr.Substring _ _ |- _ => apply PyStrFacts.contains_false in Hn; rewrite Hn
    end; reflexivity.
Qed.

(** *** Computations that settle *)

Section Settling.

Context {S : Type} (H : Host S).

Lemma settles_ret {A : Type} (a : A) : settles (@ret S A a).
Proof. intros w. discriminate. Qed.

Lemma settles_raise {A : Type} (c : exc_class) (msg : string) : settles (@raise S A c msg).
Proof. intros w. discriminate. Qed.

Lemma settles_invoke {A : Type} (c : call) (op : S -> result A * S) : settles (invoke c op).
Proof.
  intros w. unfold invoke. destruct (op (engine w)) as [[a|e] s']; discriminate.
Qed.

Lemma settles_bind {A B : Type} (m : M S A) (k : A -> M S B) :
  settles m -> (forall a, settles (k a)) -> settles (bind m k).
Proof.
  intros Hm Hk w. unfold bind. specialize (Hm w).
  destruct (m w) as [[a|e|] w']; simpl in *; [apply Hk | discriminate | congruence].
Qed.

Lemma settles_try_except {A : Type} (m : M S A) (h : exn -> A) :
  settles m -> settles (try_except m h).
Proof.
  intros Hm w. unfold try_except. specialize (Hm w).
  destruct (m w) as [[a|e|] w']; simpl in *; [discriminate | discriminate | congruence].
Qed.

Lemma settles_for_range (n : nat) (body : M S unit) :
  settles body -> settles (for_range n body).
Proof.
  intros Hb. induction n as [|n IH]; simpl.
  - apply settles_ret.
  - apply settles_bind; [exact Hb | intros _; exact IH].
Qed.

Lemma settles_get_config : settles (get_config H).
Proof.
  intros w. unfold get_config.
  destruct (Config.get_config (sys H) (_config_global w)); discriminate.
Qed.

Lemma settles_launch : settles (launch_flexsim_sync H).
Proof.
  unfold launch_flexsim_sync.
  destruct (negb (FlexSimPy_loaded H)); [apply settles_raise|].
  apply settles_bind; [apply settles_get_config | intros config].
  apply settles_bind; [|intros d; apply settles_invoke].
  destruct (negb _); [|apply settles_ret].
  destruct (find _ _); [apply settles_ret | apply settles_raise].
Qed.

Lemma settles_get_controller : settles (get_controller H).
Proof.
  unfold get_controller.
  apply settles_bind; [intros w; discriminate | intros [c|]].
  - apply settles_ret.
  - apply settles_bind; [apply settles_launch | intros c].
    apply settles_bind; [intros w; discriminate | intros _; apply settles_ret].
Qed.

End Settling.

Ltac settle H :=
  repeat match goal with
    | |- settles (bind _ _) => apply settles_bind; [|intros ?]
    | |- settles (ret _) => apply settles_ret
    | |- settles (invoke _ _) => apply settles_invoke
    | |- settles (get_controller _) => apply settles_get_controller
    | |- settles (time_ _ _) => apply settles_invoke
    | |- settles (evaluate_ _ _ _) => apply settles_invoke
    | |- settles (single_step _ _) => unfold single_step
    | |- settles (for_range _ _) => apply settles_for_range
    | |- settles (if ?b then _ else _) => destruct b
    | |- settles (match ?x with _ => _ end) => destruct x
    end.

Section Answers.

Context {S : Type} (H : Host S).

(** The [try] block of every tool settles, the real-time mode of
    run-to-time apart. *)
Lemma try_block_settles (budget : nat) (c : Call) :
  (forall p, c = run_to_time_call p -> fast_mode p = true) ->
  settles (try_block H budget c).
Proof.
  intros Hfast. destruct c as [p| | |p| | |p|p|p|p|p| | | |p]; cbn [try_block].
  - unfold open_model_body. settle H.
  - unfold reset_body. settle H.
  - unfold run_body. settle H.
  - unfold run_to_time_body. rewrite (Hfast p eq_refl). settle H.
  - unfold stop_body. settle H.
  - unfold get_time_body. settle H.
  - unfold step_body. settle H.
  - unfold evaluate_body. settle H.
  - unfold get_node_value_body. settle H.
  - unfold set_node_value_body. settle H.
  - unfold save_model_body. settle H.
  - unfold new_model_body. settle H.
  - unfold compile_body. settle H.
  - unfold get_statistics_body. settle H.
  - unfold export_results_body. settle H.
Qed.

(** A request is validated, and then its tool is the [try] block under the
    handler that formats the exception. *)
Lemma call_tool_decompose (budget : nat) (r : Request) (w : World S) :
  call_tool H budget r w =
    match validate H r with
    | inl e => (Val (Rejected e), w)
    | inr c =>
        bind (try_except (try_block H budget c)
                (fun e => except_prefix c ++ format_error e))
          (fun s => ret (Text s)) w
    end.
Proof.
  destruct r; unfold call_tool, validate, validated, unvalidated;
    try reflexivity;
    match goal with
    | |- context [match ?v with inl _ => _ | inr _ => _ end] => destruct v; reflexivity
    end.
Qed.

(** What validation makes of the requests that poll. *)
Lemma validate_polls (r : Request) (p : RunToTimeInput) :
  validate H r = inr (run_to_time_call p) -> polls r = negb (fast_mode p).
Proof.
  destruct r; cbn [validate];
    try discriminate;
    try (match goal with
         | |- context [match ?v with inl _ => _ | inr _ => _ end] => destruct v
         end; discriminate).
  unfold validate_RunToTimeInput.
  destruct (0 <? target_time0)%float; [|discriminate].
  intros E. injection E as <-. destruct fast_mode0 as [[|]|]; reflexivity.
Qed.

Lemma call_tool_never_raises (budget : nat) (r : Request) (w : World S) (e : exn) :
  fst (call_tool H budget r w) <> Exc e.
Proof.
  rewrite call_tool_decompose. destruct (validate H r) as [v|c]; [discriminate|].
  unfold bind, try_except.
  destruct (try_block H budget c w) as [[s|e'|] w']; discriminate.
Qed.

Lemma call_tool_answers (budget : nat) (r : Request) (w : World S) :
  polls r = false ->
  exists resp,
    fst (call_tool H budget r w) = Val resp
    /\ (forall c, validate H r = inr c -> exists s, resp = Text s).
Proof.
  intros Hp. rewrite call_tool_decompose.
  destruct (validate H r) as [v|c] eqn:V.
  { eexists. split; [reflexivity | discriminate]. }
  assert (settles (try_block H budget c)) as Hs.
  { apply try_block_settles. intros p ->.
    apply validate_polls in V. rewrite Hp in V. now destruct (fast_mode p). }
  specialize (Hs w). unfold bind, try_except.
  destruct (try_block H budget c w) as [[s|e'|] w']; simpl in *;
    [| |congruence]; eexists; (split; [reflexivity | intros c' _; eexists; reflexivity]).
Qed.

(** An exception raised inside the [try] block comes back as text: the
    formatted error, after "Script error: " for [evaluate]. *)
Lemma call_tool_formats (budget : nat) (r : Request) (w w' : World S) (c : Call) (e : exn) :
  validate H r = inr c ->
  try_block H budget c w = (Exc e, w') ->
  call_tool H budget r w = (Val (Text (except_prefix c ++ format_error e)), w').
Proof.
  intros V B. rewrite call_tool_decompose, V. unfold bind, try_except. now rewrite B.
Qed.

(** *** The budget of the polling loop *)

Lemma poll_more (b k : nat) (c : handle) (t : float) (w : World S) :
  fst (poll H b c t w) <> Pending -> poll H (b + k) c t w = poll H b c t w.
Proof.
  revert w. induction b as [|b IH]; intros w Hp.
  - exfalso. apply Hp. reflexivity.
  - cbn [Nat.add poll] in *. unfold bind at 1 in Hp. unfold bind at 1. unfold bind at 2.
    destruct (time_ H c w) as [[cur|e|] w1]; try reflexivity.
    destruct (t <=? cur)%float; [reflexivity|].
    unfold bind, sleep in *. apply IH. exact Hp.
Qed.

Lemma run_to_time_body_more (b k : nat) (p : RunToTimeInput) (w : World S) :
  fst (run_to_time_body H b p w) <> Pending ->
  run_to_time_body H (b + k) p w = run_to_time_body H b p w.
Proof.
  unfold run_to_time_body, bind.
  destruct (get_controller H w) as [[c|e|] w1]; try reflexivity.
  destruct (time_ H c w1) as [[start|e|] w2]; try reflexivity.
  destruct (target_time p <=? start)%float; [reflexivity|].
  destruct (fast_mode p); [reflexivity|].
  destruct (evaluate_ H c _ w2) as [[v|e|] w3]; try reflexivity.
  destruct (invoke CRun _ w3) as [[u|e|] w4]; try reflexivity.
  intros Hp. rewrite poll_more; [reflexivity|].
  destruct (poll H b c (target_time p) w4) as [[u'|e|] w5]; simpl in *; congruence.
Qed.

(** Once a call is answered within a budget, a larger budget gives the
    same answer and the same state. *)
Lemma call_tool_more (b k : nat) (r : Request) (w : World S) :
  fst (call_tool H b r w) <> Pending -> call_tool H (b + k) r w = call_tool H b r w.
Proof.
  rewrite !call_tool_decompose. destruct (validate H r) as [v|c]; [reflexivity|].
  destruct c; try reflexivity.
  cbn [try_block]. unfold bind, try_except. intros Hp.
  rewrite run_to_time_body_more; [reflexivity|].
  destruct (run_to_time_body H b params w) as [[s|e|] w']; simpl in *; congruence.
Qed.

End Answers.

(** What the tools do with exceptions, as long as every engine call
    returns or raises an instance of [Exception] and no task is cancelled.
    No tool call raises: its outcome is a response or, for the real-time
    mode of run-to-time only, a poll that has not ended. Every other tool
    call is answered, with a text once its input passed validation, and an
    answer given within some number of polls is the answer for every
    larger number. When the [try] block of a tool raises, the
    tool returns the text [format_error] makes of the exception (after
    "Script error: " for [evaluate]); [format_error] puts before the
    message the prefix of the first keyword that the lower-cased message
    contains, in the order "not found", "syntax", "license", "permission",
    and "Error: " when it contains none. *)
Theorem tool_calls_answer {S : Type} (H : Host S) (budget : nat) (r : Request)
    (w : World S) :
  (forall e, fst (call_tool H budget r w) <> Exc e)
  /\ (polls r = false ->
      exists resp,
        fst (call_tool H budget r w) = Val resp
        /\ (forall c, validate H r = inr c -> exists s, resp = Text s))
  /\ (fst (call_tool H budget r w) <> Pending ->
      forall k, call_tool H (budget + k) r w = call_tool H budget r w)
  /\ (forall c e w',
        validate H r = inr c ->
        try_block H budget c w = (Exc e, w') ->
        call_tool H budget r w = (Val (Text (except_prefix c ++ format_error e)), w'))
  /\ (forall e,
        (PyStr.Substring "not found" (PyStr.lower (exn_msg e)) ->
           format_error e = "Not found: " ++ exn_msg e)
        /\ (~ PyStr.Substring "not found" (PyStr.lower (exn_msg e)) ->
            PyStr.Substring "syntax" (PyStr.lower (exn_msg e)) ->
            format_error e = "FlexScript syntax error: " ++ exn_msg e)
        /\ (~ PyStr.Substring "not found" (PyStr.lower (exn_msg e)) ->
            ~ PyStr.Substring "syntax" (PyStr.lower (exn_msg e)) ->
            PyStr.Substring "license" (PyStr.lower (exn_msg e)) ->
            format_error e = "License error: " ++ exn_msg e)
        /\ (~ PyStr.Substring "not found" (PyStr.lower (exn_msg e)) ->
            ~ PyStr.Substring "syntax" (PyStr.lower (exn_msg e)) ->
            ~ PyStr.Substring "license" (PyStr.lower (exn_msg e)) ->
            PyStr.Substring "permission" (PyStr.lower (exn_msg e)) ->
            format_error e = "Permission denied: " ++ exn_msg e)
        /\ (~ PyStr.Substring "not found" (PyStr.lower (exn_msg e)) ->
            ~ PyStr.Substring "syntax" (PyStr.lower (exn_msg e)) ->
            ~ PyStr.Substring "license" (PyStr.lower (exn_msg e)) ->
            ~ PyStr.Substring "permission" (PyStr.lower (exn_msg e)) ->
            format_error e = "Error: " ++ exn_msg e)).
Proof.
  split; [intros e; apply call_tool_never_raises|].
  split; [apply call_tool_answers|].
  split; [intros Hp k; now apply call_tool_more|].
  split; [intros c e w'; apply call_tool_formats|].
  apply format_error_classifies.
Qed.

End ToolFacts.

(** ** Concrete runs of the tools *)

Module ToolRuns.

Import Server.

(** On an engine whose clock stands at 0 and does not move, polling for
    the time 5 has not ended after any number of rounds. *)
Lemma poll_stalled (b : nat) (w : World Scenario.sim) :
  Scenario.now (engine w) = 0%float ->
  Scenario.pace (engine w) = 0%float ->
  fst (poll Scenario.std_host b 7 5 w) = Pending.
Proof.
  revert w. induction b as [|b IH]; intros w Hnow Hpace; [reflexivity|].
  cbn [poll]. unfold bind at 1. unfold time_, invoke.
  cbn [eng Scenario.std_host Scenario.host ctl_time Scenario.sim_engine].
  rewrite Hnow.
  change (5 <=? 0)%float with false. cbv iota.
  unfold bind, sleep. apply IH; cbn; [rewrite Hnow, Hpace; reflexivity | exact Hpace].
Qed.

(** C1. The claim fails on the code for the real-time mode of run-to-time,
    which is the default mode. On an engine whose simulation has stopped
    short of the target (its clock stands at 0 and no longer moves), a
    request to run to time 5 is validated, sets the stop time, starts the
    run and then polls without end: whatever the number of polls, the call
    has no response. *)
Lemma real_time_run_never_answers :
  ~ exists budget resp,
      fst (call_tool Scenario.std_host budget (run_to_time 5 None) Scenario.stalled)
      = Val resp.
Proof.
  intros [b [resp E]].
  rewrite ToolFacts.call_tool_decompose in E.
  change (validate Scenario.std_host (run_to_time 5 None))
    with (@inr ValidationError Call
            (run_to_time_call {| target_time := 5; fast_mode := false |})) in E.
  cbn [try_block] in E.
  unfold bind, try_except, run_to_time_body in E.
  unfold bind at 1 in E.
  rewrite (RunFacts.get_controller_existing Scenario.std_host Scenario.stalled 7 eq_refl) in E.
  unfold bind at 1 in E.
  change (time_ Scenario.std_host 7 Scenario.stalled)
    with (Val 0%float,
          {| _controller := Some 7; _config_global := Some Scenario.std_config;
             engine := Scenario.sim_at 0 0; calls := [CTime] |}) in E.
  cbv iota beta in E.
  change (target_time {| target_time := 5; fast_mode := false |} <=? 0)%float
    with false in E.
  cbn [fast_mode target_time] in E. cbv iota in E.
  unfold bind at 1 in E. unfold bind at 1 in E.
  unfold evaluate_ at 1, invoke at 1 in E.
  cbn [eng Scenario.std_host Scenario.host ctl_evaluate Scenario.sim_engine engine
       Scenario.sim_at Scenario.evaluate_error] in E.
  match type of E with
  | context [String.eqb ?a "step()"] => change (String.eqb a "step()") with false in E
  end.
  cbv iota beta in E.
  unfold bind at 1 in E. unfold invoke at 1 in E.
  cbn [eng Scenario.std_host Scenario.host ctl_run Scenario.sim_engine engine] in E.
  cbv iota beta in E.
  unfold bind at 1 in E.
  match type of E with
  | context [poll _ b 7 5 ?w] =>
      pose proof (poll_stalled b w eq_refl eq_refl) as P;
      destruct (poll Scenario.std_host b 7 5 w) as [[u|e|] w']
  end; simpl in P, E; discriminate.
Qed.

(** At concrete calls: a script the engine refuses with a syntax error
    comes back as classified text; [reset] is answered; a real-time run to
    time 2 on an engine that moves by one second per sleep is answered
    within 3 polls, and with 7 polls the answer is the same. *)
Lemma tool_calls_answer_witness :
  call_tool Scenario.std_host 0 (evaluate "1 +")
    (Scenario.refusing "Syntax error: unexpected end")
  = (Val (Text "Script error: FlexScript syntax error: Syntax error: unexpected end"),
     {| _controller := Some 7; _config_global := Some Scenario.std_config;
        engine := engine (Scenario.refusing "Syntax error: unexpected end");
        calls := [CEvaluate "1 +"] |})
  /\ (exists resp,
        fst (call_tool Scenario.std_host 0 reset Scenario.stalled) = Val resp
        /\ (forall c, validate Scenario.std_host reset = inr c -> exists s, resp = Text s))
  /\ call_tool Scenario.std_host (3 + 4) (run_to_time 2 None)
       (Scenario.running Scenario.std_config (Scenario.sim_at 0 1))
     = call_tool Scenario.std_host 3 (run_to_time 2 None)
         (Scenario.running Scenario.std_config (Scenario.sim_at 0 1)).
Proof.
  split; [|split].
  - apply (proj1 (proj2 (proj2 (proj2
             (ToolFacts.tool_calls_answer Scenario.std_host 0 (evaluate "1 +")
                (Scenario.refusing "Syntax error: unexpected end")))))
             (evaluate_call {| script := "1 +" |})
             (Scenario.engine_error "Syntax error: unexpected end")).
    + reflexivity.
    + reflexivity.
  - apply (proj1 (proj2 (ToolFacts.tool_calls_answer Scenario.std_host 0 reset
                           Scenario.stalled))).
    reflexivity.
  - apply (proj1 (proj2 (proj2 (ToolFacts.tool_calls_answer Scenario.std_host 3
                                  (run_to_time 2 None)
                                  (Scenario.running Scenario.std_config
                                     (Scenario.sim_at 0 1)))))).
    vm_compute. discriminate.
Defined.

End ToolRuns.

(** ** The engine calls a tool is made of *)

Module RunsFacts.

Import Server Behaviour.

Section WithHost.

Context {S : Type} (H : Host S).

(** A run of two lists is the run of the first and, if that did not
    raise, the run of the second after it. *)
Lemma run_calls_app (h : handle) (p q : list call) (s : S) :
  run_calls (eng H) h (p ++ q) s
  = match raised (run_calls (eng H) h p s) with
    | Some e => run_calls (eng H) h p s
    | None =>
        {| made := made (run_calls (eng H) h p s)
                   ++ made (run_calls (eng H) h q (final (run_calls (eng H) h p s)));
           raised := raised (run_calls (eng H) h q (final (run_calls (eng H) h p s)));
           final := final (run_calls (eng H) h q (final (run_calls (eng H) h p s))) |}
    end.
Proof.
  revert s. induction p as [|c p IH]; intros s; cbn [app run_calls].
  - cbn. destruct (run_calls (eng H) h q s); reflexivity.
  - destruct (perform (eng H) h c s) as [[e|] s']; [reflexivity|].
    rewrite IH. destruct (run_calls (eng H) h p s') as [m [e|] f]; reflexivity.
Qed.

(** The calls made are the first calls of the list, and all of it when no
    call raised. *)
Lemma made_prefix (h : handle) (p : list call) (s : S) :
  exists rest,
    p = (made (run_calls (eng H) h p s) ++ rest)%list
    /\ (raised (run_calls (eng H) h p s) = None -> rest = []).
Proof.
  revert s. induction p as [|c p IH]; intros s; cbn [run_calls].
  - exists []. split; reflexivity.
  - destruct (perform (eng H) h c s) as [[e|] s']; cbn [made raised].
    + exists p. split; [reflexivity | discriminate].
    + destruct (IH s') as (rest & Hp & Hr). exists rest. split; [|exact Hr].
      cbn. now rewrite <- Hp.
Qed.

(** A run that raised made at least the call that raised. *)
Lemma raised_made (h : handle) (p : list call) (s : S) (e : exn) :
  raised (run_calls (eng H) h p s) = Some e -> made (run_calls (eng H) h p s) <> [].
Proof.
  destruct p as [|c p]; cbn [run_calls]; [discriminate|].
  destruct (perform (eng H) h c s) as [[e'|] s']; cbn [made]; discriminate.
Qed.

Lemma runs_ret {A : Type} (h : handle) (a : A) : runs H h [] (@ret S A a).
Proof.
  intros w Hc. cbn. rewrite app_nil_r. repeat split; [exact Hc|]. now exists a.
Qed.

Lemma runs_invoke {A : Type} (h : handle) (x : call) (op : S -> result A * S) :
  (forall s, perform (eng H) h x s = outcome_of (op s)) ->
  runs H h [x] (invoke x op).
Proof.
  intros Hop w Hc. unfold invoke. cbn [run_calls]. rewrite Hop.
  destruct (op (engine w)) as [[a|e] s']; cbn.
  - split; [exact Hc|]. split; [reflexivity|]. split; [reflexivity|]. now exists a.
  - split; [exact Hc|]. split; [reflexivity|]. split; reflexivity.
Qed.

Lemma runs_bind {A B : Type} (h : handle) (p q : list call) (m : M S A)
    (k : A -> M S B) :
  runs H h p m -> (forall a, runs H h q (k a)) -> runs H h (p ++ q) (bind m k).
Proof.
  intros Hm Hk w Hc. unfold bind. rewrite run_calls_app.
  destruct (Hm w Hc) as (Hc1 & Hl1 & He1 & Hr1).
  destruct (run_calls (eng H) h p (engine w)) as [mp [e|] fp];
    cbn [made raised final] in *.
  - destruct (m w) as [[a|e'|] w1]; cbn [fst snd] in *; try discriminate.
    injection Hr1 as ->. split; [exact Hc1|]. split; [exact Hl1|].
    split; [exact He1 | reflexivity].
  - destruct Hr1 as [a Ha].
    destruct (m w) as [[a'|e'|] w1]; cbn [fst snd] in *; try discriminate.
    destruct (Hk a' w1 Hc1) as (Hc2 & Hl2 & He2 & Hr2).
    rewrite <- He1.
    split; [exact Hc2|]. split; [now rewrite Hl2, Hl1, app_assoc|].
    split; [exact He2 | exact Hr2].
Qed.

Lemma runs_for_range (h : handle) (n : nat) (p : list call) (body : M S unit) :
  runs H h p body -> runs H h (times n p) (for_range n body).
Proof.
  intros Hb. induction n as [|n IH]; cbn [for_range].
  - apply runs_ret.
  - change (times (Datatypes.S n) p) with (p ++ times n p)%list.
    apply runs_bind; [exact Hb | intros _; exact IH].
Qed.

(** With the controller [h] in place the accessor hands out [h] and does
    nothing else. *)
Lemma runs_get_controller {A : Type} (h : handle) (p : list call)
    (k : handle -> M S A) :
  runs H h p (k h) -> runs H h p (bind (get_controller H) k).
Proof.
  intros Hk w Hc. unfold bind.
  rewrite (RunFacts.get_controller_existing H w h Hc). exact (Hk w Hc).
Qed.

Lemma runs_plan {A : Type} (h : handle) (p q : list call) (m : M S A) :
  runs H h p m -> p = q -> runs H h q m.
Proof.
  now intros Hm <-.
Qed.

(** The accessor stores the controller it returns. *)
Lemma get_controller_stores (w w1 : World S) (c : handle) :
  get_controller H w = (Val c, w1) -> _controller w1 = Some c.
Proof.
  unfold get_controller, bind, read_controller.
  destruct (_controller w) as [c'|] eqn:Ec.
  - intros [= <- <-]. exact Ec.
  - destruct (launch_flexsim H w) as [[c'|e|] w']; try discriminate.
    intros [= <- <-]. reflexivity.
Qed.

(** What follows the accessor sees only the state the accessor left. *)
Lemma bind_get_controller_after {A : Type} (k : handle -> M S A)
    (w w1 : World S) (c : handle) :
  get_controller H w = (Val c, w1) ->
  bind (get_controller H) k w = bind (get_controller H) k w1.
Proof.
  intros Hget. unfold bind at 1 2.
  rewrite Hget, (RunFacts.get_controller_existing H w1 c (get_controller_stores w w1 c Hget)).
  reflexivity.
Qed.

End WithHost.

Ltac run_plan H :=
  repeat match goal with
    | |- runs _ _ _ (bind (get_controller _) _) => apply runs_get_controller
    | |- runs _ _ _ (bind _ _) => eapply runs_bind; [|intros ?]
    | |- runs _ _ _ (ret _) => apply runs_ret
    | |- runs _ _ _ (invoke _ _) => apply runs_invoke; intros ?; reflexivity
    | |- runs _ _ _ (time_ _ _) => apply runs_invoke; intros ?; reflexivity
    | |- runs _ _ _ (evaluate_ _ _ _) => apply runs_invoke; intros ?; reflexivity
    | |- runs _ _ _ (single_step _ _) => unfold single_step
    | |- runs _ _ _ (for_range _ _) => eapply runs_for_range
    end.

(** Every tool but [run_to_time] runs its plan. *)
Lemma try_block_runs {S : Type} (H : Host S) (budget : nat) (c : Call)
    (p : list call) (h : handle) :
  plan c = Some p -> runs H h p (try_block H budget c).
Proof.
  destruct c as [i| | |i| | |i|i|i|i|i| | | |i]; cbn [try_block plan];
    try discriminate.
  - intros [= <-]. unfold open_model_body.
    eapply runs_plan; [run_plan H | reflexivity].
  - intros [= <-]. unfold reset_body.
    eapply runs_plan; [run_plan H | reflexivity].
  - intros [= <-]. unfold run_body.
    eapply runs_plan; [run_plan H | reflexivity].
  - intros [= <-]. unfold stop_body.
    eapply runs_plan; [run_plan H | reflexivity].
  - intros [= <-]. unfold get_time_body.
    eapply runs_plan; [run_plan H | reflexivity].
  - intros [= <-]. unfold step_body.
    eapply runs_plan; [run_plan H | reflexivity].
  - intros [= <-]. unfold evaluate_body.
    eapply runs_plan; [run_plan H | reflexivity].
  - intros [= <-]. unfold get_node_value_body.
    eapply runs_plan; [run_plan H | reflexivity].
  - unfold set_node_value_body.
    destruct (value i) as [[s|shown]|]; intros [= <-];
      apply runs_get_controller; cbv beta iota;
      (eapply runs_plan; [run_plan H | reflexivity]).
  - unfold save_model_body.
    destruct (save_path i) as [path|];
      [destruct (PyStr.truthy path)|]; intros [= <-];
      apply runs_get_controller; cbv beta iota;
      (eapply runs_plan; [run_plan H | reflexivity]).
  - intros [= <-]. unfold new_model_body.
    eapply runs_plan; [run_plan H | reflexivity].
  - intros [= <-]. unfold compile_body.
    eapply runs_plan; [run_plan H | reflexivity].
  - intros [= <-]. unfold get_statistics_body.
    eapply runs_plan; [run_plan H | reflexivity].
  - intros [= <-]. unfold export_results_body.
    eapply runs_plan; [run_plan H | reflexivity].
Qed.

(** Every tool starts with the accessor, so its [try] block does from the
    state [w] what it does from the state the accessor leaves. *)
Lemma try_block_after_controller {S : Type} (H : Host S) (budget : nat) (k : Call)
    (w w1 : World S) (c : handle) :
  get_controller H w = (Val c, w1) ->
  try_block H budget k w = try_block H budget k w1.
Proof.
  intros Hget. destruct k; cbn [try_block];
    exact (bind_get_controller_after H _ w w1 c Hget).
Qed.

(** The tool around a [try] block that runs a list of calls: the handler
    and the wrapping of the text change nothing of the state, and the
    answer is the handler's text for the exception of the call that
    raised. *)
Lemma answer_runs {S : Type} (H : Host S) (h : handle) (p : list call)
    (m : M S string) (handler : exn -> string) (w : World S) :
  runs H h p m ->
  _controller w = Some h ->
  _controller (snd (bind (try_except m handler) (fun s => ret (Text s)) w)) = Some h
  /\ calls (snd (bind (try_except m handler) (fun s => ret (Text s)) w))
     = (calls w ++ made (run_calls (eng H) h p (engine w)))%list
  /\ engine (snd (bind (try_except m handler) (fun s => ret (Text s)) w))
     = final (run_calls (eng H) h p (engine w))
  /\ match raised (run_calls (eng H) h p (engine w)) with
     | Some e =>
         fst (bind (try_except m handler) (fun s => ret (Text s)) w)
         = Val (Text (handler e))
     | None =>
         exists answer,
           fst (m w) = Val answer
           /\ fst (bind (try_except m handler) (fun s => ret (Text s)) w)
              = Val (Text answer)
     end.
Proof.
  intros Hm Hc. destruct (Hm w Hc) as (Hc1 & Hl & He & Hr).
  unfold bind, try_except. revert Hr.
  destruct (m w) as [[a|e|] w1]; cbn [fst snd] in *;
    (split; [exact Hc1|]); (split; [exact Hl|]); (split; [exact He|]);
    revert Hr; destruct (raised (run_calls (eng H) h p (engine w))) as [e'|];
    intros Hr.
  - discriminate.
  - exists a. split; reflexivity.
  - now injection Hr as ->.
  - destruct Hr as [a Ha]. discriminate.
  - discriminate.
  - destruct Hr as [a Ha]. discriminate.
Qed.

(** A tool call does from the state [w] what it does from the state the
    accessor leaves. *)
Lemma call_tool_after_controller {S : Type} (H : Host S) (budget : nat) (r : Request)
    (w w1 : World S) (c : handle) :
  (exists k, validate H r = inr k) ->
  get_controller H w = (Val c, w1) ->
  call_tool H budget r w = call_tool H budget r w1.
Proof.
  intros [k Hv] Hget. rewrite !ToolFacts.call_tool_decompose, Hv.
  unfold bind, try_except.
  now rewrite (try_block_after_controller H budget k w w1 c Hget).
Qed.

(** A tool call with a plan, on a server that holds the controller [h]. *)
Lemma call_tool_runs {S : Type} (H : Host S) (budget : nat) (r : Request) (k : Call)
    (p : list call) (w : World S) (h : handle) :
  validate H r = inr k ->
  plan k = Some p ->
  _controller w = Some h ->
  _controller (snd (call_tool H budget r w)) = Some h
  /\ calls (snd (call_tool H budget r w))
     = (calls w ++ made (run_calls (eng H) h p (engine w)))%list
  /\ engine (snd (call_tool H budget r w)) = final (run_calls (eng H) h p (engine w))
  /\ match raised (run_calls (eng H) h p (engine w)) with
     | Some e =>
         fst (call_tool H budget r w) = Val (Text (except_prefix k ++ format_error e))
     | None =>
         exists answer,
           fst (try_block H budget k w) = Val answer
           /\ fst (call_tool H budget r w) = Val (Text answer)
     end.
Proof.
  intros Hv Hp Hc. rewrite ToolFacts.call_tool_decompose, Hv.
  exact (answer_runs H h p (try_block H budget k)
           (fun e => except_prefix k ++ format_error e) w
           (try_block_runs H budget k p h Hp) Hc).
Qed.

End RunsFacts.

(** ** Run-to-time and stepping *)

Module SteppingFacts.

Import Server.

Section WithHost.

Context {S : Type} (H : Host S).

(** The launch logs at most one call, the call of [FlexSimPy.launch]. *)
Lemma launch_calls (w : World S) :
  calls (snd (launch_flexsim_sync H w)) = calls w
  \/ exists d, calls (snd (launch_flexsim_sync H w)) = (calls w ++ [CLaunch d])%list.
Proof.
  destruct (FlexSimPy_loaded H) eqn:L.
  - rewrite (LaunchFacts.launch_flexsim_sync_loaded H w L).
    destruct (LaunchFacts.get_config_frame H w) as (_ & Hcalls & _).
    assert (forall d, calls (snd (invoke (CLaunch d) (launch (eng H) d)
                                    (snd (get_config H w))))
                      = (calls w ++ [CLaunch d])%list) as Hinv.
    { intros d. unfold invoke.
      destruct (launch (eng H) d _) as [[c|e] s']; cbn; now rewrite Hcalls. }
    destruct (exists_ H _).
    + right. eexists. apply Hinv.
    + destruct (find _ _) as [alt|].
      * right. eexists. apply Hinv.
      * left. exact Hcalls.
  - left. unfold launch_flexsim_sync. rewrite L. reflexivity.
Qed.

(** So does the accessor, and with a controller in place it logs nothing. *)
Lemma get_controller_calls (w : World S) :
  calls (snd (get_controller H w)) = calls w
  \/ exists d, calls (snd (get_controller H w)) = (calls w ++ [CLaunch d])%list.
Proof.
  unfold get_controller, bind, read_controller.
  destruct (_controller w) as [c|]; [left; reflexivity|].
  unfold launch_flexsim. pose proof (launch_calls w) as L.
  destruct (launch_flexsim_sync H w) as [[c|e|] w1]; exact L.
Qed.

(** One turn of the loop: the step command is logged, and the turn ends as
    the engine's [evaluate] does. *)
Lemma single_step_run (c : handle) (w : World S) :
  single_step H c w =
    let (r, s1) := ctl_evaluate (eng H) c "step()" (engine w) in
    let w1 := {| _controller := _controller w;
                 _config_global := _config_global w;
                 engine := s1;
                 calls := (calls w ++ [CEvaluate "step()"])%list |} in
    match r with
    | Ok _ => (Val tt, w1)
    | Raise e => (Exc e, w1)
    end.
Proof.
  unfold single_step, bind, evaluate_, invoke.
  destruct (ctl_evaluate (eng H) c "step()" (engine w)) as [[v|e] s1]; reflexivity.
Qed.

(** The loop of [flexsim_step]: the step commands go out one after
    another, the loop ends at the first that raises, and it returns only
    after all [n]. *)
Lemma for_range_single_step (n : nat) (c : handle) (w : World S) :
  exists k,
    (k <= n)%nat
    /\ calls (snd (for_range n (single_step H c) w))
       = (calls w ++ repeat (CEvaluate "step()") k)%list
    /\ (fst (for_range n (single_step H c) w) = Val tt -> k = n)
    /\ fst (for_range n (single_step H c) w) <> Pending.
Proof.
  revert w. induction n as [|n IH]; intros w.
  - exists 0%nat. cbn. rewrite app_nil_r. repeat split; [lia | discriminate].
  - cbn [for_range]. unfold bind. rewrite single_step_run.
    destruct (ctl_evaluate (eng H) c "step()" (engine w)) as [[v|e] s1];
      cbv beta iota zeta.
    + match goal with
      | |- context [for_range n _ ?w1] => destruct (IH w1) as (k & Hk & Hc & Hv & Hp)
      end.
      exists (Datatypes.S k). split; [lia|]. split; [|split].
      * rewrite Hc. cbn [calls repeat]. now rewrite <- app_assoc.
      * intros E. now rewrite (Hv E).
      * exact Hp.
    + exists 1%nat. cbn. repeat split; [lia | discriminate | discriminate].
Qed.

End WithHost.

(** C2, as the code has it. For a run-to-time request with a positive
    target that the simulation time has already reached (the controller is
    obtained and its [time()] returns a value at or above the target), the
    response is "Already at time ..." and the engine is asked for nothing
    but that one reading of the time: no run, run-to-time, evaluate or stop
    call is issued. Obtaining the controller logs nothing when one is in
    place, and the launch when it is the first call. *)
Theorem run_to_time_already_there {S : Type} (H : Host S) (budget : nat)
    (t : float) (f : option bool) (w w1 : World S) (c : handle)
    (start : float) (s' : S) :
  (0 <? t)%float = true ->
  get_controller H w = (Val c, w1) ->
  ctl_time (eng H) c (engine w1) = (Ok start, s') ->
  (t <=? start)%float = true ->
  call_tool H budget (run_to_time t f) w
  = (Val (Text ("Already at time " ++ format_time start)),
     {| _controller := _controller w1;
        _config_global := _config_global w1;
        engine := s';
        calls := (calls w1 ++ [CTime])%list |})
  /\ (calls w1 = calls w \/ exists d, calls w1 = (calls w ++ [CLaunch d])%list)
  /\ (_controller w = Some c -> w1 = w).
Proof.
  intros Hpos Hget Htime Hreached. split; [|split].
  - unfold call_tool, validate_RunToTimeInput. rewrite Hpos.
    unfold validated, flexsim_run_to_time, run_to_time_body.
    cbn [target_time fast_mode].
    unfold bind, try_except. rewrite Hget.
    unfold time_, invoke. rewrite Htime, Hreached. reflexivity.
  - pose proof (get_controller_calls H w) as L. now rewrite Hget in L.
  - intros Hc. rewrite (RunFacts.get_controller_existing H w c Hc) in Hget.
    now injection Hget.
Qed.

(** C2 on a running engine at time 100, asked to run to 50 in either
    mode. *)
Lemma run_to_time_already_there_witness :
  call_tool Scenario.std_host 0 (run_to_time 50 (Some true))
    (Scenario.running Scenario.std_config (Scenario.sim_at 100 1))
  = (Val (Text "Already at time 1.67m"),
     {| _controller := Some 7; _config_global := Some Scenario.std_config;
        engine := Scenario.sim_at 100 1; calls := [CTime] |}).
Proof.
  apply (run_to_time_already_there Scenario.std_host 0 50 (Some true)
           (Scenario.running Scenario.std_config (Scenario.sim_at 100 1))
           (Scenario.running Scenario.std_config (Scenario.sim_at 100 1))
           7 100 (Scenario.sim_at 100 1)); reflexivity.
Defined.

(** C2 as stated fails: the no-op still asks the engine for the time. *)
Lemma no_op_reads_the_time :
  (50 <=? Scenario.now (Scenario.sim_at 100 1))%float = true
  /\ fst (call_tool Scenario.std_host 0 (run_to_time 50 None)
            (Scenario.running Scenario.std_config (Scenario.sim_at 100 1)))
     = Val (Text "Already at time 1.67m")
  /\ calls (snd (call_tool Scenario.std_host 0 (run_to_time 50 None)
                   (Scenario.running Scenario.std_config (Scenario.sim_at 100 1))))
     = [CTime].
Proof. split; [|split]; vm_compute; reflexivity. Qed.

(** On an engine whose [evaluate("step()")] never raises the loop runs to
    its end. *)
Lemma for_range_completes {S : Type} (H : Host S) (n : nat) (c : handle) (w : World S) :
  (forall s, exists v s', ctl_evaluate (eng H) c "step()" s = (Ok v, s')) ->
  fst (for_range n (single_step H c) w) = Val tt.
Proof.
  intros Hev. revert w. induction n as [|n IH]; intros w; [reflexivity|].
  cbn [for_range]. unfold bind. rewrite single_step_run.
  destruct (Hev (engine w)) as (v & s' & ->). cbv beta iota zeta. apply IH.
Qed.

(** The handler and the wrapping of the text leave the state as the [try]
    block left it. *)
Lemma answered_state {S : Type} (m : M S string) (h : exn -> string) (w : World S) :
  snd (bind (try_except m h) (fun s => ret (Text s)) w) = snd (m w).
Proof.
  unfold bind, try_except. destruct (m w) as [[s|e|] w']; reflexivity.
Qed.

(** The step tool, by count: a count outside [1, 1000] is refused and
    nothing is touched; for a count [n] inside the range, once the
    controller is obtained the engine is asked for the time and then for
    single steps, at most [n] of them, and exactly [n], followed by a
    second reading of the time, whenever the [try] block runs to its end;
    it does so when the controller's [time()] and [evaluate("step()")]
    never raise. *)
Lemma step_count {S : Type} (H : Host S) (budget : nat) (n : Z) (w : World S) :
  ((n < 1 \/ 1000 < n)%Z ->
     exists e, call_tool H budget (step (Some n)) w = (Val (Rejected e), w))
  /\ ((1 <= n <= 1000)%Z ->
      validate_StepInput (Some n) = inr {| steps := n |}
      /\ forall c w1, get_controller H w = (Val c, w1) ->
           exists k rest,
             (k <= Z.to_nat n)%nat
             /\ calls (snd (call_tool H budget (step (Some n)) w))
                = (calls w1 ++ [CTime] ++ repeat (CEvaluate "step()") k ++ rest)%list
             /\ (rest = [] \/ rest = [CTime])
             /\ ((exists s, fst (step_body H {| steps := n |} w) = Val s) ->
                 k = Z.to_nat n /\ rest = [CTime])
             /\ ((forall s, exists t s', ctl_time (eng H) c s = (Ok t, s')) ->
                 (forall s, exists v s', ctl_evaluate (eng H) c "step()" s = (Ok v, s')) ->
                 exists s, fst (step_body H {| steps := n |} w) = Val s)).
Proof.
  split.
  - intros Hout. unfold call_tool, validate_StepInput.
    destruct (n <? 1)%Z eqn:E1; [eexists; reflexivity|].
    destruct (1000 <? n)%Z eqn:E2; [eexists; reflexivity|].
    apply Z.ltb_ge in E1, E2. lia.
  - intros [Hlo Hhi].
    assert (validate_StepInput (Some n) = inr {| steps := n |}) as V.
    { unfold validate_StepInput.
      assert ((n <? 1)%Z = false) as -> by (apply Z.ltb_ge; lia).
      assert ((1000 <? n)%Z = false) as -> by (apply Z.ltb_ge; lia).
      reflexivity. }
    split; [exact V|]. intros c w1 Hget.
    unfold call_tool. rewrite V. unfold validated, flexsim_step.
    rewrite answered_state.
    destruct (step_body H {| steps := n |} w) as [o w'] eqn:E. cbn [fst snd].
    unfold step_body, bind in E. cbn [steps] in E. rewrite Hget in E.
    unfold time_ at 1, invoke at 1 in E.
    destruct (ctl_time (eng H) c (engine w1)) as [[start|e] s1] eqn:Estart.
    + match type of E with
      | context [for_range _ _ ?w2] =>
          destruct (for_range_single_step H (Z.to_nat n) c w2) as (k & Hk & Hc & Hv & Hp);
          pose proof (for_range_completes H (Z.to_nat n) c w2) as Hall;
          set (W2 := w2) in *
      end.
      destruct (for_range (Z.to_nat n) (single_step H c) W2) as [[[]|e|] w3].
      * cbn [fst snd] in *. specialize (Hv eq_refl). subst k.
        exists (Z.to_nat n), [CTime]. split; [lia|].
        unfold time_, invoke in E.
        destruct (ctl_time (eng H) c (engine w3)) as [[end_|e] s3] eqn:Eend;
          injection E as <- <-; cbn [calls].
        -- split; [|split; [now right|split; [tauto|]]].
           ++ rewrite Hc; subst W2; cbn [calls]; rewrite <- !app_assoc; reflexivity.
           ++ intros _ _. eexists. reflexivity.
        -- split; [|split; [now right|split; [tauto|]]].
           ++ rewrite Hc; subst W2; cbn [calls]; rewrite <- !app_assoc; reflexivity.
           ++ intros Ht _. destruct (Ht (engine w3)) as (t' & s'' & Et). congruence.
      * cbn [fst snd] in *. injection E as <- <-.
        exists k, []. split; [exact Hk|]. split; [|split; [now left|split]].
        -- rewrite Hc. subst W2. cbn [calls]. rewrite app_nil_r, <- !app_assoc. reflexivity.
        -- intros [s Hs]. discriminate.
        -- intros _ Hev. specialize (Hall Hev). discriminate.
      * exfalso. apply Hp. reflexivity.
    + injection E as <- <-.
      exists 0%nat, []. split; [lia|]. split; [|split; [now left|split]].
      * cbn. reflexivity.
      * intros [s Hs]. discriminate.
      * intros Ht _. destruct (Ht (engine w1)) as (t' & s'' & Et). congruence.
Qed.

(** C3, as the code has it. A step count outside [1, 1000] is refused with
    a validation error and nothing is touched. For a count [n] inside the
    range, once the controller is obtained, the tool does to the engine
    what the list of calls "time, [n] times [evaluate("step()")], time"
    does when its calls are made one after another up to and including the
    first that raises: those calls are logged and no other, and the engine
    is left where that run leaves it. When a call raises, the loop ends
    there and the answer is the formatted error of that call. When none
    raises, all the calls were made, exactly [n] single steps between the
    two readings of the time, and the answer is the text the [try] block
    returns; this is so when the controller's [time()] and
    [evaluate("step()")] never raise. *)
Theorem step_commands {S : Type} (H : Host S) (budget : nat) (n : Z) (w : World S) :
  ((n < 1 \/ 1000 < n)%Z ->
     exists e, call_tool H budget (step (Some n)) w = (Val (Rejected e), w))
  /\ ((1 <= n <= 1000)%Z ->
      validate_StepInput (Some n) = inr {| steps := n |}
      /\ forall c w1, get_controller H w = (Val c, w1) ->
           let commands :=
             (CTime :: Behaviour.times (Z.to_nat n) [CEvaluate "step()"] ++ [CTime])%list in
           let run := Behaviour.run_calls (eng H) c commands (engine w1) in
           calls (snd (call_tool H budget (step (Some n)) w))
           = (calls w1 ++ Behaviour.made run)%list
           /\ engine (snd (call_tool H budget (step (Some n)) w)) = Behaviour.final run
           /\ (forall e,
                 Behaviour.raised run = Some e ->
                 Behaviour.made run <> []
                 /\ (exists rest, commands = (Behaviour.made run ++ rest)%list)
                 /\ fst (call_tool H budget (step (Some n)) w)
                    = Val (Text (format_error e)))
           /\ (Behaviour.raised run = None ->
               Behaviour.made run = commands
               /\ exists answer,
                    fst (step_body H {| steps := n |} w) = Val answer
                    /\ fst (call_tool H budget (step (Some n)) w) = Val (Text answer))
           /\ exists k rest,
                (k <= Z.to_nat n)%nat
                /\ calls (snd (call_tool H budget (step (Some n)) w))
                   = (calls w1 ++ [CTime] ++ repeat (CEvaluate "step()") k ++ rest)%list
                /\ (rest = [] \/ rest = [CTime])
                /\ ((exists s, fst (step_body H {| steps := n |} w) = Val s) ->
                    k = Z.to_nat n /\ rest = [CTime])
                /\ ((forall s, exists t s', ctl_time (eng H) c s = (Ok t, s')) ->
                    (forall s, exists v s',
                       ctl_evaluate (eng H) c "step()" s = (Ok v, s')) ->
                    exists s, fst (step_body H {| steps := n |} w) = Val s)).
Proof.
  destruct (step_count H budget n w) as [Hout Hin].
  split; [exact Hout|]. intros Hn. destruct (Hin Hn) as [V Hcount].
  split; [exact V|]. intros c w1 Hget. cbv zeta.
  assert (Hv : validate H (step (Some n)) = inr (step_call {| steps := n |})).
  { cbn [validate]. now rewrite V. }
  rewrite (RunsFacts.call_tool_after_controller H budget (step (Some n)) w w1 c
             (ex_intro _ _ Hv) Hget).
  destruct (RunsFacts.call_tool_runs H budget (step (Some n))
              (step_call {| steps := n |}) _ w1 c Hv eq_refl
              (RunsFacts.get_controller_stores H w w1 c Hget))
    as (_ & Hcalls & Hengine & Hanswer).
  cbn [steps] in Hcalls, Hengine, Hanswer.
  split; [exact Hcalls|]. split; [exact Hengine|].
  split; [|split].
  - intros e He. rewrite He in Hanswer.
    split; [exact (RunsFacts.raised_made H c _ _ e He)|]. split; [|exact Hanswer].
    destruct (RunsFacts.made_prefix H c
                (CTime :: Behaviour.times (Z.to_nat n) [CEvaluate "step()"] ++ [CTime])
                (engine w1)) as (rest & Hrest & _).
    now exists rest.
  - intros He. rewrite He in Hanswer. split.
    + destruct (RunsFacts.made_prefix H c
                  (CTime :: Behaviour.times (Z.to_nat n) [CEvaluate "step()"] ++ [CTime])
                  (engine w1)) as (rest & Hrest & Hnil).
      rewrite (Hnil He), app_nil_r in Hrest. now symmetry.
    + destruct Hanswer as (answer & Hb & Ha). exists answer. split; [|exact Ha].
      change (step_body H {| steps := n |}) with
        (try_block H budget (step_call {| steps := n |})).
      now rewrite (RunsFacts.try_block_after_controller H budget _ w w1 c Hget).
  - rewrite <- (RunsFacts.call_tool_after_controller H budget (step (Some n)) w w1 c
                  (ex_intro _ _ Hv) Hget).
    exact (Hcount c w1 Hget).
Qed.

(** C3 on a running engine: 0 and 1001 steps are refused; 3 steps are three
    step commands between two readings of the time; and with an engine
    that refuses the script the loop ends at the first step, whose error
    is the answer. *)
Lemma step_commands_witness :
  (exists e, call_tool Scenario.std_host 0 (step (Some 0%Z)) Scenario.stalled
             = (Val (Rejected e), Scenario.stalled))
  /\ (exists e, call_tool Scenario.std_host 0 (step (Some 1001%Z)) Scenario.stalled
                = (Val (Rejected e), Scenario.stalled))
  /\ calls (snd (call_tool Scenario.std_host 0 (step (Some 3%Z)) Scenario.stalled))
     = [CTime; CEvaluate "step()"; CEvaluate "step()"; CEvaluate "step()"; CTime]
  /\ calls (snd (call_tool Scenario.std_host 0 (step (Some 3%Z))
                   (Scenario.refusing "simulation is not reset")))
     = [CTime; CEvaluate "step()"]
  /\ fst (call_tool Scenario.std_host 0 (step (Some 3%Z))
            (Scenario.refusing "simulation is not reset"))
     = Val (Text (format_error (Scenario.engine_error "simulation is not reset"))).
Proof.
  split; [|split; [|split; [|split]]].
  - apply (proj1 (step_commands Scenario.std_host 0 0 Scenario.stalled)). lia.
  - apply (proj1 (step_commands Scenario.std_host 0 1001 Scenario.stalled)). lia.
  - exact (proj1 (proj2 (proj2 (step_commands Scenario.std_host 0 3 Scenario.stalled)
                           ltac:(lia)) 7 Scenario.stalled eq_refl)).
  - exact (proj1 (proj2 (proj2 (step_commands Scenario.std_host 0 3
                                  (Scenario.refusing "simulation is not reset"))
                           ltac:(lia)) 7 (Scenario.refusing "simulation is not reset")
                    eq_refl)).
  - exact (proj2 (proj2
             (proj1 (proj2 (proj2
                (proj2 (proj2 (step_commands Scenario.std_host 0 3
                                 (Scenario.refusing "simulation is not reset"))
                          ltac:(lia)) 7 (Scenario.refusing "simulation is not reset")
                   eq_refl)))
                (Scenario.engine_error "simulation is not reset") eq_refl))).
Defined.

(** C3 as stated fails when the engine raises: with 3 steps asked and an
    engine that refuses the script, one step command is issued, not three,
    and the response is the error. *)
Lemma refused_step_ends_the_loop :
  validate_StepInput (Some 3%Z) = inr {| steps := 3 |}
  /\ calls (snd (call_tool Scenario.std_host 0 (step (Some 3%Z))
                   (Scenario.refusing "simulation is not reset")))
     = [CTime; CEvaluate "step()"]
  /\ fst (call_tool Scenario.std_host 0 (step (Some 3%Z))
            (Scenario.refusing "simulation is not reset"))
     = Val (Text "Error: simulation is not reset").
Proof. split; [|split]; vm_compute; reflexivity. Qed.

End SteppingFacts.

(** ** Callers of [get_controller] that overlap *)

Module SessionFacts.

Import Server Session.

Lemma length_set_task (i : nat) (t : task) (l : list task) :
  List.length (set_task i t l) = List.length l.
Proof.
  revert i; induction l as [|x l IH]; intros [|i]; simpl; auto.
Qed.

Lemma nth_error_set_task_same (i : nat) (t x : task) (l : list task) :
  nth_error l i = Some x -> nth_error (set_task i t l) i = Some t.
Proof.
  revert i; induction l as [|y l IH]; intros [|i]; simpl; try discriminate; auto.
Qed.

Lemma nth_error_set_task_other (i j : nat) (t : task) (l : list task) :
  i <> j -> nth_error (set_task i t l) j = nth_error l j.
Proof.
  revert i j; induction l as [|y l IH]; intros [|i] [|j] Hij; simpl; auto.
  - contradiction.
Qed.

(** Replacing one entry moves a count by that entry alone. *)
Lemma count_set_task (f : task -> bool) (i : nat) (t x : task) (l : list task) :
  nth_error l i = Some x ->
  (List.length (filter f (set_task i t l)) + (if f x then 1 else 0)
   = List.length (filter f l) + (if f t then 1 else 0))%nat.
Proof.
  revert i; induction l as [|y l IH]; intros [|i]; simpl; try discriminate.
  - intros E. injection E as ->. destruct (f x), (f t); simpl; lia.
  - intros E. specialize (IH i E). destruct (f y); simpl; lia.
Qed.

Lemma Forall_set_task (P : task -> Prop) (i : nat) (t : task) (l : list task) :
  Forall P l -> P t -> Forall P (set_task i t l).
Proof.
  intros Hl Ht. revert i. induction Hl as [|y l Hy Hl IH]; intros [|i]; simpl; auto.
Qed.

Section WithHost.

Context {S : Type} (H : Host S).

(** The launch leaves [_controller] alone. *)
Lemma launch_keeps_controller (w : World S) :
  _controller (snd (launch_flexsim H w)) = _controller w.
Proof.
  unfold launch_flexsim.
  destruct (FlexSimPy_loaded H) eqn:L.
  - rewrite (LaunchFacts.launch_flexsim_sync_loaded H w L).
    destruct (LaunchFacts.get_config_frame H w) as (_ & _ & _ & Hctl).
    assert (forall d, _controller (snd (invoke (CLaunch d) (launch (eng H) d)
                                          (snd (get_config H w))))
                      = _controller w) as Hinv.
    { intros d. unfold invoke.
      destruct (launch (eng H) d _) as [[c|e] s']; cbn; exact Hctl. }
    destruct (exists_ H _); [apply Hinv|].
    destruct (find _ _); [apply Hinv | exact Hctl].
  - unfold launch_flexsim_sync. rewrite L. reflexivity.
Qed.

(** A launch that returns a controller called [FlexSimPy.launch] once. *)
Lemma launch_val_calls (w w1 : World S) (c : handle) :
  launch_flexsim H w = (Val c, w1) ->
  exists d, calls w1 = (calls w ++ [CLaunch d])%list.
Proof.
  unfold launch_flexsim. intros E.
  destruct (FlexSimPy_loaded H) eqn:L.
  - rewrite (LaunchFacts.launch_flexsim_sync_loaded H w L) in E.
    destruct (LaunchFacts.get_config_frame H w) as (_ & Hcalls & _).
    assert (forall d, invoke (CLaunch d) (launch (eng H) d) (snd (get_config H w))
                      = (Val c, w1) ->
                      calls w1 = (calls w ++ [CLaunch d])%list) as Hinv.
    { intros d. unfold invoke.
      destruct (launch (eng H) d _) as [[c'|e] s']; intros E'; [|discriminate].
      injection E' as _ <-. cbn. now rewrite Hcalls. }
    destruct (exists_ H _); [eexists; apply Hinv, E|].
    destruct (find _ _); [eexists; apply Hinv, E | discriminate].
  - unfold launch_flexsim_sync in E. rewrite L in E. discriminate.
Qed.

Lemma start_invariant (N : nat) (w : World S) :
  _controller w = None -> invariant (start N w).
Proof.
  intros Hw. unfold invariant, start. cbn [tasks locked world unawaited].
  split; [|split; [|split]].
  - induction N; simpl; auto.
  - discriminate.
  - intros i c Hi. apply nth_error_In, repeat_spec in Hi. discriminate.
  - lia.
Qed.

Lemma step_invariant (a : action) (st st' : state S) :
  step H a st = Some st' -> invariant st -> invariant st'.
Proof.
  intros Hstep (Icount & Ilock & Iret & Iun).
  destruct a as [i|i|i|]; cbn [step] in Hstep.
  - destruct (nth_error (tasks st) i) as [[| | | |]|] eqn:Ei; try discriminate.
    destruct (locked st) eqn:El; [discriminate|].
    pose proof (count_set_task is_launching i) as Hcount.
    pose proof (count_set_task is_cancelled i) as Hcan.
    destruct (_controller (world st)) as [c|] eqn:Ec;
      injection Hstep as <-; unfold invariant; cbn [tasks locked world unawaited].
    + split; [|split; [|split]].
      * specialize (Hcount (Returned c) _ _ Ei). cbn in Hcount. lia.
      * discriminate.
      * intros j c' Hj. destruct (Nat.eq_dec i j) as [<-|Hij].
        -- rewrite (nth_error_set_task_same _ _ _ _ Ei) in Hj. congruence.
        -- rewrite nth_error_set_task_other in Hj by exact Hij.
           rewrite Ec. exact (Iret _ _ Hj).
      * specialize (Hcan (Returned c) _ _ Ei). cbn in Hcan. lia.
    + split; [|split; [|split]].
      * specialize (Hcount Launching _ _ Ei). cbn in Hcount. lia.
      * intros _. exact Ec.
      * intros j c' Hj. destruct (Nat.eq_dec i j) as [<-|Hij].
        -- rewrite (nth_error_set_task_same _ _ _ _ Ei) in Hj. discriminate.
        -- rewrite nth_error_set_task_other in Hj by exact Hij.
           specialize (Iret _ _ Hj). congruence.
      * specialize (Hcan Launching _ _ Ei). cbn in Hcan. lia.
  - destruct (nth_error (tasks st) i) as [[| | | |]|] eqn:Ei; try discriminate.
    pose proof (count_set_task is_launching i) as Hcount.
    pose proof (count_set_task is_cancelled i) as Hcan.
    assert (locked st = true) as El.
    { destruct (locked st); [reflexivity|].
      specialize (Hcount Waiting _ _ Ei). cbn in Hcount. lia. }
    rewrite El in Icount. specialize (Ilock El).
    assert (forall j c', nth_error (tasks st) j <> Some (Returned c')) as Hnone.
    { intros j c' Hj. specialize (Iret _ _ Hj). congruence. }
    destruct (launch_flexsim H (world st)) as [[c|e|] w'] eqn:EL; [| |discriminate];
      injection Hstep as <-; unfold invariant; cbn [tasks locked world unawaited].
    + split; [|split; [|split]].
      * specialize (Hcount (Returned c) _ _ Ei). cbn in Hcount. lia.
      * discriminate.
      * intros j c' Hj. destruct (Nat.eq_dec i j) as [<-|Hij].
        -- rewrite (nth_error_set_task_same _ _ _ _ Ei) in Hj.
           injection Hj as <-. reflexivity.
        -- rewrite nth_error_set_task_other in Hj by exact Hij.
           exfalso. exact (Hnone _ _ Hj).
      * specialize (Hcan (Returned c) _ _ Ei). cbn in Hcan. lia.
    + split; [|split; [|split]].
      * specialize (Hcount (Failed e) _ _ Ei). cbn in Hcount. lia.
      * discriminate.
      * intros j c' Hj. destruct (Nat.eq_dec i j) as [<-|Hij].
        -- rewrite (nth_error_set_task_same _ _ _ _ Ei) in Hj. discriminate.
        -- rewrite nth_error_set_task_other in Hj by exact Hij.
           exfalso. exact (Hnone _ _ Hj).
      * specialize (Hcan (Failed e) _ _ Ei). cbn in Hcan. lia.
  - pose proof (count_set_task is_launching i) as Hcount.
    pose proof (count_set_task is_cancelled i) as Hcan.
    destruct (nth_error (tasks st) i) as [[| | | |]|] eqn:Ei; try discriminate;
      injection Hstep as <-; unfold invariant; cbn [tasks locked world unawaited].
    + split; [|split; [|split]].
      * specialize (Hcount Cancelled _ _ Ei). cbn in Hcount.
        rewrite <- Icount. lia.
      * exact Ilock.
      * intros j c' Hj. destruct (Nat.eq_dec i j) as [<-|Hij].
        -- rewrite (nth_error_set_task_same _ _ _ _ Ei) in Hj. discriminate.
        -- rewrite nth_error_set_task_other in Hj by exact Hij. exact (Iret _ _ Hj).
      * specialize (Hcan Cancelled _ _ Ei). cbn in Hcan. lia.
    + assert (locked st = true) as El.
      { destruct (locked st); [reflexivity|].
        specialize (Hcount Waiting _ _ Ei). cbn in Hcount. lia. }
      rewrite El in Icount.
      split; [|split; [|split]].
      * specialize (Hcount Cancelled _ _ Ei). cbn in Hcount. lia.
      * discriminate.
      * intros j c' Hj. destruct (Nat.eq_dec i j) as [<-|Hij].
        -- rewrite (nth_error_set_task_same _ _ _ _ Ei) in Hj. discriminate.
        -- rewrite nth_error_set_task_other in Hj by exact Hij. exact (Iret _ _ Hj).
      * specialize (Hcan Cancelled _ _ Ei). cbn in Hcan. lia.
  - destruct (unawaited st) as [|k] eqn:Eu; [discriminate|].
    pose proof (launch_keeps_controller (world st)) as K.
    destruct (launch_flexsim H (world st)) as [[c|e|] w'] eqn:EL; [| |discriminate];
      injection Hstep as <-; unfold invariant; cbn [tasks locked world unawaited];
      cbn [snd] in K; rewrite K; (split; [exact Icount|]);
      (split; [exact Ilock|]); (split; [exact Iret|]); lia.
Qed.

Lemma run_invariant (sched : list action) (st st' : state S) :
  run_schedule H sched st = Some st' -> invariant st -> invariant st'.
Proof.
  revert st. induction sched as [|a sched IH]; intros st; cbn [run_schedule].
  - intros E. now injection E as <-.
  - destruct (step H a st) as [st1|] eqn:E1; [|discriminate].
    intros E I. apply (IH st1 E). exact (step_invariant a st st1 E1 I).
Qed.

Lemma step_length (a : action) (st st' : state S) :
  step H a st = Some st' -> List.length (tasks st') = List.length (tasks st).
Proof.
  destruct a as [i|i|i|]; cbn [step].
  - destruct (nth_error (tasks st) i) as [[| | | |]|]; try discriminate.
    destruct (locked st); [discriminate|].
    destruct (_controller (world st)); intros E; injection E as <-;
      apply length_set_task.
  - destruct (nth_error (tasks st) i) as [[| | | |]|]; try discriminate.
    destruct (launch_flexsim H (world st)) as [[c|e|] w']; try discriminate;
      intros E; injection E as <-; apply length_set_task.
  - destruct (nth_error (tasks st) i) as [[| | | |]|]; try discriminate;
      intros E; injection E as <-; apply length_set_task.
  - destruct (unawaited st); [discriminate|].
    destruct (launch_flexsim H (world st)) as [[c|e|] w']; try discriminate;
      intros E; injection E as <-; reflexivity.
Qed.

Lemma run_length (sched : list action) (st st' : state S) :
  run_schedule H sched st = Some st' -> List.length (tasks st') = List.length (tasks st).
Proof.
  revert st. induction sched as [|a sched IH]; intros st; cbn [run_schedule].
  - intros E. now injection E as <-.
  - destruct (step H a st) as [st1|] eqn:E1; [|discriminate].
    intros E. rewrite (IH st1 E). exact (step_length a st st1 E1).
Qed.

(** A launch that a caller awaits holds the lock. *)
Lemma launching_holds_lock (st : state S) (i : nat) :
  invariant st -> nth_error (tasks st) i = Some Launching -> locked st = true.
Proof.
  intros (Icount & _) Ei. destruct (locked st); [reflexivity|].
  pose proof (count_set_task is_launching i Waiting _ _ Ei) as Hc. cbn in Hc. lia.
Qed.

(** A caller that was cancelled stays so. *)
Lemma step_keeps_cancelled (a : action) (st st' : state S) (j : nat) :
  step H a st = Some st' ->
  nth_error (tasks st) j = Some Cancelled -> nth_error (tasks st') j = Some Cancelled.
Proof.
  intros Hstep Hj.
  assert (Hset : forall i t x, nth_error (tasks st) i = Some x -> x <> Cancelled ->
                   nth_error (set_task i t (tasks st)) j = Some Cancelled).
  { intros i t x Hi Hx. rewrite nth_error_set_task_other; [exact Hj|].
    intros ->. congruence. }
  destruct a as [i|i|i|]; cbn [step] in Hstep.
  - destruct (nth_error (tasks st) i) as [[| | | |]|] eqn:Ei; try discriminate.
    destruct (locked st); [discriminate|].
    destruct (_controller (world st)); injection Hstep as <-; cbn [tasks];
      apply (Hset i _ _ Ei); discriminate.
  - destruct (nth_error (tasks st) i) as [[| | | |]|] eqn:Ei; try discriminate.
    destruct (launch_flexsim H (world st)) as [[c|e|] w']; try discriminate;
      injection Hstep as <-; cbn [tasks]; apply (Hset i _ _ Ei); discriminate.
  - destruct (nth_error (tasks st) i) as [[| | | |]|] eqn:Ei; try discriminate;
      injection Hstep as <-; cbn [tasks]; apply (Hset i _ _ Ei); discriminate.
  - destruct (unawaited st); [discriminate|].
    destruct (launch_flexsim H (world st)) as [[c|e|] w']; try discriminate;
      injection Hstep as <-; exact Hj.
Qed.

Lemma run_keeps_cancelled (sched : list action) (st st' : state S) (j : nat) :
  run_schedule H sched st = Some st' ->
  nth_error (tasks st) j = Some Cancelled -> nth_error (tasks st') j = Some Cancelled.
Proof.
  revert st. induction sched as [|a sched IH]; intros st; cbn [run_schedule].
  - intros E. now injection E as <-.
  - destruct (step H a st) as [st1|] eqn:E1; [|discriminate].
    intros E Hj. apply (IH st1 E). exact (step_keeps_cancelled a st st1 j E1 Hj).
Qed.

(** With no caller cancelled, no launch goes on without a caller. *)
Lemma undisturbed_unawaited (st : state S) :
  invariant st -> undisturbed st -> unawaited st = 0%nat.
Proof.
  intros (_ & _ & _ & Iun) Hu.
  assert (List.length (filter is_cancelled (tasks st)) = 0%nat) as E; [|lia].
  unfold undisturbed in Hu. generalize dependent (tasks st). intros l _ Hu.
  induction l as [|t l IH]; [reflexivity|].
  cbn [filter]. destruct t; cbn [is_cancelled];
    try (apply IH; intros i; exact (Hu (Datatypes.S i))).
  exfalso. exact (Hu 0%nat eq_refl).
Qed.

Lemma step_one_launch (w0 w1 : World S) (c : handle) (a : action) (st st' : state S) :
  _controller w0 = None ->
  launch_flexsim H w0 = (Val c, w1) ->
  invariant st -> one_launch H w0 c st ->
  step H a st = Some st' -> undisturbed st' -> one_launch H w0 c st'.
Proof.
  intros Hw0 HL I [Hok Hworld] Hstep Hu.
  assert (undisturbed st) as Hu0.
  { intros j Hj. rewrite Forall_forall in Hok.
    destruct (Hok _ (nth_error_In _ _ Hj)) as [F|[F|F]]; discriminate. }
  destruct a as [i|i|i|]; cbn [step] in Hstep.
  - destruct (nth_error (tasks st) i) as [[| | | |]|] eqn:Ei; try discriminate.
    destruct (locked st) eqn:El; [discriminate|].
    destruct (_controller (world st)) as [c'|] eqn:Ec;
      injection Hstep as <-; unfold one_launch; cbn [tasks locked world].
    + destruct Hworld as [Ew|[Ew _]].
      * rewrite Ew in Ec. congruence.
      * assert (c' = c) as ->.
        { rewrite Ew in Ec. cbn in Ec. congruence. }
        split; [apply Forall_set_task; auto|]. right. split; [exact Ew | reflexivity].
    + split; [apply Forall_set_task; auto|].
      destruct Hworld as [Ew|[Ew _]]; [now left|].
      rewrite Ew in Ec. cbn in Ec. discriminate.
  - destruct (nth_error (tasks st) i) as [[| | | |]|] eqn:Ei; try discriminate.
    pose proof (launching_holds_lock st i I Ei) as El.
    assert (world st = w0) as Ew.
    { destruct Hworld as [Ew|[_ Eu]]; [exact Ew | congruence]. }
    rewrite Ew, HL in Hstep. injection Hstep as <-.
    unfold one_launch; cbn [tasks locked world].
    split; [apply Forall_set_task; auto|].
    right. rewrite HL. split; reflexivity.
  - exfalso. destruct (nth_error (tasks st) i) as [[| | | |]|] eqn:Ei; try discriminate;
      injection Hstep as <-; apply (Hu i); cbn [tasks];
      exact (nth_error_set_task_same _ _ _ _ Ei).
  - rewrite (undisturbed_unawaited st I Hu0) in Hstep. discriminate.
Qed.

Lemma run_one_launch (w0 w1 : World S) (c : handle) (sched : list action)
    (st st' : state S) :
  _controller w0 = None ->
  launch_flexsim H w0 = (Val c, w1) ->
  invariant st -> one_launch H w0 c st ->
  run_schedule H sched st = Some st' -> undisturbed st' -> one_launch H w0 c st'.
Proof.
  intros Hw0 HL. revert st. induction sched as [|a sched IH]; intros st I O;
    cbn [run_schedule].
  - intros E _. now injection E as <-.
  - destruct (step H a st) as [st1|] eqn:E1; [|discriminate].
    intros E Hu. apply (IH st1); [| |exact E|exact Hu].
    + exact (step_invariant a st st1 E1 I).
    + apply (step_one_launch w0 w1 c a st st1 Hw0 HL I O E1).
      intros j Hj. exact (Hu j (run_keeps_cancelled sched st1 st' j E Hj)).
Qed.

Lemma launches_after (w w1 : World S) (d : string) :
  calls w1 = (calls w ++ [CLaunch d])%list -> launches w1 = Datatypes.S (launches w).
Proof.
  unfold launches. intros ->. rewrite filter_app, length_app. cbn. lia.
Qed.

Lemma all_returned (c : handle) (l : list task) :
  Forall (fun t => t = Waiting \/ t = Launching \/ t = Returned c) l ->
  forallb finished l = true ->
  l = repeat (Returned c) (List.length l).
Proof.
  induction 1 as [|t l Ht Hl IH]; cbn; [reflexivity|].
  rewrite andb_true_iff. intros [Hf Hr]. rewrite <- (IH Hr).
  destruct Ht as [ -> | [ -> | -> ] ]; try discriminate. reflexivity.
Qed.

End WithHost.

(** C7, as the code has it. [N] callers enter [get_controller] before any
    controller exists. In every state they can reach, under every
    interleaving, cancellations included: a caller awaits a launch exactly
    when the lock is held, and then one caller alone; every caller that has
    returned holds the stored controller, so all returned handles are the
    same. As long as no caller is cancelled, no launch goes on beside the
    one awaited, and if the launch succeeds, [FlexSimPy.launch] is called
    at most once, and once all [N] callers are done they all hold the
    handle of that one launch. A launch that fails raises to the caller
    that ran it and to no other, frees the lock and leaves no controller,
    so that the next caller launches anew. A caller cancelled while it
    awaits its launch frees the lock and stores nothing, and its launch
    goes on in its thread, so that the next caller can launch beside it.
    The lock is taken first and the test of [_controller] is made once,
    inside it. *)
Theorem single_flight {S : Type} (H : Host S) (N : nat) (w0 : World S) (st : state S) :
  _controller w0 = None ->
  reachable H N w0 st ->
  (List.length (filter is_launching (tasks st)) = if locked st then 1 else 0)%nat
  /\ (forall i c, nth_error (tasks st) i = Some (Returned c) ->
                  _controller (world st) = Some c)
  /\ (forall i j c c',
        nth_error (tasks st) i = Some (Returned c) ->
        nth_error (tasks st) j = Some (Returned c') -> c = c')
  /\ (undisturbed st ->
      (in_flight st <= 1)%nat
      /\ forall c w1,
           launch_flexsim H w0 = (Val c, w1) ->
           (launches (world st) <= Datatypes.S (launches w0))%nat
           /\ Forall (fun t => t = Waiting \/ t = Launching \/ t = Returned c) (tasks st)
           /\ (forallb finished (tasks st) = true -> (0 < N)%nat ->
               tasks st = repeat (Returned c) N
               /\ launches (world st) = Datatypes.S (launches w0)))
  /\ (forall i e w',
        nth_error (tasks st) i = Some Launching ->
        launch_flexsim H (world st) = (Exc e, w') ->
        exists st',
          step H (Complete i) st = Some st'
          /\ locked st' = false
          /\ _controller (world st') = None
          /\ nth_error (tasks st') i = Some (Failed e)
          /\ (forall j, j <> i -> nth_error (tasks st') j = nth_error (tasks st) j))
  /\ (forall i,
        nth_error (tasks st) i = Some Launching ->
        exists st',
          step H (Cancel i) st = Some st'
          /\ locked st' = false
          /\ world st' = world st
          /\ _controller (world st') = None
          /\ nth_error (tasks st') i = Some Cancelled
          /\ in_flight st' = in_flight st
          /\ (forall j, j <> i -> nth_error (tasks st') j = nth_error (tasks st) j))
  /\ (in_flight st
      <= (if locked st then 1 else 0)
         + List.length (filter is_cancelled (tasks st)))%nat.
Proof.
  intros Hw0 [sched Hrun].
  pose proof (run_invariant H sched _ _ Hrun (start_invariant N w0 Hw0)) as I.
  pose proof (run_length H sched _ _ Hrun) as Hlen.
  unfold start in Hlen. cbn [tasks] in Hlen. rewrite repeat_length in Hlen.
  destruct I as (Icount & Ilock & Iret & Iun).
  pose proof (run_invariant H sched _ _ Hrun (start_invariant N w0 Hw0)) as I.
  split; [exact Icount|]. split; [exact Iret|].
  split; [|split; [|split; [|split]]].
  - intros i j c c' Hi Hj.
    pose proof (Iret _ _ Hi) as E1. pose proof (Iret _ _ Hj) as E2. congruence.
  - intros Hu. split.
    { unfold in_flight. rewrite (undisturbed_unawaited st I Hu), Icount.
      destruct (locked st); lia. }
    intros c w1 HL.
    assert (one_launch H w0 c (start N w0)) as O0.
    { split; [|now left]. cbn [tasks start].
      apply Forall_forall. intros t Ht. apply repeat_spec in Ht. now left. }
    pose proof (run_one_launch H w0 w1 c sched _ _ Hw0 HL
                  (start_invariant N w0 Hw0) O0 Hrun Hu) as [Hok Hworld].
    destruct (launch_val_calls H w0 w1 c HL) as [d Hd].
    assert (world st = snd (write_controller c (snd (launch_flexsim H w0))) ->
            launches (world st) = Datatypes.S (launches w0)) as Hone.
    { intros ->. rewrite HL. cbn [snd write_controller].
      apply (launches_after w0 _ d). exact Hd. }
    split; [|split; [exact Hok|]].
    + destruct Hworld as [ -> | [Ew _] ]; [lia | rewrite (Hone Ew); lia].
    + intros Hfin HN.
      pose proof (all_returned c _ Hok Hfin) as Hall. rewrite Hlen in Hall.
      split; [exact Hall|].
      destruct Hworld as [Ew|[Ew _]]; [|exact (Hone Ew)].
      exfalso. destruct N as [|N]; [lia|].
      assert (nth_error (tasks st) 0 = Some (Returned c)) as H0
        by (rewrite Hall; reflexivity).
      specialize (Iret _ _ H0). rewrite Ew in Iret. congruence.
  - intros i e w' Hi HL.
    eexists. split; [cbn [step]; rewrite Hi, HL; reflexivity|].
    cbn [locked world tasks]. split; [reflexivity|]. split; [|split].
    + pose proof (launch_keeps_controller H (world st)) as K. rewrite HL in K.
      cbn [snd] in K. rewrite K. apply Ilock.
      exact (launching_holds_lock st i I Hi).
    + exact (nth_error_set_task_same _ _ _ _ Hi).
    + intros j Hj. apply nth_error_set_task_other. congruence.
  - intros i Hi.
    eexists. split; [cbn [step]; rewrite Hi; reflexivity|].
    cbn [locked world tasks]. split; [reflexivity|]. split; [reflexivity|].
    split; [|split; [|split]].
    + apply Ilock. exact (launching_holds_lock st i I Hi).
    + exact (nth_error_set_task_same _ _ _ _ Hi).
    + unfold in_flight. cbn [tasks unawaited].
      pose proof (count_set_task is_launching i Cancelled _ _ Hi) as Hc.
      cbn in Hc. lia.
    + intros j Hj. apply nth_error_set_task_other. congruence.
  - unfold in_flight. rewrite Icount. lia.
Qed.

(** C7 with three callers on a server whose launch succeeds: the second
    and third arrive while the first launches; in the end all three hold
    controller 7 and [FlexSimPy.launch] was called once. *)
Lemma single_flight_witness :
  run_schedule Scenario.std_host [Enter 0; Complete 0; Enter 2; Enter 1]
    (start 3 (Scenario.fresh Scenario.std_config (Scenario.sim_at 0 0)))
  = Some {| world := {| _controller := Some 7;
                        _config_global := Some Scenario.std_config;
                        engine := Scenario.sim_at 0 0;
                        calls := [CLaunch Scenario.install] |};
            locked := false;
            tasks := [Returned 7; Returned 7; Returned 7];
            unawaited := 0 |}
  /\ step Scenario.std_host (Enter 1)
       {| world := Scenario.fresh Scenario.std_config (Scenario.sim_at 0 0);
          locked := true;
          tasks := [Launching; Waiting; Waiting];
          unawaited := 0 |} = None
  /\ launches {| _controller := Some 7;
                 _config_global := Some Scenario.std_config;
                 engine := Scenario.sim_at 0 0;
                 calls := [CLaunch Scenario.install] |} = 1%nat.
Proof.
  split; [reflexivity|]. split; [reflexivity|].
  refine (proj2 (proj2 (proj2
           (proj2 (proj1 (proj2 (proj2 (proj2
              (single_flight Scenario.std_host 3
                 (Scenario.fresh Scenario.std_config (Scenario.sim_at 0 0))
                 {| world := {| _controller := Some 7;
                                _config_global := Some Scenario.std_config;
                                engine := Scenario.sim_at 0 0;
                                calls := [CLaunch Scenario.install] |};
                    locked := false;
                    tasks := [Returned 7; Returned 7; Returned 7];
                    unawaited := 0 |}
                 eq_refl
                 (ex_intro _ [Enter 0; Complete 0; Enter 2; Enter 1] eq_refl)))))
              _)
              7 _ eq_refl)) eq_refl ltac:(lia))).
  intros [|[|[|[|i]]]]; discriminate.
Defined.

(** C7 as stated fails in two ways. When a launch fails and the next
    succeeds, of two callers the first gets the exception and the second a
    controller, and the engine was launched twice. And when the first
    caller is cancelled while its launch goes on, the second caller starts
    a launch beside it: two launches are in flight, and in the end the
    engine was launched twice for the one handle returned. *)
Lemma initialization_is_not_single :
  (run_schedule Scenario.std_host [Enter 0; Enter 1] (start 2 Scenario.flaky) = None
   /\ exists st,
        run_schedule Scenario.std_host [Enter 0; Complete 0; Enter 1; Complete 1]
          (start 2 Scenario.flaky) = Some st
        /\ tasks st = [Failed (Scenario.engine_error "license server unreachable");
                       Returned 7]
        /\ launches (world st) = 2%nat)
  /\ (exists st,
        run_schedule Scenario.std_host [Enter 0; Cancel 0; Enter 1]
          (start 2 (Scenario.fresh Scenario.std_config (Scenario.sim_at 0 0))) = Some st
        /\ in_flight st = 2%nat)
  /\ exists st,
       run_schedule Scenario.std_host [Enter 0; Cancel 0; Enter 1; Abandoned; Complete 1]
         (start 2 (Scenario.fresh Scenario.std_config (Scenario.sim_at 0 0))) = Some st
       /\ tasks st = [Cancelled; Returned 7]
       /\ launches (world st) = 2%nat.
Proof.
  split; [split; [reflexivity|]|split].
  - eexists. split; [reflexivity|]. split; reflexivity.
  - eexists. split; reflexivity.
  - eexists. split; [reflexivity|]. split; reflexivity.
Qed.

End SessionFacts.

(** ** The session across tool calls *)

Module BehaviourFacts.

Import Server Behaviour.

Section Keeping.

Context {S : Type} (H : Host S).

Lemma keeps_ret {A : Type} (a : A) : keeps_session (@ret S A a).
Proof.
  intros w c Hc. split; [exact Hc|]. exists []. cbn. now rewrite app_nil_r.
Qed.

Lemma keeps_invoke {A : Type} (x : call) (op : S -> result A * S) :
  Session.is_launch x = false -> keeps_session (invoke x op).
Proof.
  intros Hx w c Hc. unfold invoke.
  destruct (op (engine w)) as [[a|e] s']; cbn [snd _controller calls];
    (split; [exact Hc|]); exists [x]; cbn; now rewrite Hx.
Qed.

Lemma keeps_sleep : keeps_session (sleep (eng H)).
Proof.
  intros w c Hc. split; [exact Hc|]. exists []. cbn. now rewrite app_nil_r.
Qed.

Lemma keeps_bind {A B : Type} (m : M S A) (k : A -> M S B) :
  keeps_session m -> (forall a, keeps_session (k a)) -> keeps_session (bind m k).
Proof.
  intros Hm Hk w c Hc. unfold bind.
  destruct (Hm w c Hc) as (Hc1 & l1 & Hl1 & Hn1).
  destruct (m w) as [[a|e|] w1]; cbn [snd] in *;
    try (split; [exact Hc1|]; exists l1; now split).
  destruct (Hk a w1 c Hc1) as (Hc2 & l2 & Hl2 & Hn2).
  split; [exact Hc2|]. exists (l1 ++ l2)%list. split.
  - now rewrite Hl2, Hl1, app_assoc.
  - now rewrite forallb_app, Hn1, Hn2.
Qed.

Lemma keeps_try_except {A : Type} (m : M S A) (h : exn -> A) :
  keeps_session m -> keeps_session (try_except m h).
Proof.
  intros Hm w c Hc. unfold try_except. specialize (Hm w c Hc).
  destruct (m w) as [[a|e|] w1]; exact Hm.
Qed.

Lemma keeps_for_range (n : nat) (body : M S unit) :
  keeps_session body -> keeps_session (for_range n body).
Proof.
  intros Hb. induction n as [|n IH]; cbn [for_range].
  - apply keeps_ret.
  - apply keeps_bind; [exact Hb | intros _; exact IH].
Qed.

Lemma keeps_get_controller : keeps_session (get_controller H).
Proof.
  intros w c Hc. rewrite (RunFacts.get_controller_existing H w c Hc).
  split; [exact Hc|]. exists []. cbn. now rewrite app_nil_r.
Qed.

Lemma keeps_poll (budget : nat) (c : handle) (target : float) :
  keeps_session (poll H budget c target).
Proof.
  induction budget as [|b IH]; cbn [poll].
  - intros w c' Hc. split; [exact Hc|]. exists []. cbn. now rewrite app_nil_r.
  - apply keeps_bind; [apply keeps_invoke; reflexivity | intros current].
    destruct (target <=? current)%float.
    + apply keeps_invoke. reflexivity.
    + apply keeps_bind; [apply keeps_sleep | intros _; exact IH].
Qed.

End Keeping.

Ltac keep H :=
  repeat match goal with
    | |- keeps_session (bind _ _) => apply keeps_bind; [|intros ?]
    | |- keeps_session (ret _) => apply keeps_ret
    | |- keeps_session (invoke _ _) => apply keeps_invoke; reflexivity
    | |- keeps_session (get_controller _) => apply keeps_get_controller
    | |- keeps_session (time_ _ _) => apply keeps_invoke; reflexivity
    | |- keeps_session (evaluate_ _ _ _) => apply keeps_invoke; reflexivity
    | |- keeps_session (single_step _ _) => unfold single_step
    | |- keeps_session (for_range _ _) => apply keeps_for_range
    | |- keeps_session (poll _ _ _ _) => apply keeps_poll
    | |- keeps_session (if ?b then _ else _) => destruct b
    | |- keeps_session (match ?x with _ => _ end) => destruct x
    end.

Lemma try_block_keeps {S : Type} (H : Host S) (budget : nat) (c : Call) :
  keeps_session (try_block H budget c).
Proof.
  destruct c as [p| | |p| | |p|p|p|p|p| | | |p]; cbn [try_block].
  - unfold open_model_body. keep H.
  - unfold reset_body. keep H.
  - unfold run_body. keep H.
  - unfold run_to_time_body. keep H.
  - unfold stop_body. keep H.
  - unfold get_time_body. keep H.
  - unfold step_body. keep H.
  - unfold evaluate_body. keep H.
  - unfold get_node_value_body. keep H.
  - unfold set_node_value_body. keep H.
  - unfold save_model_body. keep H.
  - unfold new_model_body. keep H.
  - unfold compile_body. keep H.
  - unfold get_statistics_body. keep H.
  - unfold export_results_body. keep H.
Qed.

(** X1. Once a controller is stored, every tool call, whatever its input,
    its outcome and the engine's answers, leaves that same controller
    stored and never launches the engine again: the calls it adds to the
    log hold no launch. *)
Theorem session_persists {S : Type} (H : Host S) (budget : nat) (r : Request)
    (w : World S) (c : handle) :
  _controller w = Some c ->
  _controller (snd (call_tool H budget r w)) = Some c
  /\ exists added,
       calls (snd (call_tool H budget r w)) = (calls w ++ added)%list
       /\ forallb (fun x => negb (Session.is_launch x)) added = true.
Proof.
  intros Hc. rewrite ToolFacts.call_tool_decompose.
  destruct (validate H r) as [e|k].
  - split; [exact Hc|]. exists []. cbn. now rewrite app_nil_r.
  - revert w c Hc. change (keeps_session
      (bind (try_except (try_block H budget k)
               (fun e => except_prefix k ++ format_error e))
         (fun s => ret (Text s)))).
    apply keeps_bind; [|intros s; apply keeps_ret].
    apply keeps_try_except, try_block_keeps.
Qed.

(** X1 on a running server whose engine refuses every script: the failed
    [evaluate] leaves controller 7 in place and logs one call, no launch. *)
Lemma session_persists_witness :
  _controller (snd (call_tool Scenario.std_host 0 (evaluate "1 +")
                      (Scenario.refusing "Syntax error")))
  = Some 7
  /\ exists added,
       calls (snd (call_tool Scenario.std_host 0 (evaluate "1 +")
                     (Scenario.refusing "Syntax error")))
       = ([] ++ added)%list
       /\ forallb (fun x => negb (Session.is_launch x)) added = true.
Proof.
  apply (session_persists Scenario.std_host 0 (evaluate "1 +")
           (Scenario.refusing "Syntax error") 7).
  reflexivity.
Defined.

(** *** A launch that fails *)

Lemma get_controller_launch_fails {S : Type} (H : Host S) (w w' : World S) (e : exn) :
  _controller w = None ->
  launch_flexsim H w = (Exc e, w') ->
  get_controller H w = (Exc e, w').
Proof.
  intros Hc HL. unfold get_controller, bind, read_controller. now rewrite Hc, HL.
Qed.

(** Every [try] block starts by asking for the controller. *)
Lemma try_block_without_controller {S : Type} (H : Host S) (budget : nat) (c : Call)
    (w w' : World S) (e : exn) :
  get_controller H w = (Exc e, w') ->
  try_block H budget c w = (Exc e, w').
Proof.
  intros Hg.
  destruct c; cbn [try_block];
    unfold open_model_body, reset_body, run_body, run_to_time_body, stop_body,
      get_time_body, step_body, evaluate_body, get_node_value_body,
      set_node_value_body, save_model_body, new_model_body, compile_body,
      get_statistics_body, export_results_body;
    unfold bind at 1; rewrite Hg; reflexivity.
Qed.

(** X2. When no controller is stored and the launch of the engine raises,
    every tool, whatever its validated input, answers with the formatted
    launch error (after "Script error: " for [evaluate]) and leaves the
    state as the failed launch left it: no controller is stored, so the
    next call launches again, and the log holds at most the one call of
    [FlexSimPy.launch] that failed. *)
Theorem launch_failure_reported {S : Type} (H : Host S) (budget : nat) (r : Request)
    (c : Call) (w w' : World S) (e : exn) :
  validate H r = inr c ->
  _controller w = None ->
  launch_flexsim H w = (Exc e, w') ->
  call_tool H budget r w = (Val (Text (except_prefix c ++ format_error e)), w')
  /\ _controller w' = None
  /\ (calls w' = calls w \/ exists d, calls w' = (calls w ++ [CLaunch d])%list).
Proof.
  intros V Hc HL. split; [|split].
  - apply (ToolFacts.call_tool_formats H budget r w w' c e V).
    apply try_block_without_controller.
    now apply get_controller_launch_fails.
  - pose proof (SessionFacts.launch_keeps_controller H w) as K.
    rewrite HL in K. cbn [snd] in K. congruence.
  - pose proof (SteppingFacts.launch_calls H w) as L.
    unfold launch_flexsim in HL. rewrite HL in L. exact L.
Qed.

(** X2 on a server without FlexSimPy and on one whose license server is
    down: [get_time] reports the error of the guard, [evaluate] the error of
    the launch, and neither stores a controller. *)
Lemma launch_failure_reported_witness :
  call_tool (Scenario.host [] false) 0 get_time
    (Scenario.fresh Scenario.std_config (Scenario.sim_at 0 0))
  = (Val (Text "Error: FlexSimPy module not available"),
     Scenario.fresh Scenario.std_config (Scenario.sim_at 0 0))
  /\ fst (call_tool Scenario.std_host 0 (evaluate "1") Scenario.flaky)
     = Val (Text "Script error: License error: license server unreachable").
Proof.
  split.
  - apply (launch_failure_reported (Scenario.host [] false) 0 get_time get_time_call
             (Scenario.fresh Scenario.std_config (Scenario.sim_at 0 0))
             (Scenario.fresh Scenario.std_config (Scenario.sim_at 0 0))
             {| exn_class := RuntimeError; exn_msg := "FlexSimPy module not available" |});
      reflexivity.
  - rewrite (proj1 (launch_failure_reported Scenario.std_host 0 (evaluate "1")
                      (evaluate_call {| script := "1" |})
                      Scenario.flaky _
                      (Scenario.engine_error "license server unreachable")
                      eq_refl eq_refl eq_refl)).
    reflexivity.
Defined.

(** *** The polling loop of the real-time mode *)

(** One round of the loop when the reading succeeds. *)
Lemma poll_round {S : Type} (H : Host S) (c : handle) (target : float) (b : nat)
    (w : World S) (v : float) (s' : S) :
  ctl_time (eng H) c (engine w) = (Ok v, s') ->
  poll H (Datatypes.S b) c target w =
    if (target <=? v)%float
    then invoke CStop (ctl_stop (eng H) c)
           {| _controller := _controller w; _config_global := _config_global w;
              engine := s'; calls := (calls w ++ [CTime])%list |}
    else poll H b c target
           {| _controller := _controller w; _config_global := _config_global w;
              engine := elapse (eng H) s'; calls := (calls w ++ [CTime])%list |}.
Proof.
  intros Et. cbn [poll]. unfold bind at 1. unfold time_, invoke at 1. rewrite Et.
  destruct (target <=? v)%float; reflexivity.
Qed.

(** X3. If the engine's clock reaches the target at reading number [j] of
    the polling loop and the budget allows more than [j] readings, the loop
    ends: it has read the time [j + 1] times, slept [j] times in between,
    and then issues the one [stop()] call, whose outcome is the loop's.
    The stored controller is not touched. *)
Theorem poll_ends_at_target {S : Type} (H : Host S) (c : handle) (target : float)
    (j budget : nat) (w : World S) :
  reaches H c target j (engine w) ->
  (j < budget)%nat ->
  exists reached,
    poll H budget c target w = invoke CStop (ctl_stop (eng H) c) reached
    /\ calls reached = (calls w ++ repeat CTime (Datatypes.S j))%list
    /\ _controller reached = _controller w
    /\ fst (poll H budget c target w) <> Pending.
Proof.
  revert budget w. induction j as [|j IH]; intros budget w Hr Hb;
    (destruct budget as [|b]; [lia|]); cbn [reaches] in Hr.
  - destruct Hr as (v & s' & Et & Hv).
    rewrite (poll_round H c target b w v s' Et), Hv.
    eexists. split; [reflexivity|]. cbn [calls _controller repeat].
    split; [reflexivity|]. split; [reflexivity|].
    apply ToolFacts.settles_invoke.
  - destruct Hr as (v & s' & Et & Hv & Hr).
    rewrite (poll_round H c target b w v s' Et), Hv.
    match goal with
    | |- context [poll H b c target ?w1] =>
        destruct (IH b w1 Hr ltac:(lia)) as (reached & E & Hcalls & Hctl & Hp)
    end.
    exists reached. split; [exact E|]. split; [|split; [exact Hctl | exact Hp]].
    rewrite Hcalls. cbn [calls repeat]. now rewrite <- app_assoc.
Qed.

(** X3 on an engine at time 0 that moves by one second per sleep, polled
    for the time 2: the third reading reaches it. *)
Lemma poll_ends_at_target_witness :
  exists reached,
    poll Scenario.std_host 5 7 2 (Scenario.running Scenario.std_config (Scenario.sim_at 0 1))
    = invoke CStop (ctl_stop (eng Scenario.std_host) 7) reached
    /\ calls reached = ([] ++ repeat CTime 3)%list
    /\ _controller reached = Some 7
    /\ fst (poll Scenario.std_host 5 7 2
              (Scenario.running Scenario.std_config (Scenario.sim_at 0 1))) <> Pending.
Proof.
  apply (poll_ends_at_target Scenario.std_host 7 2 2 5
           (Scenario.running Scenario.std_config (Scenario.sim_at 0 1))).
  - cbn. do 2 eexists. split; [reflexivity|]. split; [reflexivity|].
    do 2 eexists. split; [reflexivity|]. split; [reflexivity|].
    do 2 eexists. split; reflexivity.
  - lia.
Defined.

(** *** The callers of [get_controller] all get through *)

Import Session.

Lemma work_left_set_task (i : nat) (t x : task) (l : list task) :
  nth_error l i = Some x ->
  (work_left (set_task i t l) + steps_left x = work_left l + steps_left t)%nat.
Proof.
  unfold work_left. revert i; induction l as [|y l IH]; intros [|i]; simpl;
    try discriminate.
  - intros E. injection E as ->. lia.
  - intros E. specialize (IH i E). lia.
Qed.

Lemma work_left_none (l : list task) :
  work_left l = 0%nat -> forallb finished l = true.
Proof.
  unfold work_left. induction l as [|y l IH]; simpl; [reflexivity|].
  intros E. destruct y; simpl in *; try lia; apply IH; lia.
Qed.

Lemma work_left_some (l : list task) :
  (0 < work_left l)%nat ->
  exists i, nth_error l i = Some Waiting \/ nth_error l i = Some Launching.
Proof.
  unfold work_left. induction l as [|y l IH]; simpl; [lia|].
  intros E. destruct y; simpl in *;
    try (exists 0%nat; simpl; tauto);
    destruct (IH E) as [i Hi]; exists (Datatypes.S i); exact Hi.
Qed.

Lemma counted_somewhere (f : task -> bool) (l : list task) :
  (0 < List.length (filter f l))%nat ->
  exists i x, nth_error l i = Some x /\ f x = true.
Proof.
  induction l as [|y l IH]; simpl; [lia|].
  destruct (f y) eqn:Ey.
  - intros _. exists 0%nat, y. now split.
  - intros E. destruct (IH E) as (i & x & Hi & Hx). exists (Datatypes.S i), x. now split.
Qed.

Lemma set_task_no_cancel (i j : nat) (t x : task) (l : list task) :
  nth_error l i = Some x -> t <> Cancelled ->
  nth_error (set_task i t l) j = Some Cancelled -> nth_error l j = Some Cancelled.
Proof.
  intros Hi Ht Hj. destruct (Nat.eq_dec i j) as [<-|Hij].
  - rewrite (SessionFacts.nth_error_set_task_same _ _ _ _ Hi) in Hj. congruence.
  - now rewrite SessionFacts.nth_error_set_task_other in Hj by exact Hij.
Qed.

(** In a state where some caller is not done, some caller can take a
    step, and the step brings the callers nearer to the end; it cancels
    nobody. *)
Lemma some_step_enabled {S : Type} (H : Host S) (st : state S) :
  invariant st ->
  (0 < work_left (tasks st))%nat ->
  exists a st',
    step H a st = Some st'
    /\ (work_left (tasks st') < work_left (tasks st))%nat
    /\ (forall j, nth_error (tasks st') j = Some Cancelled ->
                  nth_error (tasks st) j = Some Cancelled).
Proof.
  intros I Hwork. pose proof I as (Icount & Ilock & Iret & Iun).
  destruct (locked st) eqn:El.
  - destruct (counted_somewhere is_launching (tasks st)) as (i & x & Hi & Hx);
      [lia|].
    destruct x; try discriminate.
    exists (Complete i). cbn [step]. rewrite Hi.
    pose proof (ToolFacts.settles_launch H (world st)) as Hs.
    pose proof (work_left_set_task i) as Hw.
    unfold launch_flexsim.
    destruct (launch_flexsim_sync H (world st)) as [[c|e|] w'];
      [| |exfalso; apply Hs; reflexivity];
      eexists; (split; [reflexivity|]); cbn [tasks].
    + split.
      * specialize (Hw (Returned c) _ _ Hi). cbn in Hw. lia.
      * intros j. apply (set_task_no_cancel i j _ _ _ Hi). discriminate.
    + split.
      * specialize (Hw (Failed e) _ _ Hi). cbn in Hw. lia.
      * intros j. apply (set_task_no_cancel i j _ _ _ Hi). discriminate.
  - destruct (work_left_some _ Hwork) as [i [Hi|Hi]].
    + exists (Enter i). cbn [step]. rewrite Hi, El.
      pose proof (work_left_set_task i) as Hw.
      destruct (_controller (world st)) as [c|];
        eexists; (split; [reflexivity|]); cbn [tasks].
      * split.
        -- specialize (Hw (Returned c) _ _ Hi). cbn in Hw. lia.
        -- intros j. apply (set_task_no_cancel i j _ _ _ Hi). discriminate.
      * split.
        -- specialize (Hw Launching _ _ Hi). cbn in Hw. lia.
        -- intros j. apply (set_task_no_cancel i j _ _ _ Hi). discriminate.
    + pose proof (SessionFacts.launching_holds_lock st i I Hi). congruence.
Qed.

Lemma finish_from {S : Type} (H : Host S) (n : nat) (st : state S) :
  invariant st ->
  (work_left (tasks st) <= n)%nat ->
  exists sched st',
    run_schedule H sched st = Some st'
    /\ forallb finished (tasks st') = true
    /\ locked st' = false
    /\ (List.length sched <= n)%nat
    /\ (forall j, nth_error (tasks st') j = Some Cancelled ->
                  nth_error (tasks st) j = Some Cancelled).
Proof.
  revert st. induction n as [|n IH]; intros st I Hn.
  - exists [], st. cbn. split; [reflexivity|].
    assert (forallb finished (tasks st) = true) as Hf
      by (apply work_left_none; lia).
    split; [exact Hf|]. split; [|split; [lia | auto]].
    destruct I as (Icount & _). destruct (locked st); [|reflexivity].
    exfalso. destruct (counted_somewhere is_launching (tasks st)) as (i & x & Hi & Hx);
      [lia|].
    destruct x; try discriminate.
    apply nth_error_In in Hi.
    rewrite forallb_forall in Hf. specialize (Hf _ Hi). discriminate.
  - destruct (Nat.eq_dec (work_left (tasks st)) 0) as [E0|E0].
    + destruct (IH st I ltac:(lia)) as (sched & st' & Hrun & Hf & Hl & Hlen & Hc).
      exists sched, st'. split; [exact Hrun|]. split; [exact Hf|].
      split; [exact Hl|]. split; [lia | exact Hc].
    + destruct (some_step_enabled H st I ltac:(lia))
        as (a & st1 & Hstep & Hless & Hc1).
      destruct (IH st1 (SessionFacts.step_invariant H a st st1 Hstep I) ltac:(lia))
        as (sched & st' & Hrun & Hf & Hl & Hlen & Hc).
      exists (a :: sched), st'. cbn [run_schedule List.length]. rewrite Hstep.
      split; [exact Hrun|]. split; [exact Hf|]. split; [exact Hl|].
      split; [lia|]. intros j Hj. exact (Hc1 j (Hc j Hj)).
Qed.

(** X4. The lock of [get_controller] never blocks for good. From every
    state that [N] overlapping first callers can reach, cancellations
    included, the callers can be scheduled so that every one of them that
    was not cancelled returns or fails, in at most two steps per caller,
    with nobody cancelled on the way, and then the lock is free. *)
Theorem every_caller_can_finish {S : Type} (H : Host S) (N : nat) (w0 : World S)
    (st : state S) :
  _controller w0 = None ->
  reachable H N w0 st ->
  exists sched st',
    run_schedule H sched st = Some st'
    /\ forallb finished (tasks st') = true
    /\ locked st' = false
    /\ (List.length sched <= 2 * N)%nat
    /\ (forall j, nth_error (tasks st') j = Some Cancelled ->
                  nth_error (tasks st) j = Some Cancelled).
Proof.
  intros Hw0 [sched0 Hrun0].
  pose proof (SessionFacts.run_invariant H sched0 _ _ Hrun0
                (SessionFacts.start_invariant N w0 Hw0)) as I.
  pose proof (SessionFacts.run_length H sched0 _ _ Hrun0) as Hlen.
  unfold start in Hlen. cbn [tasks] in Hlen. rewrite repeat_length in Hlen.
  apply finish_from; [exact I|].
  rewrite <- Hlen. unfold work_left.
  generalize (tasks st). intros l. induction l as [|y l IH]; simpl; [lia|].
  destruct y; simpl; lia.
Qed.

(** X4 with two callers, the first of which holds the lock for a launch
    that is going to fail. *)
Lemma every_caller_can_finish_witness :
  exists sched st',
    run_schedule Scenario.std_host sched
      {| world := Scenario.flaky; locked := true; tasks := [Launching; Waiting];
         unawaited := 0 |}
    = Some st'
    /\ forallb finished (tasks st') = true
    /\ locked st' = false
    /\ (List.length sched <= 2 * 2)%nat
    /\ (forall j, nth_error (tasks st') j = Some Cancelled ->
                  nth_error [Launching; Waiting] j = Some Cancelled).
Proof.
  apply (every_caller_can_finish Scenario.std_host 2 Scenario.flaky
           {| world := Scenario.flaky; locked := true; tasks := [Launching; Waiting];
              unawaited := 0 |}).
  - reflexivity.
  - exists [Enter 0]. reflexivity.
Defined.

(** *** The engine calls of each tool *)

(** X16. With a controller stored, every tool but [run_to_time] does to the
    engine what its plan, a list of calls fixed by the validated input
    alone, does when its calls are made one after another up to and
    including the first that raises: exactly those calls are logged, in
    that order, and the engine is left where that run leaves it. When a
    call raises, no later call of the plan is made and the answer is the
    formatted error of that very exception, also when it is the last or
    the only call of the plan. When none raises, the whole plan was made
    and the answer is the text the [try] block returns. The controller
    stays stored. *)
Theorem tools_follow_their_plan {S : Type} (H : Host S) (budget : nat) (r : Request)
    (c : Call) (p : list call) (w : World S) (h : handle) :
  validate H r = inr c ->
  plan c = Some p ->
  _controller w = Some h ->
  _controller (snd (call_tool H budget r w)) = Some h
  /\ calls (snd (call_tool H budget r w))
     = (calls w ++ made (run_calls (eng H) h p (engine w)))%list
  /\ engine (snd (call_tool H budget r w)) = final (run_calls (eng H) h p (engine w))
  /\ (exists rest, p = (made (run_calls (eng H) h p (engine w)) ++ rest)%list)
  /\ (forall e,
        raised (run_calls (eng H) h p (engine w)) = Some e ->
        made (run_calls (eng H) h p (engine w)) <> []
        /\ fst (call_tool H budget r w) = Val (Text (except_prefix c ++ format_error e)))
  /\ (raised (run_calls (eng H) h p (engine w)) = None ->
      made (run_calls (eng H) h p (engine w)) = p
      /\ exists answer,
           fst (try_block H budget c w) = Val answer
           /\ fst (call_tool H budget r w) = Val (Text answer)).
Proof.
  intros Hv Hp Hc.
  destruct (RunsFacts.call_tool_runs H budget r c p w h Hv Hp Hc)
    as (Hctl & Hcalls & Hengine & Hanswer).
  destruct (RunsFacts.made_prefix H h p (engine w)) as (rest & Hrest & Hnil).
  split; [exact Hctl|]. split; [exact Hcalls|]. split; [exact Hengine|].
  split; [now exists rest|]. split.
  - intros e He. rewrite He in Hanswer.
    split; [exact (RunsFacts.raised_made H h p (engine w) e He) | exact Hanswer].
  - intros He. rewrite He in Hanswer. split; [|exact Hanswer].
    rewrite (Hnil He), app_nil_r in Hrest. now symmetry.
Qed.

(** X16 on a request to set a node, with an engine that refuses scripts:
    the first of the two calls raises, the second is not made, and the
    answer is that error. *)
Lemma tools_follow_their_plan_witness :
  calls (snd (call_tool Scenario.std_host 0
                (set_node_value "Model/Queue1" (Some (PObj "5")))
                (Scenario.refusing "license expired")))
  = [CEvaluate ("setvalue(node(" ++ PyStr.dq ++ "Model/Queue1" ++ PyStr.dq ++ "), 5)")]
  /\ fst (call_tool Scenario.std_host 0
            (set_node_value "Model/Queue1" (Some (PObj "5")))
            (Scenario.refusing "license expired"))
     = Val (Text "License error: license expired").
Proof.
  split.
  - exact (proj1 (proj2 (tools_follow_their_plan Scenario.std_host 0
                           (set_node_value "Model/Queue1" (Some (PObj "5")))
                           (set_node_value_call
                              {| node_path := "Model/Queue1"; value := Some (PObj "5") |})
                           _ (Scenario.refusing "license expired") 7%nat
                           eq_refl eq_refl eq_refl))).
  - exact (proj2 (proj1 (proj2 (proj2 (proj2 (proj2
             (tools_follow_their_plan Scenario.std_host 0
                (set_node_value "Model/Queue1" (Some (PObj "5")))
                (set_node_value_call
                   {| node_path := "Model/Queue1"; value := Some (PObj "5") |})
                _ (Scenario.refusing "license expired") 7%nat
                eq_refl eq_refl eq_refl)))))
             (Scenario.engine_error "license expired") eq_refl)).
Defined.

End BehaviourFacts.

(** ** Reading the configuration *)

Module ConfigAccessFacts.

Import Config ConfigAccess.

Lemma append_empty (s : string) : s ++ EmptyString = s.
Proof. induction s as [|c s IH]; cbn; [reflexivity | now rewrite IH]. Qed.

Lemma append_append (a b c : string) : (a ++ b) ++ c = a ++ (b ++ c).
Proof. induction a as [|x a IH]; cbn; [reflexivity | now rewrite IH]. Qed.

Lemma split_dots_dotless (cur k : string) :
  dotless k = true -> split_dots cur k = [cur ++ k].
Proof.
  revert cur. induction k as [|c k IH]; intros cur; cbn.
  - intros _. now rewrite append_empty.
  - rewrite andb_true_iff, negb_true_iff. intros [Hc Hk]. rewrite Hc, (IH _ Hk).
    now rewrite append_append.
Qed.

Lemma split_dots_first (cur k rest : string) :
  dotless k = true ->
  split_dots cur (k ++ "." ++ rest) = (cur ++ k) :: split_dots EmptyString rest.
Proof.
  revert cur. induction k as [|c k IH]; intros cur; cbn.
  - intros _. now rewrite append_empty.
  - rewrite andb_true_iff, negb_true_iff. intros [Hc Hk]. rewrite Hc.
    cbn in IH. rewrite (IH _ Hk). now rewrite append_append.
Qed.

Lemma split_nonempty (cur s : string) : split_dots cur s <> [].
Proof.
  revert cur. induction s as [|c s IH]; intros cur; cbn; [discriminate|].
  destruct (Ascii.eqb c "."); [discriminate | apply IH].
Qed.

(** X5. [Config.get] walks the document one dot-separated name at a time.
    A key without a dot gives the entry of that name, or the default when
    there is none. A key [k.rest] gives what [rest] gives inside the table
    stored under [k]; when [k] is missing, or holds something that is not
    a table, it gives the default. The lookup never raises. *)
Theorem get_by_dotted_key (doc : table) (k rest : string) (default : option value) :
  dotless k = true ->
  get doc k default
  = match lookup k doc with
    | Some v => Some v
    | None => default
    end
  /\ get doc (k ++ "." ++ rest) default
     = match lookup k doc with
       | Some (Table sub) => get sub rest default
       | _ => default
       end.
Proof.
  intros Hk. unfold get, split. split.
  - rewrite (split_dots_dotless _ _ Hk). cbn.
    destruct (lookup k doc); reflexivity.
  - rewrite (split_dots_first _ _ _ Hk). cbn [String.append walk].
    destruct (lookup k doc) as [v|]; [|reflexivity].
    pose proof (split_nonempty EmptyString rest) as Hne.
    destruct (split_dots EmptyString rest) as [|k2 ks]; [contradiction|].
    destruct v; reflexivity.
Qed.

(** X5 on a document with a [flexsim] table and a top-level string. *)
Lemma get_by_dotted_key_witness :
  get [("flexsim", Table [("src_path", Str "C:/FlexSim")]); ("name", Str "x")]
      "flexsim.src_path" None
  = Some (Str "C:/FlexSim")
  /\ get [("flexsim", Table [("src_path", Str "C:/FlexSim")]); ("name", Str "x")]
         "name.first" (Some (Str "none"))
     = Some (Str "none")
  /\ get [("flexsim", Table [("src_path", Str "C:/FlexSim")]); ("name", Str "x")]
         "build" (Some (Str "depends/FlexSimPy"))
     = Some (Str "depends/FlexSimPy").
Proof.
  split; [|split].
  - exact (proj2 (get_by_dotted_key
             [("flexsim", Table [("src_path", Str "C:/FlexSim")]); ("name", Str "x")]
             "flexsim" "src_path" None eq_refl)).
  - exact (proj2 (get_by_dotted_key
             [("flexsim", Table [("src_path", Str "C:/FlexSim")]); ("name", Str "x")]
             "name" "first" (Some (Str "none")) eq_refl)).
  - exact (proj1 (get_by_dotted_key
             [("flexsim", Table [("src_path", Str "C:/FlexSim")]); ("name", Str "x")]
             "build" EmptyString (Some (Str "depends/FlexSimPy")) eq_refl)).
Defined.

(** X6. The three environment overrides win over the file: when
    [FLEXSIM_INSTALL_PATH], [FLEXSIM_PYTHON_VERSION] or [FLEXSIM_LOG_LEVEL]
    is set to a non-empty string, the matching property of a new [Config]
    is that string, whatever path was given and whatever the file holds.
    A variable that is unset or empty overrides nothing: the key it stands
    for is then the loaded document's, for each of the three. And the
    environment touches no other key: the fallback paths, the server's
    name, version and endpoint, the reuse policy and the log file are the
    loaded document's. *)
Theorem environment_overrides (sys : System) (config_path : path_arg) :
  (forall v, environ sys "FLEXSIM_INSTALL_PATH" = Some v -> v <> EmptyString ->
     flexsim_install_path (__init__ sys config_path) = v)
  /\ (forall v, environ sys "FLEXSIM_PYTHON_VERSION" = Some v -> v <> EmptyString ->
        python_version (__init__ sys config_path) = v)
  /\ (forall v, environ sys "FLEXSIM_LOG_LEVEL" = Some v -> v <> EmptyString ->
        log_level (__init__ sys config_path) = v)
  /\ (environ sys "FLEXSIM_INSTALL_PATH" = None
      \/ environ sys "FLEXSIM_INSTALL_PATH" = Some EmptyString ->
      flexsim_install_path_key (_config (__init__ sys config_path))
      = flexsim_install_path_key (_load_config sys (_find_config_file sys config_path)))
  /\ (environ sys "FLEXSIM_PYTHON_VERSION" = None
      \/ environ sys "FLEXSIM_PYTHON_VERSION" = Some EmptyString ->
      python_version_key (_config (__init__ sys config_path))
      = python_version_key (_load_config sys (_find_config_file sys config_path)))
  /\ (environ sys "FLEXSIM_LOG_LEVEL" = None
      \/ environ sys "FLEXSIM_LOG_LEVEL" = Some EmptyString ->
      logging_level_key (_config (__init__ sys config_path))
      = logging_level_key (_load_config sys (_find_config_file sys config_path)))
  /\ flexsim_alternative_paths_key (_config (__init__ sys config_path))
     = flexsim_alternative_paths_key (_load_config sys (_find_config_file sys config_path))
  /\ server_name_key (_config (__init__ sys config_path))
     = server_name_key (_load_config sys (_find_config_file sys config_path))
  /\ server_version_key (_config (__init__ sys config_path))
     = server_version_key (_load_config sys (_find_config_file sys config_path))
  /\ server_http_endpoint_key (_config (__init__ sys config_path))
     = server_http_endpoint_key (_load_config sys (_find_config_file sys config_path))
  /\ session_reuse_policy_key (_config (__init__ sys config_path))
     = session_reuse_policy_key (_load_config sys (_find_config_file sys config_path))
  /\ logging_log_file_key (_config (__init__ sys config_path))
     = logging_log_file_key (_load_config sys (_find_config_file sys config_path)).
Proof.
  assert (forall k v, environ sys k = Some v -> v <> EmptyString -> env_set sys k = Some v)
    as Hset.
  { intros k v E Hv. unfold env_set. rewrite E. unfold PyStr.truthy.
    destruct (String.eqb_spec v EmptyString); [contradiction | reflexivity]. }
  assert (forall k, environ sys k = None \/ environ sys k = Some EmptyString ->
                    env_set sys k = None) as Hunset.
  { intros k [E|E]; unfold env_set; rewrite E; reflexivity. }
  split; [|split; [|split; [|split; [|split; [|split]]]]].
  - intros v E Hv. unfold flexsim_install_path, __init__. cbn.
    now rewrite (Hset _ _ E Hv).
  - intros v E Hv. unfold python_version, __init__. cbn.
    now rewrite (Hset _ _ E Hv).
  - intros v E Hv. unfold log_level, __init__. cbn.
    now rewrite (Hset _ _ E Hv).
  - intros E. unfold __init__. cbn. now rewrite (Hunset _ E).
  - intros E. unfold __init__. cbn. now rewrite (Hunset _ E).
  - intros E. unfold __init__. cbn. now rewrite (Hunset _ E).
  - unfold __init__. cbn. tauto.
Qed.

(** X6 with an install path in the environment and an empty log level. *)
Lemma environment_overrides_witness :
  flexsim_install_path
    (__init__ (Scenario.system []
                 (fun k => if k =? "FLEXSIM_INSTALL_PATH" then Some "D:/FlexSim"
                           else if k =? "FLEXSIM_LOG_LEVEL" then Some EmptyString
                           else None))
       NoPath)
  = "D:/FlexSim".
Proof.
  apply (proj1 (environment_overrides
                  (Scenario.system []
                     (fun k => if k =? "FLEXSIM_INSTALL_PATH" then Some "D:/FlexSim"
                               else if k =? "FLEXSIM_LOG_LEVEL" then Some EmptyString
                               else None))
                  NoPath) "D:/FlexSim"); [reflexivity | discriminate].
Defined.

Lemma overrides_nothing (sys : System) (d : dict) :
  no_overrides sys -> _apply_environment_overrides sys d = d.
Proof.
  intros (E1 & E2 & E3). unfold _apply_environment_overrides.
  rewrite E1, E2, E3. now destruct d.
Qed.

(** X7. With no override in the environment, a [Config] made when no
    configuration file is found, or when the file found cannot be opened or
    parsed, holds the hard-coded defaults: install path
    "FlexSimDev/program", no fallback paths, Python "3.10", the default
    server identity, reuse policy "singleton", log level "INFO" and no log
    file. The path of a file that could not be loaded is recorded all the
    same. A file that loads but has no [flexsim.install_path] gives the
    empty string instead, not the default path. *)
Theorem defaults_without_a_file (sys : System) (config_path : path_arg) :
  no_overrides sys ->
  ((_find_config_file sys config_path = None
    \/ exists p, _find_config_file sys config_path = Some p /\ toml_load sys p = None) ->
   _config (__init__ sys config_path) = _set_defaults
   /\ _config_path (__init__ sys config_path) = _find_config_file sys config_path
   /\ flexsim_install_path (__init__ sys config_path) = "FlexSimDev/program"
   /\ flexsim_alternative_paths (__init__ sys config_path) = []
   /\ python_version (__init__ sys config_path) = "3.10"
   /\ server_name (__init__ sys config_path) = "FlexSimPy MCP Server"
   /\ server_version (__init__ sys config_path) = "0.1.0"
   /\ http_endpoint (__init__ sys config_path) = "http://127.0.0.1:8088/mcp"
   /\ session_reuse_policy (__init__ sys config_path) = "singleton"
   /\ log_level (__init__ sys config_path) = "INFO"
   /\ log_file (__init__ sys config_path) = None)
  /\ (forall p d,
        _find_config_file sys config_path = Some p ->
        toml_load sys p = Some d ->
        _config (__init__ sys config_path) = d
        /\ (flexsim_install_path_key d = None ->
            flexsim_install_path (__init__ sys config_path) = EmptyString)).
Proof.
  intros Hno. split.
  - intros Hfile.
    assert (_config (__init__ sys config_path) = _set_defaults) as E.
    { unfold __init__. cbn [_config]. rewrite (overrides_nothing _ _ Hno).
      destruct Hfile as [-> | (p & -> & Hp)]; cbn; [reflexivity | now rewrite Hp]. }
    split; [exact E|]. split; [reflexivity|].
    unfold flexsim_install_path, flexsim_alternative_paths, python_version,
      server_name, server_version, http_endpoint, session_reuse_policy, log_level,
      log_file.
    rewrite E. repeat split.
  - intros p d Hp Hd.
    assert (_config (__init__ sys config_path) = d) as E.
    { unfold __init__. cbn [_config]. rewrite (overrides_nothing _ _ Hno), Hp.
      cbn. now rewrite Hd. }
    split; [exact E|]. intros Hkey. unfold flexsim_install_path. now rewrite E, Hkey.
Qed.

(** X7 on a system without any configuration file and on one whose file
    cannot be parsed. *)
Lemma defaults_without_a_file_witness :
  flexsim_install_path (__init__ (Scenario.system [] Scenario.no_env) NoPath)
  = "FlexSimDev/program"
  /\ _config_path (__init__ (Scenario.system ["C:/Work/config.toml"] Scenario.no_env) NoPath)
     = Some "C:/Work/config.toml"
  /\ _config (__init__ (Scenario.system ["C:/Work/config.toml"] Scenario.no_env) NoPath)
     = _set_defaults.
Proof.
  split; [|split].
  - apply (proj1 (defaults_without_a_file (Scenario.system [] Scenario.no_env) NoPath
                    ltac:(repeat split))).
    left. reflexivity.
  - reflexivity.
  - apply (proj1 (defaults_without_a_file
                    (Scenario.system ["C:/Work/config.toml"] Scenario.no_env) NoPath
                    ltac:(repeat split))).
    right. exists "C:/Work/config.toml". split; reflexivity.
Defined.

(** X8. The global configuration is read once: after a first
    [get_config()], later calls return the same object without looking at
    the system again, whatever has changed in it; the first call of a
    fresh module makes a [Config] with no path argument. [set_config] and
    [reload_config] replace the global, and [get_config()] then returns
    what they stored. *)
Theorem global_config_is_read_once (sys sys' : System) (global : option t) (c : t)
    (config_path : path_arg) :
  get_config sys' (snd (get_config sys global)) = get_config sys global
  /\ (global = None -> fst (get_config sys global) = __init__ sys NoPath)
  /\ (forall old, global = Some old -> get_config sys global = (old, Some old))
  /\ get_config sys' (set_config c global) = (c, Some c)
  /\ get_config sys' (snd (reload_config sys config_path global))
     = (__init__ sys config_path, Some (__init__ sys config_path)).
Proof.
  split; [|split; [|split; [|split]]].
  - destruct global; reflexivity.
  - intros ->. reflexivity.
  - intros old ->. reflexivity.
  - reflexivity.
  - reflexivity.
Qed.

(** X8 when the environment changes between two calls. *)
Lemma global_config_is_read_once_witness :
  fst (get_config (Scenario.system [] Scenario.no_env) None)
  = __init__ (Scenario.system [] Scenario.no_env) NoPath
  /\ get_config Scenario.env_and_cwd (Some Scenario.std_config)
     = (Scenario.std_config, Some Scenario.std_config).
Proof.
  split.
  - apply (proj1 (proj2 (global_config_is_read_once
                           (Scenario.system [] Scenario.no_env)
                           Scenario.env_and_cwd None Scenario.std_config NoPath))).
    reflexivity.
  - apply (proj1 (proj2 (proj2 (global_config_is_read_once
                                  Scenario.env_and_cwd Scenario.env_and_cwd
                                  (Some Scenario.std_config) Scenario.std_config NoPath)))
             Scenario.std_config).
    reflexivity.
Defined.

End ConfigAccessFacts.

(** ** The utilities *)

Module UtilityFacts.

Import Utility.

Lemma lookup_nil (j : nat) : lookup [] j = None.
Proof. unfold lookup. now destruct j. Qed.

Lemma lookup_store (t : table) (i j : nat) (v : option file) :
  lookup (store t i v) j = if (i =? j)%nat then v else lookup t j.
Proof.
  revert t j. induction i as [|i IH]; intros t j.
  - destruct t as [|x t], j as [|j]; cbn; try reflexivity.
    unfold lookup. cbn. now destruct j.
  - destruct t as [|x t], j as [|j]; cbn; try reflexivity.
    + specialize (IH [] j). unfold lookup in *. cbn. rewrite IH.
      destruct (i =? j)%nat; [reflexivity | now destruct j].
    + specialize (IH t j). unfold lookup in *. cbn. exact IH.
Qed.

Lemma lowest_free_is_free (t : table) : lookup t (lowest_free t) = None.
Proof.
  unfold lookup. induction t as [|[f|] t IH]; cbn; auto.
Qed.

(** X9. On Windows, with the descriptor of stderr open on a file [f],
    [suppress_stderr] succeeds: afterwards stderr is open on the null
    device, the descriptor it returns is open on [f], and every other
    descriptor is as before. [restore_stderr] of that descriptor then
    succeeds and brings back the table of descriptors as it was before the
    suppression: stderr is on [f] again and nothing is left open. On
    another system [suppress_stderr] returns -1 and changes nothing, and
    [restore_stderr(-1)] changes nothing. *)
Theorem stderr_round_trip (stderr_fileno : nat) (t : table) (f : file) :
  lookup t stderr_fileno = Some f ->
  (exists saved during,
     suppress_stderr "nt" stderr_fileno t = Done (Z.of_nat saved) during
     /\ lookup during stderr_fileno = Some devnull
     /\ lookup during saved = Some f
     /\ lookup t saved = None
     /\ (forall d, d <> stderr_fileno -> d <> saved -> lookup during d = lookup t d)
     /\ exists after,
          restore_stderr stderr_fileno (Z.of_nat saved) during = Done tt after
          /\ forall d, lookup after d = lookup t d)
  /\ (forall os_name, os_name <> "nt" ->
        suppress_stderr os_name stderr_fileno t = Done (-1)%Z t
        /\ restore_stderr stderr_fileno (-1) t = Done tt t).
Proof.
  intros Hopen. split.
  - set (saved := lowest_free t).
    set (t1 := store t saved (Some f)).
    set (null := lowest_free t1).
    set (t2 := store t1 null (Some devnull)).
    set (t3 := store t2 stderr_fileno (Some devnull)).
    set (t4 := store t3 null None).
    assert (lookup t saved = None) as Hsaved by apply lowest_free_is_free.
    assert (lookup t1 null = None) as Hnull by apply lowest_free_is_free.
    assert (saved <> stderr_fileno) as Hne1 by congruence.
    assert (null <> saved) as Hne2.
    { intros E. rewrite E in Hnull. unfold t1 in Hnull.
      rewrite lookup_store, Nat.eqb_refl in Hnull. discriminate. }
    assert (null <> stderr_fileno) as Hne3.
    { intros E. rewrite E in Hnull. unfold t1 in Hnull.
      rewrite lookup_store in Hnull.
      destruct (Nat.eqb_spec saved stderr_fileno); congruence. }
    assert (lookup t null = None) as Hnull0.
    { unfold t1 in Hnull. rewrite lookup_store in Hnull.
      destruct (Nat.eqb_spec saved null); congruence. }
    assert (forall d, lookup t4 d =
                      if (null =? d)%nat then None
                      else if (stderr_fileno =? d)%nat then Some devnull
                      else if (saved =? d)%nat then Some f
                      else lookup t d) as H4.
    { intros d. unfold t4, t3, t2, t1. rewrite !lookup_store.
      destruct (Nat.eqb_spec null d); [reflexivity|].
      destruct (Nat.eqb_spec stderr_fileno d); reflexivity. }
    assert (suppress_stderr "nt" stderr_fileno t = Done (Z.of_nat saved) t4) as Hs.
    { unfold suppress_stderr. cbn [String.eqb Ascii.eqb Bool.eqb negb andb].
      unfold dup. rewrite Hopen. cbn [and_then]. unfold open_. cbn [and_then].
      fold saved t1 null. unfold dup2. fold t2.
      assert (lookup t2 null = Some devnull) as ->
        by (unfold t2; now rewrite lookup_store, Nat.eqb_refl).
      cbn [and_then]. fold t3. unfold close.
      assert (lookup t3 null = Some devnull) as ->.
      { unfold t3, t2. rewrite !lookup_store, Nat.eqb_refl.
        destruct (stderr_fileno =? null)%nat; reflexivity. }
      reflexivity. }
    exists saved, t4. split; [exact Hs|].
    split.
    { rewrite H4. destruct (Nat.eqb_spec null stderr_fileno); [contradiction|].
      now rewrite Nat.eqb_refl. }
    split.
    { rewrite H4. destruct (Nat.eqb_spec null saved); [contradiction|].
      destruct (Nat.eqb_spec stderr_fileno saved); [congruence|].
      now rewrite Nat.eqb_refl. }
    split; [exact Hsaved|]. split.
    { intros d Hd1 Hd2. rewrite H4.
      destruct (Nat.eqb_spec null d) as [<-|_]; [now rewrite Hnull0|].
      destruct (Nat.eqb_spec stderr_fileno d); [congruence|].
      destruct (Nat.eqb_spec saved d); [congruence | reflexivity]. }
    set (t5 := store t4 stderr_fileno (Some f)).
    exists (store t5 saved None). split.
    + unfold restore_stderr.
      assert ((Z.of_nat saved <? 0)%Z = false) as -> by (apply Z.ltb_ge; lia).
      rewrite Nat2Z.id. unfold dup2.
      assert (lookup t4 saved = Some f) as ->.
      { rewrite H4. destruct (Nat.eqb_spec null saved); [contradiction|].
        destruct (Nat.eqb_spec stderr_fileno saved); [congruence|].
        now rewrite Nat.eqb_refl. }
      cbn [and_then]. fold t5. unfold close.
      assert (lookup t5 saved = Some f) as ->.
      { unfold t5. rewrite lookup_store.
        destruct (Nat.eqb_spec stderr_fileno saved); [congruence|].
        rewrite H4. destruct (Nat.eqb_spec null saved); [contradiction|].
        destruct (Nat.eqb_spec stderr_fileno saved); [congruence|].
        now rewrite Nat.eqb_refl. }
      reflexivity.
    + intros d. unfold t5. rewrite !lookup_store, H4.
      destruct (Nat.eqb_spec saved d) as [<-|_]; [now rewrite Hsaved|].
      destruct (Nat.eqb_spec stderr_fileno d) as [<-|_]; [now rewrite Hopen|].
      destruct (Nat.eqb_spec null d) as [<-|_]; [now rewrite Hnull0 | reflexivity].
  - intros os_name Hos. unfold suppress_stderr, restore_stderr.
    destruct (String.eqb_spec os_name "nt"); [contradiction|]. split; reflexivity.
Qed.

(** X9 on the usual table of a console program: 0, 1 and 2 open. *)
Lemma stderr_round_trip_witness :
  suppress_stderr "nt" 2 [Some "stdin"; Some "stdout"; Some "stderr"]
  = Done 3%Z [Some "stdin"; Some "stdout"; Some "nul"; Some "stderr"; None]
  /\ exists saved during,
       suppress_stderr "nt" 2 [Some "stdin"; Some "stdout"; Some "stderr"]
       = Done (Z.of_nat saved) during
       /\ lookup during 2 = Some devnull
       /\ lookup during saved = Some "stderr"
       /\ lookup [Some "stdin"; Some "stdout"; Some "stderr"] saved = None
       /\ (forall d, d <> 2%nat -> d <> saved ->
             lookup during d = lookup [Some "stdin"; Some "stdout"; Some "stderr"] d)
       /\ exists after,
            restore_stderr 2 (Z.of_nat saved) during = Done tt after
            /\ forall d, lookup after d
                         = lookup [Some "stdin"; Some "stdout"; Some "stderr"] d.
Proof.
  split; [reflexivity|].
  apply (proj1 (stderr_round_trip 2 [Some "stdin"; Some "stdout"; Some "stderr"]
                  "stderr" eq_refl)).
Defined.

(** A process is taken for FlexSim exactly when it has a name that
    contains "flexsim" in any mix of cases. *)
Lemma is_flexsim_spec (p : process) :
  is_flexsim p = true
  <-> exists n, name p = Some n /\ PyStr.Substring "flexsim" (PyStr.lower n).
Proof.
  unfold is_flexsim. destruct (name p) as [n|].
  - rewrite andb_true_iff, PyStrFacts.contains_spec. split.
    + intros [_ Hs]. now exists n.
    + intros (n' & E & Hs). injection E as <-. split; [|exact Hs].
      destruct n as [|c n]; [|reflexivity].
      destruct Hs as (a & b & Hab). destruct a; discriminate.
  - split; [discriminate | intros (n & E & _); discriminate].
Qed.

Lemma kill_loop_spec (kill : process -> kill_outcome) (procs : list process)
    (killed called : list Z) :
  (forall q, In q (snd (kill_loop kill procs killed called)) ->
     In q called \/ exists p, In p procs /\ pid p = q /\ is_flexsim p = true)
  /\ (forall done,
        fst (kill_loop kill procs killed called) = inr done ->
        done = (killed
                ++ map pid (filter (fun p => is_flexsim p && was_killed (kill p)) procs))%list
        /\ snd (kill_loop kill procs killed called)
           = (called ++ map pid (filter is_flexsim procs))%list)
  /\ ((forall p msg, In p procs -> is_flexsim p = true -> kill p <> Raised msg) ->
      exists done, fst (kill_loop kill procs killed called) = inr done).
Proof.
  revert killed called. induction procs as [|p procs IH]; intros killed called;
    cbn [kill_loop].
  - split; [|split].
    + intros q Hq. now left.
    + intros done E. injection E as <-. cbn. now rewrite !app_nil_r.
    + intros _. now exists killed.
  - cbn [filter]; cbv beta. destruct (is_flexsim p) eqn:Ep; cbn [andb].
    + destruct (kill p) eqn:Ek; cbn [was_killed].
      * destruct (IH (killed ++ [pid p])%list (called ++ [pid p])%list) as (I1 & I2 & I3).
        split; [|split].
        -- intros q Hq. destruct (I1 q Hq) as [Hc|(p' & Hp' & E & F)].
           ++ apply in_app_or in Hc. destruct Hc as [Hc|[<-|[]]]; [now left|].
              right. exists p. cbn. auto.
           ++ right. exists p'. cbn. auto.
        -- intros done E. destruct (I2 done E) as [-> ->]. cbn [map].
           now rewrite <- !app_assoc.
        -- intros Hno. apply I3. intros p' msg Hp'. apply Hno. now right.
      * destruct (IH killed (called ++ [pid p])%list) as (I1 & I2 & I3).
        split; [|split].
        -- intros q Hq. destruct (I1 q Hq) as [Hc|(p' & Hp' & E & F)].
           ++ apply in_app_or in Hc. destruct Hc as [Hc|[<-|[]]]; [now left|].
              right. exists p. cbn. auto.
           ++ right. exists p'. cbn. auto.
        -- intros done E. destruct (I2 done E) as [-> ->]. cbn [map].
           now rewrite <- !app_assoc.
        -- intros Hno. apply I3. intros p' msg' Hp'. apply Hno. now right.
      * split; [|split].
        -- cbn [snd]. intros q Hq. apply in_app_or in Hq.
           destruct Hq as [Hc|[<-|[]]]; [now left|]. right. exists p. cbn. auto.
        -- intros done E. discriminate.
        -- intros Hno. exfalso. apply (Hno p msg); cbn; auto.
    + destruct (IH killed called) as (I1 & I2 & I3).
      split; [|split].
      * intros q Hq. destruct (I1 q Hq) as [Hc|(p' & Hp' & E & F)]; [now left|].
        right. exists p'. cbn. auto.
      * intros done E. destruct (I2 done E) as [-> ->]. split; reflexivity.
      * intros Hno. apply I3. intros p' msg Hp'. apply Hno. now right.
Qed.

(** X10. [kill_flexsim_processes] calls [kill()] only on processes that
    have a name containing "flexsim" in any mix of cases: a process without
    a name, or with another name, is never touched. When it returns, it
    returns, in the order of iteration, the pids of exactly those FlexSim
    processes whose [kill()] succeeded, a process that is gone or may not
    be killed being skipped; and it does return unless [kill()] raises
    something other than these two errors. *)
Theorem only_flexsim_is_killed (kill : process -> kill_outcome) (procs : list process) :
  (forall q, In q (snd (kill_flexsim_processes kill procs)) ->
     exists p n, In p procs /\ pid p = q /\ name p = Some n
                 /\ PyStr.Substring "flexsim" (PyStr.lower n))
  /\ (forall killed,
        fst (kill_flexsim_processes kill procs) = inr killed ->
        killed = map pid (filter (fun p => is_flexsim p && was_killed (kill p)) procs)
        /\ snd (kill_flexsim_processes kill procs) = map pid (filter is_flexsim procs))
  /\ ((forall p msg, In p procs -> is_flexsim p = true -> kill p <> Raised msg) ->
      exists killed, fst (kill_flexsim_processes kill procs) = inr killed).
Proof.
  unfold kill_flexsim_processes.
  destruct (kill_loop_spec kill procs [] []) as (I1 & I2 & I3).
  split; [|split].
  - intros q Hq. destruct (I1 q Hq) as [[]|(p & Hp & E & F)].
    apply is_flexsim_spec in F. destruct F as (n & Hn & Hs).
    exists p, n. auto.
  - exact I2.
  - exact I3.
Qed.

(** X10 on four processes, the second of which may not be killed. *)
Lemma only_flexsim_is_killed_witness :
  kill_flexsim_processes
    (fun p => if (pid p =? 20)%Z then Skipped else Killed)
    [{| pid := 10; name := Some "FlexSim.exe" |};
     {| pid := 20; name := Some "flexsimserver.exe" |};
     {| pid := 30; name := Some "python.exe" |};
     {| pid := 40; name := None |}]
  = (inr [10%Z], [10%Z; 20%Z])
  /\ exists killed,
       fst (kill_flexsim_processes
              (fun p => if (pid p =? 20)%Z then Skipped else Killed)
              [{| pid := 10; name := Some "FlexSim.exe" |};
               {| pid := 20; name := Some "flexsimserver.exe" |};
               {| pid := 30; name := Some "python.exe" |};
               {| pid := 40; name := None |}])
       = inr killed.
Proof.
  split; [reflexivity|].
  apply (proj2 (proj2 (only_flexsim_is_killed
                         (fun p => if (pid p =? 20)%Z then Skipped else Killed)
                         [{| pid := 10; name := Some "FlexSim.exe" |};
                          {| pid := 20; name := Some "flexsimserver.exe" |};
                          {| pid := 30; name := Some "python.exe" |};
                          {| pid := 40; name := None |}]))).
  intros p msg _ _. destruct (pid p =? 20)%Z; discriminate.
Defined.

End UtilityFacts.

(** ** The builder *)

Module BuilderFacts.

Import Builder.

Local Open Scope bool_scope.

Section WithMachine.

Context {W : Type} (M : Machine W).

(** A candidate met before and found missing can be dropped: the loop over
    the list without duplicates finds what the loop over all non-empty
    candidates finds. *)
Lemma first_existing_unique (w : W) (l seen : list string) :
  (forall x, In x seen -> path_exists M w (locate M x) = false) ->
  first_existing M w (unique_candidates seen l)
  = first_existing M w (filter PyStr.truthy l).
Proof.
  revert seen. induction l as [|x l IH]; intros seen Hseen; cbn [unique_candidates filter].
  - reflexivity.
  - destruct (PyStr.truthy x) eqn:Et; cbn [andb].
    + destruct (existsb (String.eqb x) seen) eqn:Es; cbn [negb first_existing].
      * apply existsb_exists in Es. destruct Es as (y & Hy & Exy).
        apply String.eqb_eq in Exy. subst y.
        rewrite (Hseen x Hy). apply IH, Hseen.
      * destruct (path_exists M w (locate M x)) eqn:Ex; [reflexivity|].
        apply IH. intros y [<-|Hy]; [exact Ex | apply Hseen, Hy].
    + apply IH, Hseen.
Qed.



(** The candidates, with or without the primary path, hold the non-empty
    paths of the configuration in their order. *)
Lemma candidates_filter (b : FlexSimPyBuilder) :
  filter PyStr.truthy (candidates b)
  = filter PyStr.truthy
      (Config.flexsim_install_path (config b)
       :: Config.flexsim_alternative_paths (config b)).
Proof.
  unfold candidates. cbn [filter].
  destruct (PyStr.truthy (Config.flexsim_install_path (config b))) eqn:Et;
    destruct (Config.flexsim_alternative_paths (config b)) as [|a l]; cbn [filter app];
    rewrite ?Et; reflexivity.
Qed.

Lemma resolve_first_existing (b : FlexSimPyBuilder) (w : W) :
  resolve_flexsim_install_path M b w
  = first_existing M w
      (filter PyStr.truthy
         (Config.flexsim_install_path (config b)
          :: Config.flexsim_alternative_paths (config b))).
Proof.
  unfold resolve_flexsim_install_path.
  rewrite first_existing_unique by (intros x []).
  now rewrite candidates_filter.
Qed.

End WithMachine.



Section Building.

Context {W : Type} (M : Machine W).

(** The build output, when found, is the module file under [out]. *)
Lemma check_build_output_found (b : FlexSimPyBuilder) (w : W) (pyd : string) :
  check_build_output_exists M b w = Some pyd ->
  pyd = PyPath.joinpath
          (PyPath.joinpath (PyPath.joinpath (flexsimpy_dir b) "out") (config_name b))
          "FlexSimPy.pyd"
  /\ path_exists M w pyd = true.
Proof.
  unfold check_build_output_exists.
  destruct (path_exists M w (flexsimpy_dir b)); cbn [negb]; [|discriminate].
  destruct (path_exists M w _) eqn:E; [|discriminate].
  intros [= <-]. split; [reflexivity | exact E].
Qed.

(** What a build can do and what its answer means. *)
Lemma build_flexsimpy_outcome (b : FlexSimPyBuilder) (force : bool) (s : State W) :
  (fst (fst (build_flexsimpy M b force s)) = true ->
   exists pyd,
     check_build_output_exists M b (disk (snd (build_flexsimpy M b force s))) = Some pyd
     /\ (snd (fst (build_flexsimpy M b force s)) = "FlexSimPy already built at " ++ pyd
         \/ snd (fst (build_flexsimpy M b force s))
            = "FlexSimPy built successfully at " ++ pyd))
  /\ (snd (build_flexsimpy M b force s) = s
      \/ exists p,
           resolve_flexsim_install_path M b (disk s) = Some p
           /\ (log (snd (build_flexsimpy M b force s)) = (log s ++ [Copied p])%list
               \/ exists m,
                    find_msbuild M b (disk (snd (sync_flexsim_content M b s))) = Some m
                    /\ log (snd (build_flexsimpy M b force s))
                       = (log s
                          ++ [Copied p;
                              MSBuild m (PyPath.joinpath (flexsimpy_dir b) "FlexSimPy.sln")
                                (config_name b)])%list)).
Proof.
  unfold build_flexsimpy.
  destruct (if negb force then check_build_output_exists M b (disk s) else None)
    as [pyd|] eqn:E0.
  - cbn [fst snd]. split; [|now left].
    intros _. exists pyd. split; [|now left].
    destruct force; [discriminate | exact E0].
  - unfold sync_flexsim_content.
    destruct (resolve_flexsim_install_path M b (disk s)) as [p|] eqn:Er.
    2:{ cbn [negb fst snd]. split; [discriminate | now left]. }
    destruct (path_exists M (disk s) _) eqn:Ei; cbn [negb].
    2:{ cbn [fst snd]. split; [discriminate | now left]. }
    destruct (copy_content M b p (disk s)) as [[ok msg] d] eqn:Ec.
    destruct ok; cbn [negb fst snd disk log].
    2:{ split; [discriminate|]. right. exists p. split; [reflexivity | now left]. }
    destruct (find_msbuild M b d) as [m|] eqn:Em.
    2:{ cbn [fst snd log]. split; [discriminate|]. right. exists p.
        split; [reflexivity | now left]. }
    destruct (path_exists M d _) eqn:Es; cbn [negb].
    2:{ cbn [fst snd log]. split; [discriminate|]. right. exists p.
        split; [reflexivity | now left]. }
    destruct (run_msbuild M m _ (config_name b) d) as [result d2] eqn:Erun.
    destruct result as [[returncode stderr]|e];
      [destruct (returncode =? 0)%Z;
       [destruct (check_build_output_exists M b d2) as [pyd|] eqn:Ep|]|];
      (split;
       [|right; exists p; split; [reflexivity|]; right; exists m;
         split; [reflexivity|]; cbn [snd log]; now rewrite <- app_assoc]);
      try discriminate.
    intros _. exists pyd. cbn [fst snd disk]. split; [exact Ep | now right].
Qed.

End Building.

Ltac run_builder := vm_compute; reflexivity.

(** X12. [build_flexsimpy] answers [True] only when the module file is in
    the build tree afterwards, and its message names that file. When not
    forced and the file is already there, it says so and touches nothing.
    Otherwise it either touches nothing, or copies the FlexSim content of
    the installation [resolve_flexsim_install_path] found and then runs
    MSBuild at most once, on [FlexSimPy.sln] with the configuration
    [Rel_<version>] whose dots are underscores. *)
Theorem build_flexsimpy_result {W : Type} (M : Machine W)
    (b : FlexSimPyBuilder) (force : bool) (s : State W) :
  (fst (fst (build_flexsimpy M b force s)) = true ->
   exists pyd,
     check_build_output_exists M b (disk (snd (build_flexsimpy M b force s))) = Some pyd
     /\ path_exists M (disk (snd (build_flexsimpy M b force s))) pyd = true
     /\ (snd (fst (build_flexsimpy M b force s)) = "FlexSimPy already built at " ++ pyd
         \/ snd (fst (build_flexsimpy M b force s))
            = "FlexSimPy built successfully at " ++ pyd))
  /\ (forall pyd,
        force = false ->
        check_build_output_exists M b (disk s) = Some pyd ->
        build_flexsimpy M b force s = ((true, "FlexSimPy already built at " ++ pyd), s))
  /\ (snd (build_flexsimpy M b force s) = s
      \/ exists p,
           resolve_flexsim_install_path M b (disk s) = Some p
           /\ (log (snd (build_flexsimpy M b force s)) = (log s ++ [Copied p])%list
               \/ exists m,
                    log (snd (build_flexsimpy M b force s))
                    = (log s
                       ++ [Copied p;
                           MSBuild m (PyPath.joinpath (flexsimpy_dir b) "FlexSimPy.sln")
                             ("Rel_" ++ replace_dots (python_version b))])%list)).
Proof.
  destruct (build_flexsimpy_outcome M b force s) as [Hok Hlog].
  split; [|split].
  - intros Ht. destruct (Hok Ht) as (pyd & Hc & Hm). exists pyd.
    split; [exact Hc|]. split; [|exact Hm].
    apply (check_build_output_found M b _ pyd Hc).
  - intros pyd -> Hc. unfold build_flexsimpy. cbn [negb]. now rewrite Hc.
  - destruct Hlog as [Hs|(p & Hp & [Hl|(m & _ & Hl)])]; [now left| |].
    + right. exists p. split; [exact Hp | now left].
    + right. exists p. split; [exact Hp|]. right. exists m. exact Hl.
Qed.

(** X12 on a checkout without the module: the build copies the content of
    the installation found at the second configured path, runs MSBuild for
    [Rel_3_10] and finds the module file. *)
Lemma build_flexsimpy_result_witness :
  build_flexsimpy (BuildScenario.machine (Some "C:/MSBuild.exe") 0)
    (BuildScenario.builder true) false BuildScenario.checkout
  = ((true, "FlexSimPy built successfully at " ++ BuildScenario.pyd_file),
     {| disk := (disk BuildScenario.checkout
                 ++ ["/repo/src/depends/FlexSimPy/flexsimcontent";
                     BuildScenario.pyd_file])%list;
        log := [Copied "/opt/FlexSim/program";
                MSBuild "C:/MSBuild.exe" "/repo/src/depends/FlexSimPy/FlexSimPy.sln"
                  "Rel_3_10"] |})
  /\ exists pyd,
       check_build_output_exists (BuildScenario.machine (Some "C:/MSBuild.exe") 0)
         (BuildScenario.builder true)
         (disk (snd (build_flexsimpy (BuildScenario.machine (Some "C:/MSBuild.exe") 0)
                       (BuildScenario.builder true) false BuildScenario.checkout)))
       = Some pyd
       /\ path_exists (BuildScenario.machine (Some "C:/MSBuild.exe") 0)
            (disk (snd (build_flexsimpy (BuildScenario.machine (Some "C:/MSBuild.exe") 0)
                          (BuildScenario.builder true) false BuildScenario.checkout)))
            pyd = true
       /\ (snd (fst (build_flexsimpy (BuildScenario.machine (Some "C:/MSBuild.exe") 0)
                       (BuildScenario.builder true) false BuildScenario.checkout))
           = "FlexSimPy already built at " ++ pyd
           \/ snd (fst (build_flexsimpy (BuildScenario.machine (Some "C:/MSBuild.exe") 0)
                          (BuildScenario.builder true) false BuildScenario.checkout))
              = "FlexSimPy built successfully at " ++ pyd).
Proof.
  split; [run_builder|].
  apply (proj1 (build_flexsimpy_result (BuildScenario.machine (Some "C:/MSBuild.exe") 0)
                  (BuildScenario.builder true) false BuildScenario.checkout)).
  vm_compute. reflexivity.
Defined.

Section Ensuring.

Context {W : Type} (M : Machine W).

(** Looking for the module file and building it when it is missing: the
    file in hand is in the build tree, an answer given there is a failure
    other than the one after the second look, and only build steps were
    taken, none without [auto_build]. *)
Lemma build_if_missing_outcome (b : FlexSimPyBuilder) (s : State W) :
  (forall pyd,
     fst (build_if_missing M b s) = inr pyd ->
     check_build_output_exists M b (disk (snd (build_if_missing M b s))) = Some pyd)
  /\ (forall answer,
        fst (build_if_missing M b s) = inl answer ->
        fst answer = false /\ snd answer <> "Build succeeded but output not found")
  /\ (exists built,
        log (snd (build_if_missing M b s)) = (log s ++ built)%list
        /\ forallb is_build_step built = true)
  /\ (auto_build b = false -> snd (build_if_missing M b s) = s).
Proof.
  unfold build_if_missing.
  destruct (check_build_output_exists M b (disk s)) as [pyd|] eqn:E0.
  - cbn [fst snd]. split; [|split; [|split]].
    + now intros pyd' [= <-].
    + discriminate.
    + exists []. now rewrite app_nil_r.
    + reflexivity.
  - destruct (auto_build b); cbn [negb].
    2:{ cbn [fst snd]. split; [|split; [|split]].
        - discriminate.
        - intros answer [= <-]. cbn [fst snd]. split; [reflexivity | discriminate].
        - exists []. now rewrite app_nil_r.
        - reflexivity. }
    destruct (build_flexsimpy_outcome M b false s) as [Hok Hlog].
    assert (Hbuilt : exists built,
               log (snd (build_flexsimpy M b false s)) = (log s ++ built)%list
               /\ forallb is_build_step built = true).
    { destruct Hlog as [->|(p & _ & [->|(m & _ & ->)])].
      - exists []. now rewrite app_nil_r.
      - now exists [Copied p].
      - now eexists [Copied p; MSBuild m _ _]. }
    destruct (build_flexsimpy M b false s) as [[success build_msg] s1].
    cbn [fst snd] in Hok, Hbuilt. destruct success; cbn [negb].
    + destruct (Hok eq_refl) as (pyd & Hc & _). rewrite Hc. cbn [fst snd].
      split; [|split; [|split]].
      * intros pyd' [= <-]. exact Hc.
      * discriminate.
      * exact Hbuilt.
      * discriminate.
    + cbn [fst snd]. split; [|split; [|split]].
      * discriminate.
      * intros answer [= <-]. cbn [fst snd]. split; [reflexivity | discriminate].
      * exact Hbuilt.
      * discriminate.
Qed.

End Ensuring.

(** X13. [ensure_flexsimpy_available]: when [import FlexSimPy] works it
    says so and does nothing, in every mode. When it does not: mode
    ["check"] does nothing; without [auto_build] nothing is copied or
    built; the module is installed only in mode ["install"], as the last
    step, and it is the module file of the build tree that is installed; a
    mode that is neither ["check"] nor ["install"] is treated as
    ["build"]; in such a mode the answer is [True] only with the module
    file in the build tree; and the answer "Build succeeded but output not
    found" is never given. *)
Theorem ensure_flexsimpy_available_steps {W : Type} (M : Machine W)
    (b : FlexSimPyBuilder) (mode : string) (s : State W) :
  (forall module_path,
     import_FlexSimPy M (disk s) = inl module_path ->
     ensure_flexsimpy_available M b mode s
     = ((true, "FlexSimPy module available at " ++ module_path), s))
  /\ (mode = "check" -> snd (ensure_flexsimpy_available M b mode s) = s)
  /\ (exists built installed,
        log (snd (ensure_flexsimpy_available M b mode s))
        = (log s ++ built ++ installed)%list
        /\ forallb is_build_step built = true
        /\ (auto_build b = false -> built = [])
        /\ (installed = []
            \/ mode = "install"
               /\ installed
                  = [Installed
                       (PyPath.joinpath
                          (PyPath.joinpath (PyPath.joinpath (flexsimpy_dir b) "out")
                             (config_name b))
                          "FlexSimPy.pyd")]))
  /\ (mode <> "check" -> mode <> "install" ->
      ensure_flexsimpy_available M b mode s = ensure_flexsimpy_available M b "build" s)
  /\ (mode <> "install" ->
      fst (fst (ensure_flexsimpy_available M b mode s)) = true ->
      (exists module_path, import_FlexSimPy M (disk s) = inl module_path)
      \/ exists pyd,
           check_build_output_exists M b (disk (snd (ensure_flexsimpy_available M b mode s)))
           = Some pyd)
  /\ snd (fst (ensure_flexsimpy_available M b mode s))
     <> "Build succeeded but output not found".
Proof.
  unfold ensure_flexsimpy_available, check_flexsimpy_available.
  destruct (import_FlexSimPy M (disk s)) as [path|e] eqn:Ei.
  { cbn [fst snd]. split; [|split; [|split; [|split; [|split]]]].
    - now intros module_path [= <-].
    - reflexivity.
    - exists [], []. rewrite app_nil_r. repeat split; auto.
    - reflexivity.
    - intros _ _. left. now exists path.
    - discriminate. }
  destruct (build_if_missing_outcome M b s) as (Hpyd & Hans & (built & Hlog & Hbuilt) & Hauto).
  assert (Hnone : auto_build b = false -> built = []).
  { intros Ha. rewrite (Hauto Ha) in Hlog.
    destruct built as [|x built]; [reflexivity|].
    exfalso. apply (f_equal (@List.length event)) in Hlog.
    rewrite length_app in Hlog. cbn in Hlog. lia. }
  split; [discriminate|].
  split; [intros ->; reflexivity|].
  split; [|split; [|split]].
  - destruct (mode =? "check") eqn:Ec.
    { exists [], []. cbn [snd]. rewrite app_nil_r. repeat split; auto. }
    destruct (build_if_missing M b s) as [[answer|pyd] s1]; cbn [fst snd] in *.
    { exists built, []. rewrite app_nil_r. repeat split; auto. }
    destruct (String.eqb_spec mode "install") as [Em|Em].
    + destruct (install_pyd_to_python_path M pyd (disk s1)) as [installed d2].
      exists built, [Installed pyd].
      assert (Hl : log (snd ((if installed
                              then (true, "FlexSimPy installed to site-packages from " ++ pyd)
                              else (false,
                                    "FlexSimPy built at " ++ pyd
                                    ++ " but failed to install to site-packages. "
                                    ++ "Add " ++ parent M pyd ++ " to PYTHONPATH manually.")),
                             {| disk := d2; log := log s1 ++ [Installed pyd] |}))
                   = (log s ++ built ++ [Installed pyd])%list).
      { cbn [snd log]. rewrite Hlog. now rewrite <- app_assoc. }
      destruct installed; (split; [exact Hl|]); repeat split; auto; right; split; auto;
        destruct (check_build_output_found M b _ pyd (Hpyd pyd eq_refl)) as [<- _];
        reflexivity.
    + exists built, []. cbn [snd]. rewrite app_nil_r. repeat split; auto.
  - intros Hc Hi.
    destruct (String.eqb_spec mode "check") as [E|_]; [contradiction|].
    destruct (String.eqb_spec mode "install") as [E|_]; [contradiction|].
    reflexivity.
  - intros Hi.
    destruct (String.eqb_spec mode "install") as [E|_]; [contradiction|].
    destruct (mode =? "check"); [discriminate|].
    destruct (build_if_missing M b s) as [[answer|pyd] s1]; cbn [fst snd] in *.
    + intros Ht. destruct (Hans answer eq_refl) as [F _]. congruence.
    + intros _. right. exists pyd. now apply Hpyd.
  - destruct (mode =? "check"); [discriminate|].
    destruct (build_if_missing M b s) as [[answer|pyd] s1]; cbn [fst snd] in *.
    + now apply Hans.
    + destruct (mode =? "install"); [|discriminate].
      destruct (install_pyd_to_python_path M pyd (disk s1)) as [[] d2]; discriminate.
Qed.

(** X13 on a checkout without the module: in mode ["install"] the content
    is copied, MSBuild runs once and the module file is installed; in mode
    ["check"] nothing happens. *)
Lemma ensure_flexsimpy_available_steps_witness :
  ensure_flexsimpy_available (BuildScenario.machine (Some "C:/MSBuild.exe") 0)
    (BuildScenario.builder true) "install" BuildScenario.checkout
  = ((true, "FlexSimPy installed to site-packages from " ++ BuildScenario.pyd_file),
     {| disk := (disk BuildScenario.checkout
                 ++ ["/repo/src/depends/FlexSimPy/flexsimcontent";
                     BuildScenario.pyd_file;
                     BuildScenario.site_packages])%list;
        log := [Copied "/opt/FlexSim/program";
                MSBuild "C:/MSBuild.exe" "/repo/src/depends/FlexSimPy/FlexSimPy.sln"
                  "Rel_3_10";
                Installed BuildScenario.pyd_file] |})
  /\ snd (ensure_flexsimpy_available (BuildScenario.machine (Some "C:/MSBuild.exe") 0)
            (BuildScenario.builder true) "check" BuildScenario.checkout)
     = BuildScenario.checkout.
Proof.
  split; [run_builder|].
  exact (proj1 (proj2 (ensure_flexsimpy_available_steps
                         (BuildScenario.machine (Some "C:/MSBuild.exe") 0)
                         (BuildScenario.builder true) "check" BuildScenario.checkout))
           eq_refl).
Defined.

End BuilderFacts.

(** ** The three places that look for the FlexSim installation *)

Module InstallationFacts.

Import Server Builder.

Section Agreement.

Context {S W : Type} (H : Host S) (M : Machine W).

(** Where every path stands for itself and the two see the same disk, the
    builder's loop is the search of the server. *)
Lemma first_existing_find (d : W) (l : list string) :
  (forall p, path_exists M d p = exists_ H p) ->
  (forall p, In p l -> locate M p = p) ->
  first_existing M d l = find (exists_ H) l.
Proof.
  intros Hd. induction l as [|x l IH]; intros Hl; cbn [first_existing find].
  - reflexivity.
  - rewrite (Hl x (or_introl eq_refl)), Hd.
    destruct (exists_ H x); [reflexivity|].
    apply IH. intros p Hp. apply Hl. now right.
Qed.

Lemma filter_truthy_all (l : list string) :
  (forall p, In p l -> p <> "") -> filter PyStr.truthy l = l.
Proof.
  induction l as [|x l IH]; intros Hl; cbn [filter]; [reflexivity|].
  unfold PyStr.truthy at 1. destruct (String.eqb_spec x "") as [E|_].
  - destruct (Hl x (or_introl eq_refl) E).
  - cbn [negb]. f_equal. apply IH. intros p Hp. apply Hl. now right.
Qed.

End Agreement.

(** X14. The server, the builder and the integration test each look for
    the FlexSim installation in their own way. Let the server and the
    builder read the same configuration and see the same disk, with every
    configured path non-empty, absolute and free of [~]. Then a server whose
    FlexSimPy module is loaded calls [FlexSimPy.launch] with exactly the
    directory the builder resolves, and when the builder resolves none it
    raises [FileNotFoundError] without calling the engine. A server without
    the module raises [RuntimeError] before it looks at any path, whatever
    the builder resolves. And when the primary path exists, the builder and
    the integration test both use that directory. *)
Theorem one_installation_for_all {S W : Type} (H : Host S) (M : Machine W)
    (b : FlexSimPyBuilder) (w : World S) (d : W) :
  config b = current_config H w ->
  (forall p, path_exists M d p = exists_ H p) ->
  (forall p,
     In p (Config.flexsim_install_path (config b)
           :: Config.flexsim_alternative_paths (config b)) ->
     p <> "" /\ expanduser M p = p /\ is_absolute M p = true) ->
  (FlexSimPy_loaded H = true ->
   match resolve_flexsim_install_path M b d with
   | Some r =>
       launch_flexsim_sync H w
       = invoke (CLaunch r) (launch (eng H) r) (snd (get_config H w))
   | None =>
       (exists e,
          launch_flexsim_sync H w = (Exc e, snd (get_config H w))
          /\ exn_class e = FileNotFoundError)
       /\ calls (snd (launch_flexsim_sync H w)) = calls w
       /\ engine (snd (launch_flexsim_sync H w)) = engine w
   end)
  /\ (FlexSimPy_loaded H = false ->
      launch_flexsim_sync H w
      = (Exc {| exn_class := RuntimeError;
                exn_msg := "FlexSimPy module not available" |}, w))
  /\ (exists_ H (Config.flexsim_install_path (config b)) = true ->
      IntegrationTest.resolve_program_dir M (config b) d
      = inl (Config.flexsim_install_path (config b))
      /\ resolve_flexsim_install_path M b d
         = Some (Config.flexsim_install_path (config b))).
Proof.
  intros Hc Hd Hp.
  assert (Hloc : forall p,
             In p (Config.flexsim_install_path (config b)
                   :: Config.flexsim_alternative_paths (config b)) ->
             locate M p = p).
  { intros p Hin. destruct (Hp p Hin) as (_ & He & Ha).
    unfold locate. now rewrite He, Ha. }
  assert (Hr : resolve_flexsim_install_path M b d
               = find (exists_ H)
                   (Config.flexsim_install_path (config b)
                    :: Config.flexsim_alternative_paths (config b))).
  { rewrite BuilderFacts.resolve_first_existing.
    rewrite filter_truthy_all by (intros p Hin; apply (Hp p Hin)).
    now apply first_existing_find. }
  split; [|split].
  - intros Hl.
    rewrite Hr, (LaunchFacts.launch_flexsim_sync_loaded H w Hl), <- Hc.
    cbn [find].
    destruct (exists_ H (Config.flexsim_install_path (config b))); [reflexivity|].
    destruct (find (exists_ H) (Config.flexsim_alternative_paths (config b)));
      [reflexivity|].
    destruct (LaunchFacts.get_config_frame H w) as (_ & Hcalls & Hengine & _).
    split; [eexists; split; reflexivity|]. split; [exact Hcalls | exact Hengine].
  - intros Hl. unfold launch_flexsim_sync. now rewrite Hl.
  - intros He. split.
    + unfold IntegrationTest.resolve_program_dir, IntegrationTest.candidates.
      destruct (Hp _ (or_introl eq_refl)) as (Hne & _ & Ha).
      unfold PyStr.truthy.
      destruct (String.eqb_spec (Config.flexsim_install_path (config b)) "") as [E|_];
        [contradiction|].
      cbn [negb]. rewrite Ha. cbn [negb app find]. now rewrite Hd, He.
    + rewrite Hr. cbn [find]. now rewrite He.
Qed.

(** X14 on a machine with FlexSim at the configured primary path. *)
Lemma one_installation_for_all_witness :
  launch_flexsim_sync (Scenario.host ["/opt/FlexSim/program"] true)
    (Scenario.fresh (Scenario.config_with "/opt/FlexSim/program" ["/srv/FlexSim"])
       (Scenario.sim_at 0 0))
  = (Val 7,
     {| _controller := None;
        _config_global :=
          Some (Scenario.config_with "/opt/FlexSim/program" ["/srv/FlexSim"]);
        engine := Scenario.sim_at 0 0;
        calls := [CLaunch "/opt/FlexSim/program"] |})
  /\ IntegrationTest.resolve_program_dir (BuildScenario.machine None 0)
       (Scenario.config_with "/opt/FlexSim/program" ["/srv/FlexSim"])
       ["/opt/FlexSim/program"]
     = inl "/opt/FlexSim/program"
  /\ resolve_flexsim_install_path (BuildScenario.machine None 0)
       {| config := Scenario.config_with "/opt/FlexSim/program" ["/srv/FlexSim"];
          python_version := "3.10";
          auto_build := true;
          flexsimpy_dir := "/repo/src/depends/FlexSimPy" |}
       ["/opt/FlexSim/program"]
     = Some "/opt/FlexSim/program".
Proof.
  split; [reflexivity|].
  refine (proj2 (proj2 (one_installation_for_all
                   (Scenario.host ["/opt/FlexSim/program"] true)
                   (BuildScenario.machine None 0)
                   {| config := Scenario.config_with "/opt/FlexSim/program" ["/srv/FlexSim"];
                      python_version := "3.10";
                      auto_build := true;
                      flexsimpy_dir := "/repo/src/depends/FlexSimPy" |}
                   (Scenario.fresh
                      (Scenario.config_with "/opt/FlexSim/program" ["/srv/FlexSim"])
                      (Scenario.sim_at 0 0))
                   ["/opt/FlexSim/program"]
                   eq_refl (fun p => eq_refl) _)) eq_refl).
  intros p [<-|[<-|[]]]; (split; [discriminate | split; reflexivity]).
Defined.

End InstallationFacts.

(** ** The copy of the FlexSim installation *)

Module CopyFlexSimFacts.

Import ConfigAccess CopyFlexSim.

Local Open Scope bool_scope.

(** Only the letter y, in either case, lower-cases to ["y"]. *)
Lemma lower_is_y (r : string) :
  PyStr.lower r = "y" <-> r = "y" \/ r = "Y".
Proof.
  split.
  - destruct r as [|c [|c' r]]; cbn [PyStr.lower]; try discriminate.
    intros [= Hc].
    destruct c as [[] [] [] [] [] [] [] []]; vm_compute in Hc; try discriminate; auto.
  - intros [ -> | -> ]; reflexivity.
Qed.

Section WithMachine.

Context {W : Type} (M : Machine W).

Lemma copy_files_run (src dst : string) (s : State W) :
  log (snd (copy_files M src dst s)) = (log s ++ [CopiedTree src dst])%list
  /\ (fst (copy_files M src dst s) = Returned true
      \/ fst (copy_files M src dst s) = Returned false).
Proof.
  unfold copy_files. destruct (copytree M src dst (disk s)) as [[e|] d]; cbn; auto.
Qed.

Lemma remove_and_copy_run (src dst : string) (s : State W) :
  log (snd (remove_and_copy M src dst s))
  = (log s ++ [Removed dst; CopiedTree src dst])%list
  /\ (fst (remove_and_copy M src dst s) = Returned true
      \/ fst (remove_and_copy M src dst s) = Returned false).
Proof.
  unfold remove_and_copy.
  destruct (copy_files_run src dst (record (Removed dst) (rmtree M dst (disk s)) s))
    as [-> Hr].
  split; [|exact Hr]. cbn [record log]. now rewrite <- app_assoc.
Qed.

(** The runs of [copy_flexsim]: nothing is done; the operator is asked and
    nothing else is done; or the tree is copied from the configured source,
    after the destination was removed if it existed, which happens only when
    forced or after the operator agreed. *)
Lemma copy_flexsim_runs (doc : table) (force : bool) (reply : option string)
    (s : State W) :
  let dst := PyPath.joinpath (repo_root M) "FlexSimDev" in
  let r := copy_flexsim M doc force reply s in
  (snd r = s /\ fst r <> Returned true)
  \/ (snd r = record Asked (disk s) s /\ fst r <> Returned true
      /\ force = false /\ ~ agreed reply /\ path_exists M (disk s) dst = true)
  \/ exists src,
       get doc "flexsim.src_path" None = Some (Str src)
       /\ src <> "" /\ path_exists M (disk s) src = true
       /\ (fst r = Returned true \/ fst r = Returned false)
       /\ ((path_exists M (disk s) dst = false
            /\ log (snd r) = (log s ++ [CopiedTree src dst])%list)
           \/ (path_exists M (disk s) dst = true /\ force = true
               /\ log (snd r) = (log s ++ [Removed dst; CopiedTree src dst])%list)
           \/ (path_exists M (disk s) dst = true /\ force = false /\ agreed reply
               /\ log (snd r)
                  = (log s ++ [Asked; Removed dst; CopiedTree src dst])%list)).
Proof.
  cbv zeta. unfold copy_flexsim.
  destruct (get doc "flexsim.src_path" None) as [v|] eqn:Eg.
  2:{ left. split; [reflexivity | discriminate]. }
  destruct (value_truthy v) eqn:Ev; cbn [negb].
  2:{ left. split; [reflexivity | discriminate]. }
  destruct v as [src| | | | | |]; try (left; split; [reflexivity | discriminate]).
  destruct (path_exists M (disk s) src) eqn:Es; cbn [negb].
  2:{ left. split; [reflexivity | discriminate]. }
  assert (Hne : src <> "").
  { intros ->. discriminate Ev. }
  destruct (path_exists M (disk s) (PyPath.joinpath (repo_root M) "FlexSimDev")) eqn:Ed.
  - destruct force; cbn [negb].
    + right. right. exists src.
      destruct (remove_and_copy_run src (PyPath.joinpath (repo_root M) "FlexSimDev") s)
        as [Hl Hr].
      split; [reflexivity|]. split; [exact Hne|]. split; [exact Es|].
      split; [exact Hr|]. right. left. auto.
    + destruct reply as [response|].
      2:{ right. left. cbn [fst snd]. split; [reflexivity|]. split; [discriminate|].
          split; [reflexivity|]. split; [|reflexivity]. intros [F|F]; discriminate. }
      destruct (String.eqb_spec (PyStr.lower response) "y") as [Ey|Ey]; cbn [negb].
      * right. right. exists src.
        destruct (remove_and_copy_run src (PyPath.joinpath (repo_root M) "FlexSimDev")
                    (record Asked (disk s) s)) as [Hl Hr].
        split; [reflexivity|]. split; [exact Hne|]. split; [exact Es|].
        split; [exact Hr|]. right. right.
        split; [reflexivity|]. split; [reflexivity|]. split.
        -- apply lower_is_y in Ey. destruct Ey as [ -> | -> ]; [now left | now right].
        -- rewrite Hl. cbn [record log]. now rewrite <- app_assoc.
      * right. left. cbn [fst snd]. split; [reflexivity|]. split; [discriminate|].
        split; [reflexivity|]. split; [|reflexivity].
        intros [F|F]; injection F as ->; apply Ey; reflexivity.
  - right. right. exists src.
    destruct (copy_files_run src (PyPath.joinpath (repo_root M) "FlexSimDev") s)
      as [Hl Hr].
    split; [reflexivity|]. split; [exact Hne|]. split; [exact Es|].
    split; [exact Hr|]. left. auto.
Qed.

End WithMachine.

(** X15. [copy_flexsim] removes nothing but the directory [FlexSimDev] of
    the repository, and only when that exists and either [force] is set or
    the operator, asked, replied with the letter y alone, in either case:
    any other reply, ["yes"] included, cancels with the disk untouched. It
    copies only from the source path the configuration gives under
    [flexsim.src_path], a non-empty string naming something that exists,
    into that directory, and returns [True] only after such a copy. *)
Theorem copy_flexsim_asks_before_removing {W : Type} (M : Machine W)
    (doc : table) (force : bool) (reply : option string) (s : State W) :
  (forall p,
     In (Removed p) (log (snd (copy_flexsim M doc force reply s))) ->
     In (Removed p) (log s)
     \/ (p = PyPath.joinpath (repo_root M) "FlexSimDev"
         /\ path_exists M (disk s) p = true
         /\ (force = true \/ agreed reply)))
  /\ (path_exists M (disk s) (PyPath.joinpath (repo_root M) "FlexSimDev") = true ->
      force = false -> ~ agreed reply ->
      disk (snd (copy_flexsim M doc force reply s)) = disk s
      /\ fst (copy_flexsim M doc force reply s) <> Returned true)
  /\ (forall src dst,
        In (CopiedTree src dst) (log (snd (copy_flexsim M doc force reply s))) ->
        In (CopiedTree src dst) (log s)
        \/ (get doc "flexsim.src_path" None = Some (Str src)
            /\ src <> "" /\ path_exists M (disk s) src = true
            /\ dst = PyPath.joinpath (repo_root M) "FlexSimDev"))
  /\ (fst (copy_flexsim M doc force reply s) = Returned true ->
      exists src before,
        log (snd (copy_flexsim M doc force reply s))
        = (log s ++ before
           ++ [CopiedTree src (PyPath.joinpath (repo_root M) "FlexSimDev")])%list).
Proof.
  pose proof (copy_flexsim_runs M doc force reply s) as Hruns. cbv zeta in Hruns.
  destruct Hruns as [[Hs Hf]|[(Hs & Hf & Hforce & Hno & Hd)|(src & Hg & Hne & He & Hr & Hl)]].
  - rewrite Hs. split; [|split; [|split]].
    + intros p Hp. now left.
    + intros _ _ _. split; [reflexivity | exact Hf].
    + intros a b Hc. now left.
    + intros F. contradiction.
  - rewrite Hs. cbn [record disk log]. split; [|split; [|split]].
    + intros p Hp. apply in_app_or in Hp. destruct Hp as [Hp|[F|[]]]; [now left|].
      discriminate.
    + intros _ _ _. split; [reflexivity | exact Hf].
    + intros a b Hc. apply in_app_or in Hc. destruct Hc as [Hc|[F|[]]]; [now left|].
      discriminate.
    + intros F. contradiction.
  - split; [|split; [|split]].
    + intros p Hp.
      destruct Hl as [(Hd & Hlog)|[(Hd & Hforce & Hlog)|(Hd & Hforce & Ha & Hlog)]];
        rewrite Hlog in Hp; apply in_app_or in Hp; (destruct Hp as [Hp|Hp]; [now left|]); cbn in Hp.
      * destruct Hp as [F|[]]. discriminate.
      * destruct Hp as [[= <-]|[F|[]]]; [|discriminate]. right. auto.
      * destruct Hp as [F|[[= <-]|[F|[]]]]; try discriminate. right. auto.
    + intros Hd Hforce Hno.
      destruct Hl as [(Hd' & _)|[(_ & Hforce' & _)|(_ & _ & Ha & _)]];
        [congruence | congruence | contradiction].
    + intros a b Hc.
      destruct Hl as [(Hd & Hlog)|[(Hd & Hforce & Hlog)|(Hd & Hforce & Ha & Hlog)]];
        rewrite Hlog in Hc; apply in_app_or in Hc; (destruct Hc as [Hc|Hc]; [now left|]); cbn in Hc.
      * destruct Hc as [[= <- <-]|[]]. right. auto.
      * destruct Hc as [F|[[= <- <-]|[]]]; [discriminate|]. right. auto.
      * destruct Hc as [F|[F|[[= <- <-]|[]]]]; try discriminate. right. auto.
    + intros _.
      destruct Hl as [(Hd & Hlog)|[(Hd & Hforce & Hlog)|(Hd & Hforce & Ha & Hlog)]]; rewrite Hlog.
      * now exists src, [].
      * now exists src, [Removed (PyPath.joinpath (repo_root M) "FlexSimDev")].
      * now exists src, [Asked; Removed (PyPath.joinpath (repo_root M) "FlexSimDev")].
Qed.

(** X15 on a machine that has both directories: the reply ["yes"] cancels
    and leaves the disk as it was, the reply ["Y"] has the old copy removed
    and the installation copied. *)
Lemma copy_flexsim_asks_before_removing_witness :
  copy_flexsim machine document false (Some "Y") installed
  = (Returned true,
     {| disk := ["/opt/FlexSim"; "/opt/FlexSim/program";
                 "/repo/FlexSimDev"; "/repo/FlexSimDev/program"];
        log := [Asked; Removed "/repo/FlexSimDev";
                CopiedTree "/opt/FlexSim" "/repo/FlexSimDev"] |})
  /\ disk (snd (copy_flexsim machine document false (Some "yes") installed))
     = disk installed
  /\ fst (copy_flexsim machine document false (Some "yes") installed) <> Returned true.
Proof.
  split; [vm_compute; reflexivity|].
  refine (proj1 (proj2 (copy_flexsim_asks_before_removing machine document false
                          (Some "yes") installed))
            eq_refl eq_refl _).
  intros [F|F]; discriminate.
Defined.

End CopyFlexSimFacts.
